(** * The schedule generation engine of [app.py]

    A shallow embedding of the conflict checker, the rotation tracker, the
    scoring function, the dynamic staffing resolver and the four assignment
    phases of [generate_schedule], followed by the properties of the
    specification that are settled on them.

    Conventions of the embedding.
    - A Python [int] is a [Z].  A Python [float] (hours, scores) is an exact
      rational [Q]: rounding of binary64 arithmetic is not modelled.
    - A JSON object whose key order is read back ([employees], [shifts]) is an
      association list; a dict that is only looked up and updated
      (assignments, counts, workload, rotation state) is a [gmap].  So is the
      schedule; its keys are walked in the order of their insertion, which is
      kept as the list of the formatted dates of the range.
    - A raised exception ([KeyError], [ValueError]) is [None].
    - Text is a [string] of UTF-8 bytes.  A substring test on bytes agrees
      with Python's test on code points, since UTF-8 is self-synchronising. *)

From stdpp Require Import base option list strings gmap numbers.
From Stdlib Require Import Ascii QArith Lia.

Local Open Scope string_scope.
Local Open Scope Z_scope.

(** ** Python primitives *)

(** [needle in hay] on strings. *)
Fixpoint contains (needle hay : string) : bool :=
  String.prefix needle hay ||
  match hay with
  | EmptyString => false
  | String _ rest => contains needle rest
  end.

(** Truth value of a string: every string but the empty one. *)
Definition truthy (s : string) : bool := negb (String.eqb s "").

(** Truth value of a list: every list but the empty one. *)
Definition list_truthy {A : Type} (l : list A) : bool :=
  match l with [] => false | _ :: _ => true end.

(** [d[k]] and [d.get(k)] on a JSON object kept as an association list. *)
Fixpoint dict_get {V : Type} (k : string) (d : list (string * V)) : option V :=
  match d with
  | [] => None
  | (k', v) :: d' => if String.eqb k k' then Some v else dict_get k d'
  end.

(** [list(d.keys())]. *)
Definition dict_keys {V : Type} (d : list (string * V)) : list string := d.*1.

(** [x in l] on a list of strings. *)
Definition mem (x : string) (l : list string) : bool := bool_decide (x ∈ l).

(** [l.sort(key=...)]: a stable sort; [le a b] compares the keys of [a] and
    [b].  Elements with equal keys keep their order. *)
Fixpoint insert_sorted {A : Type} (le : A → A → bool) (x : A) (l : list A) : list A :=
  match l with
  | [] => [x]
  | y :: l' => if le x y then x :: l else y :: insert_sorted le x l'
  end.

Definition stable_sort {A : Type} (le : A → A → bool) (l : list A) : list A :=
  foldr (insert_sorted le) [] l.

(** ** Calendar: [datetime.strptime], [strftime], [weekday], [timedelta]

    A [date] object is its proleptic Gregorian ordinal ([date.toordinal()]);
    adding [timedelta(days=1)] adds one.  The upper bound of [datetime]
    (year 9999) is not modelled. *)

Definition is_leap (y : Z) : bool :=
  (y mod 4 =? 0) && (negb (y mod 100 =? 0) || (y mod 400 =? 0)).

Definition days_in_month (y m : Z) : Z :=
  if m =? 2 then (if is_leap y then 29 else 28)
  else if (m =? 4) || (m =? 6) || (m =? 9) || (m =? 11) then 30
  else 31.

Definition days_before_year (y : Z) : Z :=
  let y1 := y - 1 in y1 * 365 + y1 / 4 - y1 / 100 + y1 / 400.

Definition days_before_month_table (m : Z) : Z :=
  match m with
  | 1 => 0 | 2 => 31 | 3 => 59 | 4 => 90 | 5 => 120 | 6 => 151
  | 7 => 181 | 8 => 212 | 9 => 243 | 10 => 273 | 11 => 304 | _ => 334
  end.

Definition days_before_month (y m : Z) : Z :=
  days_before_month_table m + (if (2 <? m) && is_leap y then 1 else 0).

Definition ymd2ord (y m d : Z) : Z :=
  days_before_year y + days_before_month y m + d.

(** [_ord2ymd] of the [datetime] module. *)
Definition ord2ymd (ord : Z) : Z * Z * Z :=
  let n := ord - 1 in
  let n400 := n / 146097 in
  let n := n mod 146097 in
  let n100 := n / 36524 in
  let n := n mod 36524 in
  let n4 := n / 1461 in
  let n := n mod 1461 in
  let n1 := n / 365 in
  let n := n mod 365 in
  let year := n400 * 400 + 1 + n100 * 100 + n4 * 4 + n1 in
  if (n1 =? 4) || (n100 =? 4) then (year - 1, 12, 31)
  else
    let leapyear := (n1 =? 3) && (negb (n4 =? 24) || (n100 =? 3)) in
    let month := Z.shiftr (n + 50) 5 in
    let preceding :=
      days_before_month_table month + (if (2 <? month) && leapyear then 1 else 0) in
    if n <? preceding then
      let month := month - 1 in
      let dim :=
        (if month =? 2 then 28
         else if (month =? 4) || (month =? 6) || (month =? 9) || (month =? 11) then 30
         else 31) + (if (month =? 2) && leapyear then 1 else 0) in
      (year, month, n - (preceding - dim) + 1)
    else (year, month, n - preceding + 1).

Definition digit_char (n : Z) : ascii := ascii_of_nat (Z.to_nat (48 + n mod 10)).

Definition two_digits (n : Z) : string :=
  String (digit_char (n / 10)) (String (digit_char n) "").

Definition four_digits (n : Z) : string :=
  String (digit_char (n / 1000)) (String (digit_char (n / 100)) (two_digits n)).

(** [date.strftime("%Y-%m-%d")], for a year of four digits. *)
Definition strftime (ord : Z) : string :=
  let '(y, m, d) := ord2ymd ord in
  four_digits y +:+ "-" +:+ two_digits m +:+ "-" +:+ two_digits d.

Definition digit_value (c : ascii) : option Z :=
  let n := Z.of_nat (nat_of_ascii c) in
  if (48 <=? n) && (n <=? 57) then Some (n - 48) else None.

(** The month field of [%m]: [1[0-2]|0[1-9]|[1-9]]. *)
Definition month_field (cs : list ascii) : option Z :=
  match cs with
  | [a] => n ← digit_value a; if 1 <=? n then Some n else None
  | [a; b] =>
      x ← digit_value a; y ← digit_value b;
      let n := 10 * x + y in
      if (1 <=? n) && (n <=? 12) then Some n else None
  | _ => None
  end.

(** The day field of [%d]: [3[01]|[12]\d|0[1-9]|[1-9]| [1-9]]. *)
Definition day_field (cs : list ascii) : option Z :=
  match cs with
  | [a] => n ← digit_value a; if 1 <=? n then Some n else None
  | [a; b] =>
      y ← digit_value b;
      if Ascii.eqb a " "%char then (if 1 <=? y then Some y else None)
      else
        x ← digit_value a;
        let n := 10 * x + y in
        if (1 <=? n) && (n <=? 31) then Some n else None
  | _ => None
  end.

(** The text before the first hyphen and the text after it. *)
Fixpoint split_hyphen (cs : list ascii) : option (list ascii * list ascii) :=
  match cs with
  | [] => None
  | c :: cs' =>
      if Ascii.eqb c "-"%char then Some ([], cs')
      else '(l, r) ← split_hyphen cs'; Some (c :: l, r)
  end.

(** [datetime.strptime(s, "%Y-%m-%d")] as the ordinal of the parsed day, on
    ASCII digits; [None] is the [ValueError] of a text that is no date. *)
Definition strptime (s : string) : option Z :=
  match String.list_ascii_of_string s with
  | y1 :: y2 :: y3 :: y4 :: rest =>
      a ← digit_value y1; b ← digit_value y2;
      c ← digit_value y3; d ← digit_value y4;
      let y := 1000 * a + 100 * b + 10 * c + d in
      match rest with
      | sep :: rest' =>
          if Ascii.eqb sep "-"%char then
            '(ms, ds) ← split_hyphen rest';
            m ← month_field ms;
            dd ← day_field ds;
            if (1 <=? y) && (dd <=? days_in_month y m)
            then Some (ymd2ord y m dd) else None
          else None
      | [] => None
      end
  | _ => None
  end.

(** [date.weekday()]: Monday is 0. *)
Definition weekday (ord : Z) : Z := (ord + 6) mod 7.

Definition weekday_map (w : Z) : string :=
  match w with
  | 0 => "周一" | 1 => "周二" | 2 => "周三" | 3 => "周四"
  | 4 => "周五" | 5 => "周六" | _ => "周日"
  end.

Definition weekday_names : list string :=
  ["周一"; "周二"; "周三"; "周四"; "周五"; "周六"; "周日"].

Definition get_weekday_chinese (date_str : string) : option string :=
  date_obj ← strptime date_str;
  Some (weekday_map (weekday date_obj)).

(** ** Domain model *)

(** An employee record of [employees.json]; a missing [rest_day] or
    [unavailable_days] reads as the empty string and a missing list as the
    empty list, as every [emp.get] of the engine does.  [unavailable_days] is
    the text typed by the user (dates separated by commas). *)
Record Employee := mkEmployee {
  name : option string;
  skills : list string;
  rest_day : string;
  preferred_shifts : list string;
  unavailable_days : string
}.

(** A shift record of [shifts.json].  [required_staff] and [duration_hours]
    stay optional: the engine reads them with different defaults. *)
Record Shift := mkShift {
  required_staff : option Z;
  required_skills : list string;
  duration_hours : option Q
}.

(** [rules.json]; the last two fields are the [special_rules] block with its
    defaults, the first four are advisory. *)
Record Rules := mkRules {
  min_rest_hours : Z;
  max_consecutive_days : Z;
  min_weekly_hours : Z;
  max_weekly_hours : Z;
  fixed_early_early_shift_employees : list string;
  monday_no_early_early_shift : bool
}.

(** One day of the schedule. *)
Record DayEntry := mkDay {
  assignments : gmap string string;
  shift_counts : gmap string Z
}.

Abbreviation Schedule := (gmap string DayEntry).

Record Workload := mkWorkload { days : Z; hours : Q }.

(** The five values returned by [get_shift_type]:
    早早班, 早班, 晚班, 中班, 其他. *)
Inductive ShiftType := EarlyEarly | Early | Late | Mid | Other.

#[global] Instance ShiftType_eq_dec : EqDecision ShiftType.
Proof. solve_decision. Defined.

(** An entry of [employee_shift_cycle]. *)
Record Cycle := mkCycle {
  current_type : option ShiftType;
  last_work_date : option string;
  rested : bool
}.

(** What [cycle.get(emp_id, {})] reads from. *)
Definition no_cycle : Cycle := mkCycle None None false.

Record GenState := mkGen {
  schedule : Schedule;
  employee_workload : gmap string Workload;
  employee_shift_cycle : gmap string Cycle
}.

(** [st.session_state]. *)
Record SessionState := mkSession {
  st_employees : list (string * Employee);
  st_shifts : list (string * Shift);
  st_rules : Rules;
  st_schedule : Schedule;
  st_schedule_period : string * string
}.

(** The reasons appended by [check_conflicts], without their wording. *)
Inductive Conflict :=
| EmployeeMissing (emp_id : string)
| ShiftMissing (shift_id : string)
| RestsOn (who weekday_chinese : string)
| UnavailableOn (who date : string)
| LacksSkills (who : string) (required : list string)
| AlreadyBooked (who date : string).

(** What a run of the page shows. *)
Inductive Outcome :=
| MissingData (no_employees no_shifts : bool)
| InvalidPeriod
| AwaitingClick
| Generated.

(** ** Shift categories *)

Definition get_shift_type (shift_id : string) : ShiftType :=
  if contains "早早" shift_id then EarlyEarly
  else if contains "早" shift_id then Early
  else if contains "晚" shift_id then Late
  else if contains "中" shift_id then Mid
  else Other.

Definition get_opposite_shift_type (shift_type : ShiftType) : ShiftType :=
  match shift_type with
  | Early => Late
  | Late => Early
  | other => other
  end.

(** [current_type in ["早班", "晚班"]]. *)
Definition rotating (t : ShiftType) : bool :=
  match t with Early | Late => true | _ => false end.

(** ** Constants of [generate_schedule] *)

Definition early_shift_id : string := "二期水吧-早班".
Definition early_early_shift_id : string := "二期水吧-早早班".
Definition fixed_early_early_shift : string := "二期水吧-早早班".

Record Flexible := mkFlexible {
  allow_empty : bool;
  flexible_required_staff : option Z
}.

Definition flexible_shifts : list (string * Flexible) :=
  [("二期水吧-早班", mkFlexible true None)].

(** Truth value of a dict. *)
Definition dict_truthy {V : Type} (d : gmap string V) : bool :=
  negb (bool_decide (size d = 0%nat)).

(** The loop of [check_if_rested]: [check_date] runs over the [remaining]
    days up to the current date. *)
Fixpoint rest_day_passed (rest_day : string) (check_date : Z) (remaining : nat) : bool :=
  match remaining with
  | O => false
  | S n =>
      if String.eqb (weekday_map (weekday check_date)) rest_day then true
      else rest_day_passed rest_day (check_date + 1) n
  end.

(** [schedule[date_str]["assignments"][emp_id] = shift_id]. *)
Definition set_assignment (date_str emp_id shift_id : string) (sch : Schedule)
  : option Schedule :=
  entry ← sch !! date_str;
  Some (<[date_str := mkDay (<[emp_id := shift_id]> (assignments entry))
                            (shift_counts entry)]> sch).

(** [schedule[date_str]["shift_counts"][shift_id] = n]. *)
Definition set_count (date_str shift_id : string) (n : Z) (sch : Schedule)
  : option Schedule :=
  entry ← sch !! date_str;
  Some (<[date_str := mkDay (assignments entry)
                            (<[shift_id := n]> (shift_counts entry))]> sch).

(** [schedule[date_str]["shift_counts"].get(shift_id, 0)]. *)
Definition get_count (date_str shift_id : string) (sch : Schedule) : option Z :=
  entry ← sch !! date_str;
  Some (default 0 (shift_counts entry !! shift_id)).

(** [workload[emp_id]["days"] += 1; workload[emp_id]["hours"] += duration]. *)
Definition add_work (emp_id : string) (duration : Q) (wl : gmap string Workload)
  : option (gmap string Workload) :=
  w ← wl !! emp_id;
  Some (<[emp_id := mkWorkload (days w + 1) (hours w + duration)%Q]> wl).

(** ** The engine

    [employees] and [shifts] are the two objects of the session state;
    [fixed_early_early_employees] and [monday_no_early_early] are the two
    special rules read at the start of a run.  The functions nested in
    [generate_schedule] close over them. *)
Section Engine.

Context (employees : list (string * Employee)).
Context (shifts : list (string * Shift)).
Context (fixed_early_early_employees : list string).
Context (monday_no_early_early : bool).

Definition employee_list : list string := dict_keys employees.
Definition shift_list : list string := dict_keys shifts.

(** [emp.get('name', emp_id)]. *)
Definition display_name (emp_id : string) (emp : Employee) : string :=
  default emp_id (name emp).

(** [any(skill in emp_skills for skill in required_skills)]. *)
Definition has_any_skill (emp_skills required_skills : list string) : bool :=
  existsb (λ skill, mem skill emp_skills) required_skills.

(** [emp_id in schedule[date].get("assignments", {})], under [date in schedule]. *)
Definition already_assigned (emp_id date : string) (sch : Schedule) : bool :=
  match sch !! date with
  | Some entry => bool_decide (is_Some (assignments entry !! emp_id))
  | None => false
  end.

Definition check_conflicts (emp_id shift_id date : string) (sch : Schedule)
  : option (list Conflict) :=
  match dict_get emp_id employees with
  | None => Some [EmployeeMissing emp_id]
  | Some emp =>
    match dict_get shift_id shifts with
    | None => Some [ShiftMissing shift_id]
    | Some shift =>
      weekday_chinese ← get_weekday_chinese date;
      let who := display_name emp_id emp in
      let c_rest :=
        if truthy (rest_day emp) && String.eqb weekday_chinese (rest_day emp)
        then [RestsOn who weekday_chinese] else [] in
      let c_unavailable :=
        if truthy (unavailable_days emp) && contains date (unavailable_days emp)
        then [UnavailableOn who date] else [] in
      let c_skills :=
        if list_truthy (required_skills shift)
           && negb (has_any_skill (skills emp) (required_skills shift))
        then [LacksSkills who (required_skills shift)] else [] in
      let c_booked :=
        if already_assigned emp_id date sch then [AlreadyBooked who date] else [] in
      Some (c_rest ++ c_unavailable ++ c_skills ++ c_booked)%list
    end
  end.

(** [employee_shift_cycle.get(emp_id, {})]. *)
Definition cycle_of (cyc : gmap string Cycle) (emp_id : string) : Cycle :=
  default no_cycle (cyc !! emp_id).

Definition check_if_rested (cyc : gmap string Cycle) (emp_id current_date_str : string)
  : option bool :=
  let cycle_info := cycle_of cyc emp_id in
  match last_work_date cycle_info with
  | None => Some false
  | Some last_work =>
    if negb (truthy last_work) then Some false
    else
      let rest_day :=
        match dict_get emp_id employees with
        | Some emp => rest_day emp
        | None => ""
        end in
      if negb (truthy rest_day) then Some false
      else
        last_date ← strptime last_work;
        current_date ← strptime current_date_str;
        Some (rest_day_passed rest_day (last_date + 1)
                (Z.to_nat (current_date - last_date)))
  end.

Definition get_employee_score (cyc : gmap string Cycle)
    (emp_id shift_id date_str : string) (current_workload : gmap string Workload)
  : option Q :=
  emp ← dict_get emp_id employees;
  shift ← dict_get shift_id shifts;
  w ← current_workload !! emp_id;
  let score := 0%Q in
  let score := (score + inject_Z (days w * 10))%Q in
  let score :=
    if list_truthy (required_skills shift) then
      if has_any_skill (skills emp) (required_skills shift)
      then (score - 10)%Q else (score + 50)%Q
    else score in
  let score := if mem shift_id (preferred_shifts emp) then (score - 5)%Q else score in
  let score := (score + hours w * (1 # 10))%Q in
  let cycle_info := cycle_of cyc emp_id in
  let new_type := get_shift_type shift_id in
  if mem emp_id fixed_early_early_employees then Some score
  else
    just_rested ← check_if_rested cyc emp_id date_str;
    Some
      match current_type cycle_info with
      | Some ct =>
          if just_rested && rotating ct then
            if bool_decide (new_type = get_opposite_shift_type ct)
            then (score - 5)%Q else score
          else
            if bool_decide (new_type = ct) then (score - 3)%Q else score
      | None => score
      end.

(** [shifts[shift_id].get("required_staff", 1)], after the look-up in
    [flexible_shifts]. *)
Definition base_required_staff (shift_id : string) : option Z :=
  match dict_get shift_id flexible_shifts ≫= flexible_required_staff with
  | Some n => Some n
  | None => shift ← dict_get shift_id shifts; Some (default 1 (required_staff shift))
  end.

(** [date_str] and [schedule] default to [None] in the source. *)
Definition get_required_staff (shift_id : string) (date_str : option string)
    (sch : option Schedule) : option Z :=
  match date_str, sch with
  | Some d, Some s =>
      if String.eqb shift_id early_shift_id && truthy d && dict_truthy s then
        let early_early_count :=
          match s !! d with
          | Some entry => default 0 (shift_counts entry !! early_early_shift_id)
          | None => 0
          end in
        if early_early_count =? 0 then Some 2 else Some 1
      else base_required_staff shift_id
  | _, _ => base_required_staff shift_id
  end.

Definition is_allow_empty (shift_id : string) : bool :=
  match dict_get shift_id flexible_shifts with
  | Some f => allow_empty f
  | None => false
  end.

(** The candidate loop of [assign_employee_to_shift]. *)
Fixpoint gather_candidates (date_str shift_id : string) (st : GenState)
    (available_employees : list string) : option (list (Q * string)) :=
  match available_employees with
  | [] => Some []
  | emp_id :: rest =>
      conflicts ← check_conflicts emp_id shift_id date_str (schedule st);
      match conflicts with
      | [] =>
          score ← get_employee_score (employee_shift_cycle st) emp_id shift_id
                    date_str (employee_workload st);
          candidates ← gather_candidates date_str shift_id st rest;
          Some ((score, emp_id) :: candidates)
      | _ :: _ => gather_candidates date_str shift_id st rest
      end
  end.

(** The rotation update of [assign_employee_to_shift]. *)
Definition update_cycle (just_rested : bool) (new_shift_type : ShiftType)
    (date_str : string) (cycle_info : Cycle) : Cycle :=
  if just_rested then mkCycle (Some new_shift_type) (Some date_str) true
  else
    mkCycle
      (match current_type cycle_info with
       | Some ct => Some ct
       | None => Some new_shift_type
       end)
      (Some date_str) false.

(** The rotation update of the fourth phase: it leaves ["rested"] as it was
    when the employee has not rested. *)
Definition update_cycle_idle (just_rested : bool) (new_shift_type : ShiftType)
    (date_str : string) (cycle_info : Cycle) : Cycle :=
  if just_rested then mkCycle (Some new_shift_type) (Some date_str) true
  else
    mkCycle
      (match current_type cycle_info with
       | Some ct => Some ct
       | None => Some new_shift_type
       end)
      (Some date_str) (rested cycle_info).

Definition score_le (a b : Q * string) : bool := Qle_bool a.1 b.1.

Definition assign_employee_to_shift (date_str shift_id : string) (st : GenState)
  : option (bool * GenState) :=
  shift ← dict_get shift_id shifts;
  required_staff ← get_required_staff shift_id (Some date_str) (Some (schedule st));
  current_count ← get_count date_str shift_id (schedule st);
  if required_staff <=? current_count then Some (false, st)
  else
    entry ← schedule st !! date_str;
    let available_employees :=
      filter (λ emp_id, assignments entry !! emp_id = None) employee_list in
    candidates ← gather_candidates date_str shift_id st available_employees;
    match stable_sort score_le candidates with
    | [] => Some (false, st)
    | (_, best_emp_id) :: _ =>
        sch1 ← set_assignment date_str best_emp_id shift_id (schedule st);
        sch2 ← set_count date_str shift_id (current_count + 1) sch1;
        let shift_duration := default 8%Q (duration_hours shift) in
        wl ← add_work best_emp_id shift_duration (employee_workload st);
        let new_shift_type := get_shift_type shift_id in
        let cycle_info := cycle_of (employee_shift_cycle st) best_emp_id in
        just_rested ← check_if_rested (employee_shift_cycle st) best_emp_id date_str;
        let cyc :=
          <[best_emp_id := update_cycle just_rested new_shift_type date_str cycle_info]>
            (employee_shift_cycle st) in
        Some (true, mkGen sch2 wl cyc)
    end.

(** *** Phase 1: the fixed early-early employees *)

(** The loop over [fixed_early_early_employees] on one date. *)
Fixpoint preassign_fixed (date_str : string) (shift : Shift) (required_staff : Z)
    (emps : list string) (st : GenState) : option GenState :=
  match emps with
  | [] => Some st
  | emp_id :: rest =>
      count ← get_count date_str fixed_early_early_shift (schedule st);
      if required_staff <=? count then Some st
      else
        entry ← schedule st !! date_str;
        match assignments entry !! emp_id with
        | Some _ => preassign_fixed date_str shift required_staff rest st
        | None =>
            conflicts ← check_conflicts emp_id fixed_early_early_shift date_str
                          (schedule st);
            match conflicts with
            | [] =>
                sch1 ← set_assignment date_str emp_id fixed_early_early_shift
                         (schedule st);
                count1 ← get_count date_str fixed_early_early_shift sch1;
                sch2 ← set_count date_str fixed_early_early_shift (count1 + 1) sch1;
                let shift_duration := default 8%Q (duration_hours shift) in
                wl ← add_work emp_id shift_duration (employee_workload st);
                let new_shift_type := get_shift_type fixed_early_early_shift in
                let cyc :=
                  <[emp_id := mkCycle (Some new_shift_type) (Some date_str) false]>
                    (employee_shift_cycle st) in
                preassign_fixed date_str shift required_staff rest (mkGen sch2 wl cyc)
            | _ :: _ => preassign_fixed date_str shift required_staff rest st
            end
        end
  end.

Definition is_monday (weekday_chinese : string) : bool :=
  String.eqb weekday_chinese "周一".

Fixpoint phase1 (dates : list string) (st : GenState) : option GenState :=
  match dates with
  | [] => Some st
  | date_str :: rest =>
      weekday_chinese ← get_weekday_chinese date_str;
      if is_monday weekday_chinese && monday_no_early_early then phase1 rest st
      else if mem fixed_early_early_shift shift_list then
        shift ← dict_get fixed_early_early_shift shifts;
        let required_staff := default 2 (required_staff shift) in
        st' ← preassign_fixed date_str shift required_staff
                fixed_early_early_employees st;
        phase1 rest st'
      else phase1 rest st
  end.

(** *** Phase 2: primary fill *)

Definition shift_list_today (weekday_chinese : string) : list string :=
  if is_monday weekday_chinese && monday_no_early_early
  then filter (λ s, s ≠ fixed_early_early_shift) shift_list
  else shift_list.

(** [while current_count < required_staff]: [remaining] is
    [required_staff - current_count], which each success lowers by one. *)
Fixpoint fill_loop (remaining : nat) (date_str shift_id : string) (st : GenState)
  : option GenState :=
  match remaining with
  | O => Some st
  | S n =>
      '(ok, st') ← assign_employee_to_shift date_str shift_id st;
      if ok : bool then fill_loop n date_str shift_id st' else Some st'
  end.

Fixpoint fill_shifts (date_str : string) (todo : list string) (st : GenState)
  : option GenState :=
  match todo with
  | [] => Some st
  | shift_id :: rest =>
      if String.eqb shift_id fixed_early_early_shift then fill_shifts date_str rest st
      else
        shift ← dict_get shift_id shifts;
        required_staff ←
          get_required_staff shift_id (Some date_str) (Some (schedule st));
        current_count ← get_count date_str shift_id (schedule st);
        st' ← fill_loop (Z.to_nat (required_staff - current_count)) date_str shift_id st;
        fill_shifts date_str rest st'
  end.

Fixpoint phase2 (dates : list string) (st : GenState) : option GenState :=
  match dates with
  | [] => Some st
  | date_str :: rest =>
      weekday_chinese ← get_weekday_chinese date_str;
      st' ← fill_shifts date_str (shift_list_today weekday_chinese) st;
      phase2 rest st'
  end.

(** *** Phase 3: vacancy backfill *)

Fixpoint backfill_shifts (date_str : string) (todo : list string)
    (st : GenState) (vacancies_filled : Z) : option (GenState * Z) :=
  match todo with
  | [] => Some (st, vacancies_filled)
  | shift_id :: rest =>
      shift ← dict_get shift_id shifts;
      required_staff ←
        get_required_staff shift_id (Some date_str) (Some (schedule st));
      current_count ← get_count date_str shift_id (schedule st);
      if current_count <? required_staff then
        '(ok, st') ← assign_employee_to_shift date_str shift_id st;
        if ok : bool then backfill_shifts date_str rest st' (vacancies_filled + 1)
        else if is_allow_empty shift_id
             then backfill_shifts date_str rest st' vacancies_filled
             else backfill_shifts date_str rest st' vacancies_filled
      else backfill_shifts date_str rest st vacancies_filled
  end.

Fixpoint backfill_dates (dates : list string) (st : GenState) (vacancies_filled : Z)
  : option (GenState * Z) :=
  match dates with
  | [] => Some (st, vacancies_filled)
  | date_str :: rest =>
      weekday_chinese ← get_weekday_chinese date_str;
      '(st', filled) ← backfill_shifts date_str (shift_list_today weekday_chinese)
                         st vacancies_filled;
      backfill_dates rest st' filled
  end.

(** [for iteration in range(max_iterations)], leaving when a pass fills
    nothing. *)
Fixpoint phase3 (max_iterations : nat) (dates : list string) (st : GenState)
  : option GenState :=
  match max_iterations with
  | O => Some st
  | S n =>
      '(st', vacancies_filled) ← backfill_dates dates st 0;
      if vacancies_filled =? 0 then Some st' else phase3 n dates st'
  end.

(** *** Phase 4: idle employees *)

(** The key [(days, hours)] of the sort of the unassigned employees. *)
Definition workload_le (a b : string * Workload) : bool :=
  (days a.2 <? days b.2) ||
  ((days a.2 =? days b.2) && Qle_bool (hours a.2) (hours b.2)).

Definition sort_by_workload (wl : gmap string Workload) (emps : list string)
  : option (list string) :=
  keyed ← mapM (λ e, w ← wl !! e; Some (e, w)) emps;
  Some ((stable_sort workload_le keyed).*1).

(** The shifts still short on a date, with their shortage. *)
Fixpoint shift_shortages (date_str : string) (todo : list string) (st : GenState)
  : option (list (string * Z)) :=
  match todo with
  | [] => Some []
  | shift_id :: rest =>
      shift ← dict_get shift_id shifts;
      required_staff ←
        get_required_staff shift_id (Some date_str) (Some (schedule st));
      current_count ← get_count date_str shift_id (schedule st);
      more ← shift_shortages date_str rest st;
      if current_count <? required_staff
      then Some ((shift_id, required_staff - current_count) :: more)
      else Some more
  end.

(** The key [(0 if get_shift_type(x[0]) == preferred else 1, -x[1])]. *)
Definition shortage_le (preferred : ShiftType) (a b : string * Z) : bool :=
  let rank (x : string * Z) :=
    if bool_decide (get_shift_type x.1 = preferred) then 0 else 1 in
  (rank a <? rank b) || ((rank a =? rank b) && (- a.2 <=? - b.2)).

Definition order_shortages (current_type : option ShiftType) (just_rested : bool)
    (shortages : list (string * Z)) : list (string * Z) :=
  match current_type with
  | Some ct =>
      if rotating ct then
        if just_rested
        then stable_sort (shortage_le (get_opposite_shift_type ct)) shortages
        else stable_sort (shortage_le ct) shortages
      else shortages
  | None => shortages
  end.

(** [for shift_id, shortage in shift_shortages]: the first shift without a
    conflict is taken. *)
Fixpoint take_first_shift (date_str emp_id : string) (shortages : list (string * Z))
    (st : GenState) : option GenState :=
  match shortages with
  | [] => Some st
  | (shift_id, shortage) :: rest =>
      conflicts ← check_conflicts emp_id shift_id date_str (schedule st);
      match conflicts with
      | [] =>
          sch1 ← set_assignment date_str emp_id shift_id (schedule st);
          count1 ← get_count date_str shift_id sch1;
          sch2 ← set_count date_str shift_id (count1 + 1) sch1;
          shift ← dict_get shift_id shifts;
          let shift_duration := default 8%Q (duration_hours shift) in
          wl ← add_work emp_id shift_duration (employee_workload st);
          let new_shift_type := get_shift_type shift_id in
          let cycle_info := cycle_of (employee_shift_cycle st) emp_id in
          just_rested ← check_if_rested (employee_shift_cycle st) emp_id date_str;
          let cyc :=
            <[emp_id := update_cycle_idle just_rested new_shift_type date_str
                          cycle_info]> (employee_shift_cycle st) in
          Some (mkGen sch2 wl cyc)
      | _ :: _ => take_first_shift date_str emp_id rest st
      end
  end.

Fixpoint place_idle (date_str : string) (todo : list string)
    (unassigned_employees : list string) (st : GenState) : option GenState :=
  match unassigned_employees with
  | [] => Some st
  | emp_id :: rest =>
      shortages ← shift_shortages date_str todo st;
      let cycle_info := cycle_of (employee_shift_cycle st) emp_id in
      let current_type := current_type cycle_info in
      just_rested ← check_if_rested (employee_shift_cycle st) emp_id date_str;
      st' ← take_first_shift date_str emp_id
              (order_shortages current_type just_rested shortages) st;
      place_idle date_str todo rest st'
  end.

Fixpoint phase4 (dates : list string) (st : GenState) : option GenState :=
  match dates with
  | [] => Some st
  | date_str :: rest =>
      weekday_chinese ← get_weekday_chinese date_str;
      entry ← schedule st !! date_str;
      let unassigned_employees :=
        filter (λ emp_id, assignments entry !! emp_id = None) employee_list in
      sorted ← sort_by_workload (employee_workload st) unassigned_employees;
      st' ← place_idle date_str (shift_list_today weekday_chinese) sorted st;
      phase4 rest st'
  end.

(** *** The run behind the button *)

(** [[start_date + timedelta(days=x) for x in range(n)]]. *)
Definition date_range (start_date end_date : Z) : list Z :=
  (λ x, start_date + Z.of_nat x) <$> seq 0 (Z.to_nat (end_date - start_date + 1)).

Definition empty_day : DayEntry :=
  mkDay ∅ (list_to_map ((λ shift_id, (shift_id, 0)) <$> shift_list)).

Definition initial_state (dates : list string) : GenState :=
  mkGen (foldl (λ sch date_str, <[date_str := empty_day]> sch) ∅ dates)
        (list_to_map ((λ emp_id, (emp_id, mkWorkload 0 0%Q)) <$> employee_list))
        (list_to_map ((λ emp_id, (emp_id, no_cycle)) <$> employee_list)).

(** The four phases, each over the keys of the schedule in the order of their
    insertion, which is the order of the date range. *)
Definition run_phases (start_date end_date : Z) : option GenState :=
  let dates := strftime <$> date_range start_date end_date in
  st1 ← phase1 dates (initial_state dates);
  st2 ← phase2 dates st1;
  st3 ← phase3 3 dates st2;
  phase4 dates st3.

End Engine.

(** [generate_schedule] as one run of the page: [start_date] and [end_date]
    are the two date widgets and [clicked] the button. *)
Definition generate_schedule (ss : SessionState) (start_date end_date : Z)
    (clicked : bool) : option (Outcome * SessionState) :=
  let employees := st_employees ss in
  let shifts := st_shifts ss in
  match employees, shifts with
  | _ :: _, _ :: _ =>
      if end_date <=? start_date then Some (InvalidPeriod, ss)
      else
        let rules := st_rules ss in
        if clicked then
          st ← run_phases employees shifts
                 (fixed_early_early_shift_employees rules)
                 (monday_no_early_early_shift rules) start_date end_date;
          Some (Generated,
                mkSession (st_employees ss) (st_shifts ss) (st_rules ss)
                          (schedule st) (st_schedule_period ss))
        else Some (AwaitingClick, ss)
  | _, _ =>
      Some (MissingData (bool_decide (employees = []))
                        (bool_decide (shifts = [])), ss)
  end.

(** ** The other pages

    What the pages that read or edit a stored schedule compute, without the
    widgets, the data frames and the files. *)

(** [sorted(schedule.keys())]: text compares by code point, which on UTF-8
    is the order of the bytes. *)
Definition sorted_dates (sch : Schedule) : list string :=
  stable_sort String.leb (map_to_list sch).*1.

(** [sum(1 for s in assignments.values() if s == shift_id)]. *)
Definition actual_staff (shift_id : string) (asg : gmap string string) : Z :=
  Z.of_nat (size (filter (λ kv : string * string, kv.2 = shift_id) asg)).

(** The resolver of the pages that show a schedule: no test on the date or
    on the schedule, and no look at [flexible_shifts]. *)
Definition get_required_staff_for_view (shift_id date_str : string)
    (sch : Schedule) (shifts : list (string * Shift)) : option Z :=
  if String.eqb shift_id early_shift_id then
    let early_early_count :=
      match sch !! date_str with
      | Some entry => default 0 (shift_counts entry !! early_early_shift_id)
      | None => 0
      end in
    if early_early_count =? 0 then Some 2 else Some 1
  else
    shift ← dict_get shift_id shifts;
    Some (default 1 (required_staff shift)).

(** *** Thinning the shifts of one employee ([view_schedule])

    The employee to thin out is given by id. *)
Inductive Operation :=
| RemovedDirectly
| ReplacedBy (who : string)
| NotReplaced.

Record OptimizationDetail := mkDetail {
  detail_date : string;
  detail_weekday : string;
  detail_shift : string;
  detail_operation : Operation
}.

(** The loop over [employees.items()] that looks for somebody to take the
    shift over: the first employee, other than the target and without a shift
    that day, for whom the conflict checker finds nothing. *)
Fixpoint find_replacement (employees : list (string * Employee))
    (shifts : list (string * Shift)) (target_emp_id shift_id date_str : string)
    (sch : Schedule) (asg : gmap string string)
    (others : list (string * Employee)) : option (option (string * Employee)) :=
  match others with
  | [] => Some None
  | (other_emp_id, other_emp) :: rest =>
      if String.eqb other_emp_id target_emp_id
         || bool_decide (is_Some (asg !! other_emp_id))
      then find_replacement employees shifts target_emp_id shift_id date_str sch asg rest
      else
        conflicts ← check_conflicts employees shifts other_emp_id shift_id date_str sch;
        match conflicts with
        | [] => Some (Some (other_emp_id, other_emp))
        | _ :: _ =>
            find_replacement employees shifts target_emp_id shift_id date_str sch asg rest
        end
  end.

(** One date of the loop: the accumulator is the schedule, the number of
    shifts taken off the target, and the rows shown afterwards. *)
Definition optimize_day (employees : list (string * Employee))
    (shifts : list (string * Shift)) (target_emp_id date_str : string)
    (acc : Schedule * Z * list OptimizationDetail)
  : option (Schedule * Z * list OptimizationDetail) :=
  let '(sch, optimized_count, details) := acc in
  date_schedule ← sch !! date_str;
  let asg := assignments date_schedule in
  match asg !! target_emp_id with
  | None => Some acc
  | Some shift_id =>
      required_staff ← get_required_staff_for_view shift_id date_str sch shifts;
      let current_staff_count := actual_staff shift_id asg in
      if required_staff <? current_staff_count then
        let sch' :=
          <[date_str := mkDay (delete target_emp_id asg)
                          (<[shift_id := current_staff_count - 1]>
                             (shift_counts date_schedule))]> sch in
        weekday_chinese ← get_weekday_chinese date_str;
        Some (sch', optimized_count + 1,
              (details ++ [mkDetail date_str weekday_chinese shift_id RemovedDirectly])%list)
      else
        found ← find_replacement employees shifts target_emp_id shift_id date_str
                  sch asg employees;
        match found with
        | Some (other_emp_id, other_emp) =>
            let sch' :=
              <[date_str := mkDay (<[other_emp_id := shift_id]> (delete target_emp_id asg))
                              (shift_counts date_schedule)]> sch in
            weekday_chinese ← get_weekday_chinese date_str;
            Some (sch', optimized_count + 1,
                  (details ++ [mkDetail date_str weekday_chinese shift_id
                                 (ReplacedBy (display_name other_emp_id other_emp))])%list)
        | None =>
            weekday_chinese ← get_weekday_chinese date_str;
            Some (sch, optimized_count,
                  (details ++ [mkDetail date_str weekday_chinese shift_id NotReplaced])%list)
        end
  end.

Fixpoint optimize_days (employees : list (string * Employee))
    (shifts : list (string * Shift)) (target_emp_id : string) (dates : list string)
    (acc : Schedule * Z * list OptimizationDetail)
  : option (Schedule * Z * list OptimizationDetail) :=
  match dates with
  | [] => Some acc
  | date_str :: rest =>
      acc' ← optimize_day employees shifts target_emp_id date_str acc;
      optimize_days employees shifts target_emp_id rest acc'
  end.

(** The button: the dates in order, from no shift taken off and no row. *)
Definition optimize_target (employees : list (string * Employee))
    (shifts : list (string * Shift)) (target_emp_id : string) (sch : Schedule)
  : option (Schedule * Z * list OptimizationDetail) :=
  optimize_days employees shifts target_emp_id (sorted_dates sch) (sch, 0, []).

(** *** The audit of consecutive days ([rules_management]) *)

(** The loop over the dates for one employee: the pair is
    [(consecutive_days, max_consecutive)]. *)
Fixpoint consecutive_loop (emp_id : string) (sch : Schedule) (dates : list string)
    (consecutive_days max_consecutive : Z) : option (Z * Z) :=
  match dates with
  | [] => Some (consecutive_days, max_consecutive)
  | date_str :: rest =>
      date_schedule ← sch !! date_str;
      match assignments date_schedule !! emp_id with
      | Some _ =>
          let consecutive_days := consecutive_days + 1 in
          consecutive_loop emp_id sch rest consecutive_days
            (Z.max max_consecutive consecutive_days)
      | None => consecutive_loop emp_id sch rest 0 max_consecutive
      end
  end.

Definition max_consecutive_days_worked (emp_id : string) (sch : Schedule)
  : option Z :=
  snd <$> consecutive_loop emp_id sch (sorted_dates sch) 0 0.

(** *** The comparison of two schedules ([ai_schedule_tuning]) *)

Inductive DiffStatus := Modified | Added | Removed.

Record DiffRow := mkDiffRow {
  diff_date : string;
  diff_employee : string;
  diff_before : string;
  diff_after : string;
  diff_status : DiffStatus
}.

(** [schedule.get(date_str, {}).get("assignments", {})]. *)
Definition assignments_on (sch : Schedule) (date_str : string) : gmap string string :=
  match sch !! date_str with
  | Some entry => assignments entry
  | None => ∅
  end.

(** Truth value of [d.get(k)] when the values are texts. *)
Definition shift_truthy (shift : option string) : bool :=
  match shift with
  | Some s => truthy s
  | None => false
  end.

(** [shift if shift else "无"]. *)
Definition shift_or_none (shift : option string) : string :=
  match shift with
  | Some s => if truthy s then s else "无"
  | None => "无"
  end.

(** The rows of one date; the ids are walked in the order of a set, which
    Python does not fix. *)
Definition diff_rows_on (employees : list (string * Employee))
    (sch modified : Schedule) (date_str : string) : list DiffRow :=
  let original_assignments := assignments_on sch date_str in
  let modified_assignments := assignments_on modified date_str in
  let all_emp_ids : gset string :=
    dom original_assignments ∪ dom modified_assignments in
  omap (λ emp_id,
          let original_shift := original_assignments !! emp_id in
          let modified_shift := modified_assignments !! emp_id in
          let emp_name :=
            match dict_get emp_id employees with
            | Some emp => display_name emp_id emp
            | None => emp_id
            end in
          if bool_decide (original_shift ≠ modified_shift) then
            Some (mkDiffRow date_str emp_name
                    (shift_or_none original_shift) (shift_or_none modified_shift)
                    (if shift_truthy original_shift && shift_truthy modified_shift
                     then Modified
                     else if negb (shift_truthy original_shift) then Added
                     else Removed))
          else None)
       (elements all_emp_ids).

(** [sorted(set(list(schedule.keys()) + list(modified_schedule.keys())))]. *)
Definition diff_dates (sch modified : Schedule) : list string :=
  stable_sort String.leb (elements (dom sch ∪ dom modified : gset string)).

Definition diff_data (employees : list (string * Employee))
    (sch modified : Schedule) : list DiffRow :=
  diff_dates sch modified ≫= diff_rows_on employees sch modified.

(** *** The cells of the poster and of the export *)

Inductive PosterCell :=
| CellShift (value : string)
| CellFixedRest
| CellNoRole.

(** One cell of [generate_poster_image]: an assignment counts when its text
    is not empty. *)
Definition poster_cell (emp_id : string) (emp : Employee) (date_str : string)
    (sch : Schedule) : option PosterCell :=
  let shift_id := assignments_on sch date_str !! emp_id in
  date_obj ← strptime date_str;
  let weekday_chinese := weekday_map (weekday date_obj) in
  if shift_truthy shift_id then Some (CellShift (default "" shift_id))
  else if truthy (rest_day emp) && String.eqb weekday_chinese (rest_day emp)
       then Some CellFixedRest
       else Some CellNoRole.

(** The label of a day without shift and without rest in [export_schedule]. *)
Definition standby_text (current_shift_type : option string) : string :=
  match current_shift_type with
  | Some t =>
      if String.eqb t "早早班" then "待岗(早早)"
      else if String.eqb t "早班" then "待岗(早)"
      else if String.eqb t "晚班" then "待岗(晚)"
      else "待岗"
  | None => "待岗"
  end.

(** One cell of [export_schedule]: the text written, and the shift type
    carried to the next date. *)
Definition export_cell (emp_id : string) (emp : Employee) (date_str : string)
    (sch : Schedule) (current_shift_type : option string)
  : option (string * option string) :=
  let asg := assignments_on sch date_str in
  weekday_chinese ← get_weekday_chinese date_str;
  match asg !! emp_id with
  | Some shift_id =>
      if contains "早早" shift_id then Some ("早早班", Some "早早班")
      else if contains "早" shift_id then Some ("早班", Some "早班")
      else if contains "晚" shift_id then Some ("晚班", Some "晚班")
      else Some (shift_id, current_shift_type)
  | None =>
      if truthy (rest_day emp) && String.eqb weekday_chinese (rest_day emp)
      then Some ("休", current_shift_type)
      else Some (standby_text current_shift_type, current_shift_type)
  end.

(** ** Notions of the specification *)

(** [needle] occurs in [hay]. *)
Definition Substring (needle hay : string) : Prop :=
  ∃ pre post, hay = pre +:+ needle +:+ post.

(** The number of assignments of a day that map to [shift_id]. *)
Definition assigned_to (shift_id : string) (asg : gmap string string) : nat :=
  size (filter (λ kv : string * string, kv.2 = shift_id) asg).

(** The count recorded for [shift_id] on a day. *)
Definition count_of (shift_id : string) (entry : DayEntry) : Z :=
  default 0 (shift_counts entry !! shift_id).

(** The counts of every day agree with its assignments. *)
Definition counts_consistent (sch : Schedule) : Prop :=
  ∀ date entry shift_id,
    sch !! date = Some entry →
    count_of shift_id entry = Z.of_nat (assigned_to shift_id (assignments entry)).

(** The date falls on the fixed rest weekday of the employee. *)
Definition rests_on (emp : Employee) (date : string) : Prop :=
  rest_day emp ≠ "" ∧ get_weekday_chinese date = Some (rest_day emp).

(** The date is listed in the unavailable dates of the employee: its text
    occurs in the text of the list. *)
Definition unavailable_on (emp : Employee) (date : string) : Prop :=
  unavailable_days emp ≠ "" ∧ contains date (unavailable_days emp) = true.

(** The shift asks for skills and the employee has none of them. *)
Definition lacks_skills (emp : Employee) (shift : Shift) : Prop :=
  required_skills shift ≠ [] ∧ ∀ skill, skill ∈ required_skills shift → skill ∉ skills emp.

(** The employee already has a shift on the date. *)
Definition booked_on (emp_id date : string) (sch : Schedule) : Prop :=
  ∃ entry, sch !! date = Some entry ∧ is_Some (assignments entry !! emp_id).

(** The assignment is permissible: both ids are known and no rule of the
    conflict checker is broken. *)
Definition permissible (employees : list (string * Employee))
    (shifts : list (string * Shift)) (emp_id shift_id date : string)
    (sch : Schedule) : Prop :=
  ∃ emp shift,
    dict_get emp_id employees = Some emp ∧
    dict_get shift_id shifts = Some shift ∧
    ¬ rests_on emp date ∧ ¬ unavailable_on emp date ∧
    ¬ lacks_skills emp shift ∧ ¬ booked_on emp_id date sch.

(** The list built for two known ids on a date that parses. *)
Definition conflicts_of (emp_id date : string) (sch : Schedule)
    (emp : Employee) (shift : Shift) (weekday_chinese : string) : list Conflict :=
  let who := display_name emp_id emp in
  (if truthy (rest_day emp) && String.eqb weekday_chinese (rest_day emp)
   then [RestsOn who weekday_chinese] else []) ++
  (if truthy (unavailable_days emp) && contains date (unavailable_days emp)
   then [UnavailableOn who date] else []) ++
  (if list_truthy (required_skills shift)
      && negb (has_any_skill (skills emp) (required_skills shift))
   then [LacksSkills who (required_skills shift)] else []) ++
  (if already_assigned emp_id date sch then [AlreadyBooked who date] else []).

(** Nobody works on a rest weekday or on an unavailable date. *)
Definition rest_respected (employees : list (string * Employee)) (sch : Schedule) : Prop :=
  ∀ date entry emp_id emp,
    sch !! date = Some entry →
    dict_get emp_id employees = Some emp →
    rests_on emp date ∨ unavailable_on emp date →
    assignments entry !! emp_id = None.

(** The two invariants of a schedule under construction. *)
Definition schedule_ok (employees : list (string * Employee)) (sch : Schedule) : Prop :=
  counts_consistent sch ∧ rest_respected employees sch.


(** [justRested] in the words of the specification: a last worked date, a
    fixed rest weekday, and a day after the one and up to the other that
    falls on it. *)
Definition just_rested (employees : list (string * Employee))
    (cyc : gmap string Cycle) (emp_id date : string) : Prop :=
  ∃ last_work emp last_date current_date day,
    last_work_date (cycle_of cyc emp_id) = Some last_work ∧
    dict_get emp_id employees = Some emp ∧
    rest_day emp ∈ weekday_names ∧
    strptime last_work = Some last_date ∧
    strptime date = Some current_date ∧
    last_date < day ≤ current_date ∧
    weekday_map (weekday day) = rest_day emp.





(** The rotation update as the specification words it: a rest only starts a
    new cycle for a rotating category. *)
Definition spec_update_category (just_rested : bool) (current : option ShiftType)
    (new_type : ShiftType) : option ShiftType :=
  match current with
  | Some ct => if just_rested && rotating ct then Some new_type else Some ct
  | None => Some new_type
  end.

(** The rotation update of the code, read between two states: [best] had no
    shift on the date and now has [shift_id]; the last worked date is the
    date; the category is the one of the shift after a rest, and otherwise
    the one held before if there was one; nobody else is touched. *)
Definition rotation_updated (employees : list (string * Employee))
    (date_str : string) (st st' : GenState)
    (best shift_id : string) (just_rested : bool) : Prop :=
  (∃ entry entry',
     schedule st !! date_str = Some entry ∧ assignments entry !! best = None ∧
     schedule st' !! date_str = Some entry' ∧
     assignments entry' !! best = Some shift_id) ∧
  check_if_rested employees (employee_shift_cycle st) best date_str = Some just_rested ∧
  last_work_date (cycle_of (employee_shift_cycle st') best) = Some date_str ∧
  current_type (cycle_of (employee_shift_cycle st') best)
  = (if just_rested then Some (get_shift_type shift_id)
     else match current_type (cycle_of (employee_shift_cycle st) best) with
          | Some ct => Some ct
          | None => Some (get_shift_type shift_id)
          end) ∧
  (∀ other, other ≠ best →
     employee_shift_cycle st' !! other = employee_shift_cycle st !! other).

(** ** The writes of a run

    Every write of the four phases has the same shape: an employee without
    conflict on a date takes a shift that is among the shifts of that day and
    still under the staff asked for, the count of the shift goes up by one,
    the workload of the employee by one day, and the rotation state records
    the date. *)
Inductive book_step (employees : list (string * Employee))
    (shifts : list (string * Shift)) (monday_off : bool) (dates : list string)
    (st st' : GenState) : Prop :=
| BookStep (date_str emp_id shift_id weekday_chinese : string) (shift : Shift)
    (count required : Z) (sch1 sch2 : Schedule) (wl : gmap string Workload)
    (c : Cycle) :
    date_str ∈ dates →
    get_weekday_chinese date_str = Some weekday_chinese →
    shift_id ∈ shift_list_today shifts monday_off weekday_chinese →
    dict_get shift_id shifts = Some shift →
    check_conflicts employees shifts emp_id shift_id date_str (schedule st) = Some [] →
    get_count date_str shift_id (schedule st) = Some count →
    (get_required_staff shifts shift_id (Some date_str) (Some (schedule st))
       = Some required
     ∨ (shift_id = fixed_early_early_shift ∧
        required = default 2 (required_staff shift))) →
    count < required →
    set_assignment date_str emp_id shift_id (schedule st) = Some sch1 →
    set_count date_str shift_id (count + 1) sch1 = Some sch2 →
    add_work emp_id (default 8%Q (duration_hours shift)) (employee_workload st)
      = Some wl →
    last_work_date c = Some date_str →
    st' = mkGen sch2 wl (<[emp_id := c]> (employee_shift_cycle st)) →
    book_step employees shifts monday_off dates st st'.

(** Every assignment names a known employee and a known shift, and the
    employee has one of the skills the shift asks for, if it asks for any. *)
Definition assignments_valid (employees : list (string * Employee))
    (shifts : list (string * Shift)) (sch : Schedule) : Prop :=
  ∀ date entry emp_id shift_id,
    sch !! date = Some entry →
    assignments entry !! emp_id = Some shift_id →
    ∃ emp shift,
      dict_get emp_id employees = Some emp ∧
      dict_get shift_id shifts = Some shift ∧
      ¬ lacks_skills emp shift.

(** The most staff the engine gives a shift on one day: two for the shift
    under the dynamic rule, the base staff for the others, read with the
    default of the first phase for the early-early shift. *)
Definition staff_cap (shift_id : string) (shift : Shift) : Z :=
  if String.eqb shift_id early_shift_id then 2
  else if String.eqb shift_id fixed_early_early_shift
       then default 2 (required_staff shift)
       else default 1 (required_staff shift).

Definition never_overstaffed (shifts : list (string * Shift)) (sch : Schedule) : Prop :=
  ∀ date entry shift_id shift,
    sch !! date = Some entry →
    dict_get shift_id shifts = Some shift →
    count_of shift_id entry ≤ Z.max 0 (staff_cap shift_id shift).

(** Nobody has the early-early shift on a Monday. *)
Definition mondays_free (sch : Schedule) : Prop :=
  ∀ date entry emp_id,
    sch !! date = Some entry →
    get_weekday_chinese date = Some "周一" →
    assignments entry !! emp_id ≠ Some fixed_early_early_shift.

(** Every assignment of the first schedule is in the second. *)
Definition keeps_assignments (sch sch' : Schedule) : Prop :=
  ∀ date entry emp_id shift_id,
    sch !! date = Some entry →
    assignments entry !! emp_id = Some shift_id →
    ∃ entry', sch' !! date = Some entry' ∧ assignments entry' !! emp_id = Some shift_id.

(** What the thinning may do to one day: leave it, take the target off a
    shift that has more people than asked for and lower its count, or hand
    the shift of the target to somebody free and without conflict. *)
Inductive thinned_day (employees : list (string * Employee))
    (shifts : list (string * Shift)) (target_emp_id date_str : string)
    (sch : Schedule) (entry : DayEntry) : DayEntry → Prop :=
| DayKept : thinned_day employees shifts target_emp_id date_str sch entry entry
| DayRemoved (shift_id : string) (required : Z) :
    assignments entry !! target_emp_id = Some shift_id →
    get_required_staff_for_view shift_id date_str sch shifts = Some required →
    required < actual_staff shift_id (assignments entry) →
    thinned_day employees shifts target_emp_id date_str sch entry
      (mkDay (delete target_emp_id (assignments entry))
         (<[shift_id := actual_staff shift_id (assignments entry) - 1]>
            (shift_counts entry)))
| DayReplaced (shift_id other_emp_id : string) :
    assignments entry !! target_emp_id = Some shift_id →
    other_emp_id ≠ target_emp_id →
    assignments entry !! other_emp_id = None →
    check_conflicts employees shifts other_emp_id shift_id date_str sch = Some [] →
    thinned_day employees shifts target_emp_id date_str sch entry
      (mkDay (<[other_emp_id := shift_id]> (delete target_emp_id (assignments entry)))
         (shift_counts entry)).

(** The thinning keeps the dates and changes each day in one of these ways. *)
Definition thinned (employees : list (string * Employee))
    (shifts : list (string * Shift)) (target_emp_id : string)
    (sch sch' : Schedule) : Prop :=
  ∀ date_str,
    match sch !! date_str, sch' !! date_str with
    | Some entry, Some entry' =>
        thinned_day employees shifts target_emp_id date_str sch entry entry'
    | None, None => True
    | _, _ => False
    end.

(** The number of dates on which the employee has a shift. *)
Definition days_booked (emp_id : string) (sch : Schedule) : nat :=
  size (filter (λ kv : string * DayEntry, is_Some (assignments kv.2 !! emp_id)) sch).

(** The workload kept for the scorer counts the days right: for every
    employee it has the number of dates with a shift. *)
Definition workload_exact (st : GenState) : Prop :=
  ∀ emp_id w,
    employee_workload st !! emp_id = Some w →
    days w = Z.of_nat (days_booked emp_id (schedule st)).

(** A run of the employee: dates that follow one another in the order of the
    schedule, with a shift on each. *)
Definition run_of (emp_id : string) (sch : Schedule) (seg : list string) : Prop :=
  (∃ pre post, sorted_dates sch = (pre ++ seg ++ post)%list) ∧
  Forall (λ date_str, booked_on emp_id date_str sch) seg.

(** ** Sample data

    One employee who rests on Mondays, last at work on Sunday 2024-01-07, and
    the Tuesday after; a larger session for whole runs. *)

Definition ann : Employee := mkEmployee (Some "Ann") ["bar"] "周一" [] "2024-01-10".

Definition sample_employees : list (string * Employee) := [("E1", ann)].

Definition one_person : Shift := mkShift (Some 1) [] None.

Definition sample_shifts : list (string * Shift) :=
  [("早班", one_person); ("晚班", one_person)].

Definition sample_cycle (t : ShiftType) : gmap string Cycle :=
  {["E1" := mkCycle (Some t) (Some "2024-01-07") false]}.

Definition sample_workload : gmap string Workload := {["E1" := mkWorkload 0 0]}.

Definition sample_schedule : Schedule :=
  {["2024-01-09" := mkDay ∅ (list_to_map [("早班", 0); ("晚班", 0)])]}.

Definition sample_state (t : ShiftType) : GenState :=
  mkGen sample_schedule sample_workload (sample_cycle t).

Definition sample_session (stored : Schedule) : SessionState :=
  mkSession
    [("E1", ann);
     ("E2", mkEmployee None [] "" ["晚班"] "2024-01-02, 2024-01-03");
     ("E3", mkEmployee None ["bar"] "周三" [] "");
     ("E4", mkEmployee None ["bar"] "周二" [] "")]
    [("二期水吧-早早班", mkShift (Some 1) [] (Some (4 # 1)));
     ("二期水吧-早班", mkShift (Some 1) ["bar"] (Some (15 # 2)));
     ("晚班", mkShift (Some 1) [] None)]
    (mkRules 8 5 30 50 ["E4"] true)
    stored ("2024-01-01", "2024-01-31").

(** The session after a run over the first three days of 2024. *)
Definition sample_result : SessionState :=
  match generate_schedule (sample_session ∅) 738886 738888 true with
  | Some (_, ss') => ss'
  | None => sample_session ∅
  end.

(** The state after the late shift of Tuesday 2024-01-09 went to Ann, whose
    shift before her rest day was of no category (其他). *)
Definition sample_assigned : GenState :=
  match assign_employee_to_shift sample_employees sample_shifts []
          "2024-01-09" "晚班" (sample_state Other) with
  | Some (_, st') => st'
  | None => sample_state Other
  end.

(** The first three days of 2024 after the first two phases, and after the
    fourth phase run from there. *)
Definition sample_dates : list string := strftime <$> date_range 738886 738888.

Definition sample_filled : GenState :=
  let employees := st_employees (sample_session ∅) in
  let shifts := st_shifts (sample_session ∅) in
  match phase1 employees shifts ["E4"] true sample_dates
          (initial_state employees shifts sample_dates) with
  | Some st1 =>
      match phase2 employees shifts ["E4"] true sample_dates st1 with
      | Some st2 => st2
      | None => st1
      end
  | None => initial_state employees shifts sample_dates
  end.

Definition sample_idle_placed : GenState :=
  match phase4 (st_employees (sample_session ∅)) (st_shifts (sample_session ∅))
          true sample_dates sample_filled with
  | Some st => st
  | None => sample_filled
  end.

(** The state at the end of the four phases over the same three days. *)
Definition sample_run_state : GenState :=
  let employees := st_employees (sample_session ∅) in
  let shifts := st_shifts (sample_session ∅) in
  match run_phases employees shifts ["E4"] true 738886 738888 with
  | Some st => st
  | None => initial_state employees shifts sample_dates
  end.

(** A stored schedule with one day on which the late shift, which asks for
    one person, has two; Ann is the one to thin out. *)
Definition crowded_day : DayEntry :=
  mkDay (<["E1" := "晚班"]> (<["E2" := "晚班"]> ∅))
        (<["早班" := 0]> (<["晚班" := 2]> ∅)).

Definition crowded_schedule : Schedule := {["2024-01-09" := crowded_day]}.

Definition crowded_employees : list (string * Employee) :=
  [("E1", ann); ("E2", mkEmployee None [] "" [] "")].

Definition thinned_schedule : Schedule :=
  match optimize_target crowded_employees sample_shifts "E1" crowded_schedule with
  | Some (sch', _, _) => sch'
  | None => crowded_schedule
  end.

(** * Properties *)

(** ** Substrings *)

Lemma append_cons (a : ascii) (s t : string) : String a s +:+ t = String a (s +:+ t).
Proof. reflexivity. Qed.

Lemma append_nil (t : string) : "" +:+ t = t.
Proof. reflexivity. Qed.

Lemma prefix_spec (needle hay : string) :
  String.prefix needle hay = true ↔ ∃ post, hay = needle +:+ post.
Proof.
  revert hay. induction needle as [|a needle IH]; intros hay.
  - split; [intros _; by exists hay | intros _; by destruct hay].
  - destruct hay as [|b hay]; simpl.
    + split; [done | intros [post Hpost]; discriminate].
    + destruct (Ascii.ascii_dec a b) as [->|Hne].
      * rewrite IH. split; intros [post Hpost]; exists post;
          rewrite append_cons in *; congruence.
      * split; [done | intros [post Hpost]; rewrite append_cons in Hpost; congruence].
Qed.

Lemma contains_unfold (needle hay : string) :
  contains needle hay =
    String.prefix needle hay ||
    match hay with
    | EmptyString => false
    | String _ rest => contains needle rest
    end.
Proof. by destruct hay. Qed.

Lemma contains_spec (needle hay : string) :
  contains needle hay = true ↔ Substring needle hay.
Proof.
  split.
  - induction hay as [|c hay IH]; rewrite contains_unfold, orb_true_iff.
    + intros [Hp | ?]; [|done].
      apply prefix_spec in Hp as [post Hpost]. by exists "", post.
    + intros [Hp | Hc].
      * apply prefix_spec in Hp as [post Hpost]. by exists "", post.
      * destruct (IH Hc) as (pre & post & ->). by exists (String c pre), post.
  - intros (pre & post & ->). induction pre as [|c pre IH].
    + rewrite append_nil, contains_unfold, orb_true_iff. left.
      apply prefix_spec. by exists post.
    + rewrite append_cons, contains_unfold, IH. apply orb_true_r.
Qed.

Lemma contains_false_spec (needle hay : string) :
  contains needle hay = false ↔ ¬ Substring needle hay.
Proof.
  rewrite <- contains_spec. destruct (contains needle hay); split; congruence.
Qed.

(** Whatever holds two early markers holds one. *)
Lemma early_early_is_early (shift_id : string) :
  Substring "早早" shift_id → Substring "早" shift_id.
Proof.
  intros (pre & post & ->). exists pre, ("早" +:+ post).
  f_equal.
Qed.

(** ** C10: the category of a shift *)

(** C10.  The category of a shift is read off its id by substring tests tried
    in a fixed order: early-early (早早), then early (早), then late (晚),
    then mid (中), then other.  So an id holding both the early-early and
    the late marker is early-early, and an id holding the early and the late
    marker but not the early-early one is early. *)
Theorem get_shift_type_priority (shift_id : string) :
  (Substring "早早" shift_id → get_shift_type shift_id = EarlyEarly) ∧
  (¬ Substring "早早" shift_id → Substring "早" shift_id →
     get_shift_type shift_id = Early) ∧
  (¬ Substring "早" shift_id → Substring "晚" shift_id →
     get_shift_type shift_id = Late) ∧
  (¬ Substring "早" shift_id → ¬ Substring "晚" shift_id →
     Substring "中" shift_id → get_shift_type shift_id = Mid) ∧
  (¬ Substring "早" shift_id → ¬ Substring "晚" shift_id →
     ¬ Substring "中" shift_id → get_shift_type shift_id = Other) ∧
  (Substring "早早" shift_id → Substring "晚" shift_id →
     get_shift_type shift_id = EarlyEarly) ∧
  (Substring "早" shift_id → Substring "晚" shift_id →
     ¬ Substring "早早" shift_id → get_shift_type shift_id = Early).
Proof.
  unfold get_shift_type.
  destruct (contains "早早" shift_id) eqn:Hee;
    [apply contains_spec in Hee | apply contains_false_spec in Hee];
  (destruct (contains "早" shift_id) eqn:He;
    [apply contains_spec in He | apply contains_false_spec in He]);
  (destruct (contains "晚" shift_id) eqn:Hl;
    [apply contains_spec in Hl | apply contains_false_spec in Hl]);
  (destruct (contains "中" shift_id) eqn:Hm;
    [apply contains_spec in Hm | apply contains_false_spec in Hm]);
  try (exfalso; apply He; by apply early_early_is_early);
  repeat split; intros; done.
Qed.

Lemma get_shift_type_priority_witness :
  get_shift_type "早早晚" = EarlyEarly ∧ get_shift_type "晚早" = Early.
Proof.
  split.
  - apply (get_shift_type_priority "早早晚").
    + apply contains_spec. vm_compute. reflexivity.
    + apply contains_spec. vm_compute. reflexivity.
  - apply (get_shift_type_priority "晚早").
    + apply contains_spec. vm_compute. reflexivity.
    + apply contains_spec. vm_compute. reflexivity.
    + apply contains_false_spec. vm_compute. reflexivity.
Defined.

(** ** Truth values and look-ups *)

Lemma truthy_true (s : string) : truthy s = true ↔ s ≠ "".
Proof.
  unfold truthy. rewrite negb_true_iff. apply String.eqb_neq.
Qed.

Lemma truthy_false (s : string) : truthy s = false ↔ s = "".
Proof.
  unfold truthy. rewrite negb_false_iff. apply String.eqb_eq.
Qed.

Lemma mem_true (x : string) (l : list string) : mem x l = true ↔ x ∈ l.
Proof. unfold mem. by rewrite bool_decide_eq_true. Qed.

Lemma dict_truthy_true {V : Type} (d : gmap string V) : dict_truthy d = true ↔ d ≠ ∅.
Proof.
  unfold dict_truthy. rewrite negb_true_iff, bool_decide_eq_false.
  by rewrite map_size_empty_iff.
Qed.

(** ** C4: the rest test of the rotation tracker *)

Lemma weekday_name_valid (day : Z) : weekday_map (weekday day) ∈ weekday_names.
Proof.
  unfold weekday. pose proof (Z.mod_pos_bound (day + 6) 7 ltac:(lia)) as Hb.
  assert (Hc : ∃ k : nat, (k < 7)%nat ∧ (day + 6) mod 7 = Z.of_nat k).
  { exists (Z.to_nat ((day + 6) mod 7)). lia. }
  destruct Hc as (k & Hk & ->).
  do 7 (destruct k as [|k]; [by apply mem_true|]). lia.
Qed.

Lemma rest_day_passed_spec (rest_day : string) (remaining : nat) (check_date : Z) :
  rest_day_passed rest_day check_date remaining = true ↔
  ∃ day, check_date ≤ day < check_date + Z.of_nat remaining ∧
         weekday_map (weekday day) = rest_day.
Proof.
  revert check_date. induction remaining as [|n IH]; intros check_date; simpl.
  - split; [done | intros (day & ? & _); lia].
  - destruct (String.eqb_spec (weekday_map (weekday check_date)) rest_day) as [Heq|Hne].
    + split; [intros _ | done]. exists check_date. split; [lia | done].
    + rewrite IH. split; intros (day & Hday & Hw); exists day; (split; [|done]).
      * lia.
      * destruct (decide (day = check_date)) as [->|]; [done | lia].
Qed.

(** C4.  For an employee and a date, with the stored last worked date and
    the date being dates, [check_if_rested] answers, and it answers true
    exactly when the last worked date is set, the employee has a fixed rest
    weekday, and some day after the last worked date and up to the date falls
    on that weekday. *)
Theorem check_if_rested_iff (employees : list (string * Employee))
    (cyc : gmap string Cycle) (emp_id date : string) :
  is_Some (strptime date) →
  (∀ last_work, last_work_date (cycle_of cyc emp_id) = Some last_work →
     last_work ≠ "" → is_Some (strptime last_work)) →
  ∃ b, check_if_rested employees cyc emp_id date = Some b ∧
       (b = true ↔ just_rested employees cyc emp_id date).
Proof.
  intros [current_date Hcur] Hlast. unfold check_if_rested, just_rested.
  destruct (last_work_date (cycle_of cyc emp_id)) as [last_work|] eqn:Hlw.
  2: { exists false. split; [done|]. split; [done|]. by intros (? & ? & ? & ? & ? & ? & _). }
  destruct (truthy last_work) eqn:Ht; simpl.
  2: { apply truthy_false in Ht as ->. exists false. split; [done|].
       split; [done|]. intros (lw & ? & ? & ? & ? & [= <-] & _ & _ & Hp & _).
       discriminate Hp. }
  apply truthy_true in Ht. destruct (Hlast last_work eq_refl Ht) as [last_date Hld].
  destruct (dict_get emp_id employees) as [emp|] eqn:Hemp; simpl.
  2: { exists false. split; [done|]. split; [done|].
       by intros (? & ? & ? & ? & ? & _ & ? & _). }
  destruct (truthy (rest_day emp)) eqn:Hr; simpl.
  2: { apply truthy_false in Hr. exists false. split; [done|]. split; [done|].
       intros (? & emp' & ? & ? & ? & _ & [= <-] & Hin & _).
       rewrite Hr in Hin. by apply mem_true in Hin. }
  rewrite Hld, Hcur. simpl. eexists. split; [done|].
  rewrite rest_day_passed_spec. split.
  - intros (day & Hday & Hw).
    exists last_work, emp, last_date, current_date, day.
    repeat split; try done; try lia. rewrite <- Hw. apply weekday_name_valid.
  - intros (lw & emp' & ld & cd & day & [= <-] & [= <-] & _ & Hld' & Hcd' & Hday & Hw).
    rewrite Hld in Hld'. injection Hld' as <-. injection Hcd' as <-.
    exists day. split; [lia | done].
Qed.

Lemma check_if_rested_iff_witness :
  ∃ b, check_if_rested sample_employees (sample_cycle Early) "E1" "2024-01-09" = Some b ∧
       (b = true ↔ just_rested sample_employees (sample_cycle Early) "E1" "2024-01-09").
Proof.
  apply (check_if_rested_iff sample_employees (sample_cycle Early) "E1" "2024-01-09").
  - vm_compute. by eexists.
  - intros last_work Hlw _. vm_compute in Hlw. injection Hlw as <-.
    vm_compute. by eexists.
Defined.

(** ** C1: the dynamic staffing resolver *)

Lemma no_flexible_required_staff (shift_id : string) :
  dict_get shift_id flexible_shifts ≫= flexible_required_staff = None.
Proof.
  unfold flexible_shifts. simpl. by destruct (String.eqb shift_id "二期水吧-早班").
Qed.

Lemma base_required_staff_known (shifts : list (string * Shift))
    (shift_id : string) (shift : Shift) :
  dict_get shift_id shifts = Some shift →
  base_required_staff shifts shift_id = Some (default 1 (required_staff shift)).
Proof.
  intros Hs. unfold base_required_staff.
  by rewrite no_flexible_required_staff, Hs.
Qed.




(** ** C2: the score of a candidate *)




(** ** C5: the conflict checker *)

Lemma has_any_skill_false (emp_skills required : list string) :
  has_any_skill emp_skills required = false ↔
  ∀ skill, skill ∈ required → skill ∉ emp_skills.
Proof.
  unfold has_any_skill. induction required as [|r required IH]; simpl.
  - split; [intros _ skill Hin; by apply not_elem_of_nil in Hin | done].
  - rewrite orb_false_iff, IH. unfold mem. rewrite bool_decide_eq_false. split.
    + intros [Hr Hrest] skill [->|Hin]%elem_of_cons; auto.
    + intros Hall. split; [apply Hall; left | intros skill Hin; apply Hall; by right].
Qed.

Lemma rests_on_bool (emp : Employee) (date weekday_chinese : string) :
  get_weekday_chinese date = Some weekday_chinese →
  truthy (rest_day emp) && String.eqb weekday_chinese (rest_day emp) = true ↔
  rests_on emp date.
Proof.
  intros Hwd. unfold rests_on.
  rewrite andb_true_iff, truthy_true, String.eqb_eq, Hwd.
  split; intros [? ?]; split; congruence.
Qed.

Lemma unavailable_on_bool (emp : Employee) (date : string) :
  truthy (unavailable_days emp) && contains date (unavailable_days emp) = true ↔
  unavailable_on emp date.
Proof. unfold unavailable_on. by rewrite andb_true_iff, truthy_true. Qed.

Lemma lacks_skills_bool (emp : Employee) (shift : Shift) :
  list_truthy (required_skills shift)
    && negb (has_any_skill (skills emp) (required_skills shift)) = true ↔
  lacks_skills emp shift.
Proof.
  unfold lacks_skills.
  rewrite andb_true_iff, negb_true_iff, has_any_skill_false.
  destruct (required_skills shift); simpl; split; intros [? ?]; split; done.
Qed.

Lemma booked_on_bool (emp_id date : string) (sch : Schedule) :
  already_assigned emp_id date sch = true ↔ booked_on emp_id date sch.
Proof.
  unfold already_assigned, booked_on. destruct (sch !! date) as [entry|].
  - rewrite bool_decide_eq_true. split; [by exists entry | by intros (? & [= <-] & ?)].
  - split; [done | by intros (? & ? & _)].
Qed.

Lemma check_conflicts_known (employees : list (string * Employee))
    (shifts : list (string * Shift)) (emp_id shift_id date : string)
    (sch : Schedule) (emp : Employee) (shift : Shift) (weekday_chinese : string) :
  dict_get emp_id employees = Some emp →
  dict_get shift_id shifts = Some shift →
  get_weekday_chinese date = Some weekday_chinese →
  check_conflicts employees shifts emp_id shift_id date sch
  = Some (conflicts_of emp_id date sch emp shift weekday_chinese).
Proof.
  intros Hemp Hshift Hwd. unfold check_conflicts. by rewrite Hemp, Hshift, Hwd.
Qed.

Lemma conflicts_of_spec (emp_id date : string) (sch : Schedule)
    (emp : Employee) (shift : Shift) (weekday_chinese : string) :
  get_weekday_chinese date = Some weekday_chinese →
  let who := display_name emp_id emp in
  let conflicts := conflicts_of emp_id date sch emp shift weekday_chinese in
  (RestsOn who weekday_chinese ∈ conflicts ↔ rests_on emp date) ∧
  (UnavailableOn who date ∈ conflicts ↔ unavailable_on emp date) ∧
  (LacksSkills who (required_skills shift) ∈ conflicts ↔ lacks_skills emp shift) ∧
  (AlreadyBooked who date ∈ conflicts ↔ booked_on emp_id date sch) ∧
  (conflicts = [] ↔
     ¬ rests_on emp date ∧ ¬ unavailable_on emp date ∧
     ¬ lacks_skills emp shift ∧ ¬ booked_on emp_id date sch).
Proof.
  intros Hwd who conflicts. subst conflicts. unfold conflicts_of. fold who.
  rewrite <- (rests_on_bool emp date weekday_chinese Hwd).
  rewrite <- (unavailable_on_bool emp date), <- (lacks_skills_bool emp shift).
  rewrite <- (booked_on_bool emp_id date sch).
  destruct (truthy (rest_day emp) && String.eqb weekday_chinese (rest_day emp));
  destruct (truthy (unavailable_days emp) && contains date (unavailable_days emp));
  destruct (list_truthy (required_skills shift)
            && negb (has_any_skill (skills emp) (required_skills shift)));
  destruct (already_assigned emp_id date sch);
  simpl; rewrite ?list_elem_of_In; simpl;
  repeat split; intros; try done; try intuition congruence.
Qed.

Lemma check_conflicts_nil (employees : list (string * Employee))
    (shifts : list (string * Shift)) (emp_id shift_id date : string)
    (sch : Schedule) :
  check_conflicts employees shifts emp_id shift_id date sch = Some [] →
  permissible employees shifts emp_id shift_id date sch.
Proof.
  unfold check_conflicts, permissible.
  destruct (dict_get emp_id employees) as [emp|] eqn:Hemp; [|done].
  destruct (dict_get shift_id shifts) as [shift|] eqn:Hshift; [|done].
  destruct (get_weekday_chinese date) as [wd|] eqn:Hwd; [|done]. simpl.
  intros [= Hnil]. exists emp, shift. split; [done|]. split; [done|].
  by apply (conflicts_of_spec emp_id date sch emp shift wd Hwd).
Qed.

(** C5, as the code has it.  An unknown employee id is reported alone, and
    so is an unknown shift id of a known employee: the other rules are not
    looked at.  For two known ids and a date that parses, the list holds each
    of the four other violations exactly when it applies (rest weekday,
    unavailable date, missing skills, already booked), whatever the others
    do.  The list is empty exactly when the assignment is permissible.  The
    checker returns this list and nothing else: it has no effect. *)
Theorem check_conflicts_cases (employees : list (string * Employee))
    (shifts : list (string * Shift)) (emp_id shift_id date : string)
    (sch : Schedule) :
  (dict_get emp_id employees = None →
     check_conflicts employees shifts emp_id shift_id date sch
     = Some [EmployeeMissing emp_id]) ∧
  (∀ emp, dict_get emp_id employees = Some emp → dict_get shift_id shifts = None →
     check_conflicts employees shifts emp_id shift_id date sch
     = Some [ShiftMissing shift_id]) ∧
  (∀ emp shift weekday_chinese,
     dict_get emp_id employees = Some emp →
     dict_get shift_id shifts = Some shift →
     get_weekday_chinese date = Some weekday_chinese →
     ∃ conflicts,
       check_conflicts employees shifts emp_id shift_id date sch = Some conflicts ∧
       let who := display_name emp_id emp in
       (RestsOn who weekday_chinese ∈ conflicts ↔ rests_on emp date) ∧
       (UnavailableOn who date ∈ conflicts ↔ unavailable_on emp date) ∧
       (LacksSkills who (required_skills shift) ∈ conflicts ↔ lacks_skills emp shift) ∧
       (AlreadyBooked who date ∈ conflicts ↔ booked_on emp_id date sch)) ∧
  (is_Some (get_weekday_chinese date) →
     check_conflicts employees shifts emp_id shift_id date sch = Some [] ↔
     permissible employees shifts emp_id shift_id date sch).
Proof.
  split; [|split; [|split]].
  - intros Hemp. unfold check_conflicts. by rewrite Hemp.
  - intros emp Hemp Hshift. unfold check_conflicts. by rewrite Hemp, Hshift.
  - intros emp shift wd Hemp Hshift Hwd. eexists. split.
    + by apply check_conflicts_known.
    + destruct (conflicts_of_spec emp_id date sch emp shift wd Hwd)
        as (Hrest & Hunav & Hskill & Hbooked & _).
      cbv zeta. auto.
  - intros [wd Hwd]. split; [apply check_conflicts_nil|].
    intros (emp & shift & Hemp & Hshift & Hperm).
    rewrite (check_conflicts_known _ _ _ _ _ _ _ _ _ Hemp Hshift Hwd). f_equal.
    by apply (conflicts_of_spec emp_id date sch emp shift wd Hwd).
Qed.

Lemma check_conflicts_cases_witness :
  check_conflicts sample_employees sample_shifts "E1" "晚班" "2024-01-09"
    sample_schedule = Some [] ↔
  permissible sample_employees sample_shifts "E1" "晚班" "2024-01-09" sample_schedule.
Proof.
  apply (check_conflicts_cases sample_employees sample_shifts "E1" "晚班"
           "2024-01-09" sample_schedule).
  vm_compute. by eexists.
Defined.

(** C5 as stated fails for a known employee and an unknown shift id: Ann
    rests on Monday 2024-01-08, and the list only names the shift. *)
Lemma check_conflicts_unknown_shift :
  dict_get "E1" sample_employees = Some ann ∧
  rests_on ann "2024-01-08" ∧
  check_conflicts sample_employees sample_shifts "E1" "夜班" "2024-01-08"
    sample_schedule = Some [ShiftMissing "夜班"] ∧
  RestsOn "Ann" "周一" ∉ [ShiftMissing "夜班"].
Proof.
  split; [reflexivity|]. split; [split; [done | vm_compute; reflexivity]|].
  split; [vm_compute; reflexivity|].
  intros Hin. apply list_elem_of_In in Hin. simpl in Hin. intuition congruence.
Qed.

(** ** C6: the preconditions of a run *)

(** C6.  With no employee, or no shift, or a start date that is not before
    the end date, [generate_schedule] ends on a precondition error, builds
    no schedule and leaves the session, so the stored schedule, as it was.  A
    run only generates with employees, shifts and a start date before the end
    date. *)
Theorem generate_schedule_precondition (ss : SessionState)
    (start_date end_date : Z) (clicked : bool) :
  (st_employees ss = [] ∨ st_shifts ss = [] ∨ ¬ start_date < end_date →
     ∃ outcome,
       generate_schedule ss start_date end_date clicked = Some (outcome, ss) ∧
       (outcome = MissingData (bool_decide (st_employees ss = []))
                              (bool_decide (st_shifts ss = []))
        ∨ outcome = InvalidPeriod)) ∧
  (∀ ss', generate_schedule ss start_date end_date clicked = Some (Generated, ss') →
     st_employees ss ≠ [] ∧ st_shifts ss ≠ [] ∧ start_date < end_date).
Proof.
  unfold generate_schedule. split.
  - intros Hpre.
    destruct (st_employees ss) as [|e es] eqn:He; [eexists; split; [done | by left]|].
    destruct (st_shifts ss) as [|s sl] eqn:Hs; [eexists; split; [done | by left]|].
    destruct Hpre as [?|[?|Hdates]]; [done..|].
    destruct (Z.leb_spec end_date start_date); [|lia].
    eexists. split; [done | by right].
  - intros ss'.
    destruct (st_employees ss) as [|e es]; [by destruct (st_shifts ss)|].
    destruct (st_shifts ss) as [|s sl]; [done|].
    destruct (Z.leb_spec end_date start_date); [done|].
    intros _. by repeat split.
Qed.

Lemma generate_schedule_precondition_witness :
  ∃ outcome,
    generate_schedule (sample_session sample_schedule) 738886 738886 true
      = Some (outcome, sample_session sample_schedule) ∧
    (outcome = MissingData
                 (bool_decide (st_employees (sample_session sample_schedule) = []))
                 (bool_decide (st_shifts (sample_session sample_schedule) = []))
     ∨ outcome = InvalidPeriod).
Proof.
  apply (generate_schedule_precondition (sample_session sample_schedule)
           738886 738886 true).
  right. right. lia.
Defined.

(** ** C9: determinism *)



(** ** Sorting keeps the elements *)

Lemma insert_sorted_elem {A : Type} (le : A → A → bool) (x y : A) (l : list A) :
  y ∈ insert_sorted le x l ↔ y = x ∨ y ∈ l.
Proof.
  induction l as [|z l IH]; simpl.
  - rewrite list_elem_of_singleton. split; [by left | intros [?|Hin]; [done|]].
    by apply not_elem_of_nil in Hin.
  - destruct (le x z).
    + by rewrite elem_of_cons.
    + rewrite !elem_of_cons, IH. tauto.
Qed.

Lemma stable_sort_elem {A : Type} (le : A → A → bool) (x : A) (l : list A) :
  x ∈ stable_sort le l ↔ x ∈ l.
Proof.
  unfold stable_sort. induction l as [|y l IH]; simpl; [done|].
  by rewrite insert_sorted_elem, elem_of_cons, IH.
Qed.

(** ** The steps that write an assignment *)

Lemma gather_candidates_sound (employees : list (string * Employee))
    (shifts : list (string * Shift)) (fixed : list string)
    (date_str shift_id : string) (st : GenState)
    (available candidates : list (Q * string)%type) (pool : list string) :
  gather_candidates employees shifts fixed date_str shift_id st pool = Some candidates →
  ∀ score emp_id, (score, emp_id) ∈ candidates →
    emp_id ∈ pool ∧
    check_conflicts employees shifts emp_id shift_id date_str (schedule st) = Some [].
Proof.
  revert candidates. induction pool as [|e pool IH]; intros candidates; simpl.
  - intros [= <-] score emp_id Hin. by apply not_elem_of_nil in Hin.
  - intros Hg. apply bind_Some in Hg as (conflicts & Hc & Hg).
    destruct conflicts as [|c conflicts].
    + apply bind_Some in Hg as (score0 & Hscore & Hg).
      apply bind_Some in Hg as (tl & Htl & [= <-]).
      intros score emp_id [[= -> ->]|Hin]%elem_of_cons.
      * split; [by left | done].
      * destruct (IH tl Htl score emp_id Hin). split; [by right | done].
    + intros score emp_id Hin. destruct (IH candidates Hg score emp_id Hin).
      split; [by right | done].
Qed.

Lemma assign_inv (employees : list (string * Employee))
    (shifts : list (string * Shift)) (fixed : list string)
    (date_str shift_id : string) (st st' : GenState) :
  assign_employee_to_shift employees shifts fixed date_str shift_id st = Some (true, st') →
  ∃ shift current_count best sch1 sch2 wl just_rested,
    dict_get shift_id shifts = Some shift ∧
    get_count date_str shift_id (schedule st) = Some current_count ∧
    best ∈ employee_list employees ∧
    check_conflicts employees shifts best shift_id date_str (schedule st) = Some [] ∧
    set_assignment date_str best shift_id (schedule st) = Some sch1 ∧
    set_count date_str shift_id (current_count + 1) sch1 = Some sch2 ∧
    add_work best (default 8%Q (duration_hours shift)) (employee_workload st) = Some wl ∧
    check_if_rested employees (employee_shift_cycle st) best date_str = Some just_rested ∧
    st' = mkGen sch2 wl
            (<[best := update_cycle just_rested (get_shift_type shift_id) date_str
                         (cycle_of (employee_shift_cycle st) best)]>
               (employee_shift_cycle st)).
Proof.
  unfold assign_employee_to_shift. intros H.
  apply bind_Some in H as (shift & Hshift & H).
  apply bind_Some in H as (required & Hreq & H).
  apply bind_Some in H as (current & Hcur & H).
  destruct (required <=? current); [done|].
  apply bind_Some in H as (entry & Hentry & H).
  apply bind_Some in H as (candidates & Hcand & H).
  destruct (stable_sort score_le candidates) as [|[score best] sorted] eqn:Hsort; [done|].
  apply bind_Some in H as (sch1 & Hsch1 & H).
  apply bind_Some in H as (sch2 & Hsch2 & H).
  apply bind_Some in H as (wl & Hwl & H).
  apply bind_Some in H as (jr & Hjr & [= <-]).
  assert (Hin : (score, best) ∈ candidates).
  { apply (stable_sort_elem score_le). rewrite Hsort. by left. }
  destruct (gather_candidates_sound _ _ _ _ _ _ candidates _ _ Hcand score best Hin)
    as [Hpool Hok].
  apply list_elem_of_filter in Hpool as [_ Hpool].
  by exists shift, current, best, sch1, sch2, wl, jr.
Qed.

Lemma assign_fail (employees : list (string * Employee))
    (shifts : list (string * Shift)) (fixed : list string)
    (date_str shift_id : string) (st st' : GenState) :
  assign_employee_to_shift employees shifts fixed date_str shift_id st = Some (false, st') →
  st' = st.
Proof.
  unfold assign_employee_to_shift. intros H.
  apply bind_Some in H as (shift & Hshift & H).
  apply bind_Some in H as (required & Hreq & H).
  apply bind_Some in H as (current & Hcur & H).
  destruct (required <=? current); [by injection H|].
  apply bind_Some in H as (entry & Hentry & H).
  apply bind_Some in H as (candidates & Hcand & H).
  destruct (stable_sort score_le candidates) as [|[score best] sorted]; [by injection H|].
  apply bind_Some in H as (sch1 & Hsch1 & H).
  apply bind_Some in H as (sch2 & Hsch2 & H).
  apply bind_Some in H as (wl & Hwl & H).
  by apply bind_Some in H as (jr & Hjr & [=]).
Qed.

Lemma book_schedule (date_str emp_id shift_id : string) (n : Z)
    (sch sch1 sch2 : Schedule) :
  set_assignment date_str emp_id shift_id sch = Some sch1 →
  set_count date_str shift_id n sch1 = Some sch2 →
  ∃ entry,
    sch !! date_str = Some entry ∧
    sch2 = <[date_str := mkDay (<[emp_id := shift_id]> (assignments entry))
                               (<[shift_id := n]> (shift_counts entry))]> sch.
Proof.
  unfold set_assignment, set_count. intros H1 H2.
  apply bind_Some in H1 as (entry & Hentry & [= <-]).
  rewrite lookup_insert_eq in H2. simpl in H2. injection H2 as <-.
  exists entry. split; [done|]. by rewrite insert_insert_eq.
Qed.

Lemma get_count_set_assignment (date_str emp_id shift_id counted : string)
    (sch sch1 : Schedule) :
  set_assignment date_str emp_id shift_id sch = Some sch1 →
  get_count date_str counted sch1 = get_count date_str counted sch.
Proof.
  unfold set_assignment, get_count. intros H1.
  apply bind_Some in H1 as (entry & Hentry & [= <-]).
  by rewrite lookup_insert_eq, Hentry.
Qed.

Lemma assigned_to_insert (shift_id emp_id s : string) (asg : gmap string string) :
  asg !! emp_id = None →
  assigned_to shift_id (<[emp_id := s]> asg)
  = if decide (s = shift_id) then S (assigned_to shift_id asg)
    else assigned_to shift_id asg.
Proof.
  intros Hfresh. unfold assigned_to. destruct (decide (s = shift_id)) as [Heq|Hne].
  - rewrite map_filter_insert_True by done.
    rewrite map_size_insert_None; [done|].
    apply map_lookup_filter_None. by left.
  - rewrite map_filter_insert_not'; [done | done |].
    intros y Hy. congruence.
Qed.

Lemma counts_consistent_book (sch : Schedule) (date_str emp_id shift_id : string)
    (entry : DayEntry) :
  counts_consistent sch →
  sch !! date_str = Some entry →
  assignments entry !! emp_id = None →
  counts_consistent
    (<[date_str := mkDay (<[emp_id := shift_id]> (assignments entry))
                         (<[shift_id := count_of shift_id entry + 1]>
                            (shift_counts entry))]> sch).
Proof.
  intros Hinv Hentry Hfresh date entry' counted Hlook.
  destruct (decide (date_str = date)) as [<-|Hne].
  - rewrite lookup_insert_eq in Hlook. injection Hlook as <-.
    unfold count_of. simpl. rewrite assigned_to_insert by done.
    specialize (Hinv date_str entry). unfold count_of in Hinv.
    destruct (decide (shift_id = counted)) as [<-|Hother].
    + rewrite lookup_insert_eq. simpl. rewrite (Hinv shift_id Hentry). lia.
    + rewrite lookup_insert_ne by done. by apply Hinv.
  - rewrite lookup_insert_ne in Hlook by done. by apply (Hinv date).
Qed.

Lemma rest_respected_book (employees : list (string * Employee))
    (shifts : list (string * Shift)) (sch : Schedule)
    (date_str emp_id shift_id : string) (entry : DayEntry)
    (counts : gmap string Z) :
  rest_respected employees sch →
  sch !! date_str = Some entry →
  permissible employees shifts emp_id shift_id date_str sch →
  rest_respected employees
    (<[date_str := mkDay (<[emp_id := shift_id]> (assignments entry)) counts]> sch).
Proof.
  intros Hinv Hentry (emp & shift & Hemp & _ & Hrest & Hunav & _).
  intros date entry' other emp' Hlook Hother Hviol.
  destruct (decide (date_str = date)) as [<-|Hne].
  - rewrite lookup_insert_eq in Hlook. injection Hlook as <-. simpl.
    destruct (decide (emp_id = other)) as [<-|Hdiff].
    + rewrite Hemp in Hother. injection Hother as <-. tauto.
    + rewrite lookup_insert_ne by done. by apply (Hinv date_str entry other emp').
  - rewrite lookup_insert_ne in Hlook by done.
    by apply (Hinv date entry' other emp').
Qed.

(** A write gated by the conflict checker keeps both invariants. *)
Lemma book_preserves (employees : list (string * Employee))
    (shifts : list (string * Shift)) (date_str emp_id shift_id : string)
    (count : Z) (sch sch1 sch2 : Schedule) :
  check_conflicts employees shifts emp_id shift_id date_str sch = Some [] →
  set_assignment date_str emp_id shift_id sch = Some sch1 →
  get_count date_str shift_id sch = Some count →
  set_count date_str shift_id (count + 1) sch1 = Some sch2 →
  schedule_ok employees sch → schedule_ok employees sch2.
Proof.
  intros Hok Hsch1 Hcount Hsch2 [Hcounts Hrest].
  destruct (book_schedule _ _ _ _ _ _ _ Hsch1 Hsch2) as (entry & Hentry & ->).
  pose proof (check_conflicts_nil _ _ _ _ _ _ Hok) as Hperm.
  assert (Hfresh : assignments entry !! emp_id = None).
  { destruct Hperm as (? & ? & _ & _ & _ & _ & _ & Hbooked).
    destruct (assignments entry !! emp_id) eqn:E; [|done].
    exfalso. apply Hbooked. exists entry. by rewrite E. }
  unfold get_count in Hcount. rewrite Hentry in Hcount. injection Hcount as <-.
  split.
  - by apply counts_consistent_book.
  - by eapply rest_respected_book.
Qed.

(** ** The phases keep the invariants *)

Section Preservation.

Context (employees : list (string * Employee)).
Context (shifts : list (string * Shift)).
Context (fixed : list string).
Context (monday_off : bool).

Local Abbreviation ok st := (schedule_ok employees (schedule st)).

Lemma assign_preserves (date_str shift_id : string) (st st' : GenState) (assigned : bool) :
  assign_employee_to_shift employees shifts fixed date_str shift_id st
    = Some (assigned, st') →
  ok st → ok st'.
Proof.
  destruct assigned; intros Hrun Hok.
  - apply assign_inv in Hrun
      as (shift & count & best & sch1 & sch2 & wl & jr & _ & Hcount & _ & Hfree
          & Hsch1 & Hsch2 & _ & _ & ->).
    simpl. by eapply book_preserves.
  - by rewrite (assign_fail _ _ _ _ _ _ _ Hrun).
Qed.

Lemma fill_loop_preserves (remaining : nat) (date_str shift_id : string)
    (st st' : GenState) :
  fill_loop employees shifts fixed remaining date_str shift_id st = Some st' →
  ok st → ok st'.
Proof.
  revert st. induction remaining as [|n IH]; intros st; simpl.
  - by intros [= <-].
  - intros Hrun Hok. apply bind_Some in Hrun as ([assigned st1] & Hassign & Hrun).
    apply assign_preserves in Hassign; [|done].
    destruct assigned; [by eapply IH | by injection Hrun as <-].
Qed.

Lemma fill_shifts_preserves (date_str : string) (todo : list string)
    (st st' : GenState) :
  fill_shifts employees shifts fixed date_str todo st = Some st' →
  ok st → ok st'.
Proof.
  revert st. induction todo as [|shift_id todo IH]; intros st; simpl.
  - by intros [= <-].
  - destruct (String.eqb shift_id fixed_early_early_shift); [apply IH|].
    intros Hrun Hok.
    apply bind_Some in Hrun as (shift & _ & Hrun).
    apply bind_Some in Hrun as (required & _ & Hrun).
    apply bind_Some in Hrun as (count & _ & Hrun).
    apply bind_Some in Hrun as (st1 & Hloop & Hrun).
    eapply IH; [done|]. by eapply fill_loop_preserves.
Qed.

Lemma phase2_preserves (dates : list string) (st st' : GenState) :
  phase2 employees shifts fixed monday_off dates st = Some st' →
  ok st → ok st'.
Proof.
  revert st. induction dates as [|date_str dates IH]; intros st; simpl.
  - by intros [= <-].
  - intros Hrun Hok.
    apply bind_Some in Hrun as (wd & _ & Hrun).
    apply bind_Some in Hrun as (st1 & Hfill & Hrun).
    eapply IH; [done|]. by eapply fill_shifts_preserves.
Qed.

Lemma backfill_shifts_preserves (date_str : string) (todo : list string)
    (st st' : GenState) (filled filled' : Z) :
  backfill_shifts employees shifts fixed date_str todo st filled = Some (st', filled') →
  ok st → ok st'.
Proof.
  revert st filled. induction todo as [|shift_id todo IH]; intros st filled; simpl.
  - by intros [= <- _].
  - intros Hrun Hok.
    apply bind_Some in Hrun as (shift & _ & Hrun).
    apply bind_Some in Hrun as (required & _ & Hrun).
    apply bind_Some in Hrun as (count & _ & Hrun).
    destruct (count <? required); [|by eapply IH].
    apply bind_Some in Hrun as ([assigned st1] & Hassign & Hrun).
    apply assign_preserves in Hassign; [|done].
    destruct assigned; [by eapply IH|].
    destruct (is_allow_empty shift_id); by eapply IH.
Qed.

Lemma backfill_dates_preserves (dates : list string) (st st' : GenState)
    (filled filled' : Z) :
  backfill_dates employees shifts fixed monday_off dates st filled = Some (st', filled') →
  ok st → ok st'.
Proof.
  revert st filled. induction dates as [|date_str dates IH]; intros st filled; simpl.
  - by intros [= <- _].
  - intros Hrun Hok.
    apply bind_Some in Hrun as (wd & _ & Hrun).
    apply bind_Some in Hrun as ([st1 filled1] & Hshifts & Hrun).
    eapply IH; [done|]. by eapply backfill_shifts_preserves.
Qed.

Lemma phase3_preserves (max_iterations : nat) (dates : list string)
    (st st' : GenState) :
  phase3 employees shifts fixed monday_off max_iterations dates st = Some st' →
  ok st → ok st'.
Proof.
  revert st. induction max_iterations as [|n IH]; intros st; simpl.
  - by intros [= <-].
  - intros Hrun Hok.
    apply bind_Some in Hrun as ([st1 filled] & Hpass & Hrun).
    apply backfill_dates_preserves in Hpass; [|done].
    destruct (filled =? 0); [by injection Hrun as <- | by eapply IH].
Qed.

Lemma preassign_fixed_preserves (date_str : string) (shift : Shift)
    (required : Z) (emps : list string) (st st' : GenState) :
  preassign_fixed employees shifts date_str shift required emps st = Some st' →
  ok st → ok st'.
Proof.
  revert st. induction emps as [|emp_id emps IH]; intros st; simpl.
  - by intros [= <-].
  - intros Hrun Hok.
    apply bind_Some in Hrun as (count & Hcount & Hrun).
    destruct (required <=? count); [by injection Hrun as <-|].
    apply bind_Some in Hrun as (entry & Hentry & Hrun).
    destruct (assignments entry !! emp_id); [by eapply IH|].
    apply bind_Some in Hrun as (conflicts & Hfree & Hrun).
    destruct conflicts; [|by eapply IH].
    apply bind_Some in Hrun as (sch1 & Hsch1 & Hrun).
    apply bind_Some in Hrun as (count1 & Hcount1 & Hrun).
    apply bind_Some in Hrun as (sch2 & Hsch2 & Hrun).
    apply bind_Some in Hrun as (wl & _ & Hrun).
    eapply IH; [done|]. simpl.
    rewrite (get_count_set_assignment _ _ _ _ _ _ Hsch1) in Hcount1.
    by eapply book_preserves.
Qed.

Lemma phase1_preserves (dates : list string) (st st' : GenState) :
  phase1 employees shifts fixed monday_off dates st = Some st' →
  ok st → ok st'.
Proof.
  revert st. induction dates as [|date_str dates IH]; intros st; simpl.
  - by intros [= <-].
  - intros Hrun Hok.
    apply bind_Some in Hrun as (wd & _ & Hrun).
    destruct (is_monday wd && monday_off); [by eapply IH|].
    destruct (mem fixed_early_early_shift (shift_list shifts)); [|by eapply IH].
    apply bind_Some in Hrun as (shift & _ & Hrun).
    apply bind_Some in Hrun as (st1 & Hpre & Hrun).
    eapply IH; [done|]. by eapply preassign_fixed_preserves.
Qed.

Lemma take_first_shift_preserves (date_str emp_id : string)
    (shortages : list (string * Z)) (st st' : GenState) :
  take_first_shift employees shifts date_str emp_id shortages st = Some st' →
  ok st → ok st'.
Proof.
  revert st. induction shortages as [|[shift_id shortage] shortages IH]; intros st; simpl.
  - by intros [= <-].
  - intros Hrun Hok.
    apply bind_Some in Hrun as (conflicts & Hfree & Hrun).
    destruct conflicts; [|by eapply IH].
    apply bind_Some in Hrun as (sch1 & Hsch1 & Hrun).
    apply bind_Some in Hrun as (count1 & Hcount1 & Hrun).
    apply bind_Some in Hrun as (sch2 & Hsch2 & Hrun).
    apply bind_Some in Hrun as (shift & _ & Hrun).
    apply bind_Some in Hrun as (wl & _ & Hrun).
    apply bind_Some in Hrun as (jr & _ & [= <-]). simpl.
    rewrite (get_count_set_assignment _ _ _ _ _ _ Hsch1) in Hcount1.
    by eapply book_preserves.
Qed.

Lemma place_idle_preserves (date_str : string) (todo idle : list string)
    (st st' : GenState) :
  place_idle employees shifts date_str todo idle st = Some st' →
  ok st → ok st'.
Proof.
  revert st. induction idle as [|emp_id idle IH]; intros st; simpl.
  - by intros [= <-].
  - intros Hrun Hok.
    apply bind_Some in Hrun as (shortages & _ & Hrun).
    apply bind_Some in Hrun as (jr & _ & Hrun).
    apply bind_Some in Hrun as (st1 & Htake & Hrun).
    eapply IH; [done|]. by eapply take_first_shift_preserves.
Qed.

Lemma phase4_preserves (dates : list string) (st st' : GenState) :
  phase4 employees shifts monday_off dates st = Some st' →
  ok st → ok st'.
Proof.
  revert st. induction dates as [|date_str dates IH]; intros st; simpl.
  - by intros [= <-].
  - intros Hrun Hok.
    apply bind_Some in Hrun as (wd & _ & Hrun).
    apply bind_Some in Hrun as (entry & _ & Hrun).
    apply bind_Some in Hrun as (sorted & _ & Hrun).
    apply bind_Some in Hrun as (st1 & Hidle & Hrun).
    eapply IH; [done|]. by eapply place_idle_preserves.
Qed.

End Preservation.

(** ** The initial state and the whole run *)

Lemma initial_schedule_lookup (day : DayEntry) (dates : list string)
    (sch : Schedule) (date_str : string) (entry : DayEntry) :
  foldl (λ sch date_str, <[date_str := day]> sch) sch dates !! date_str = Some entry →
  entry = day ∨ sch !! date_str = Some entry.
Proof.
  revert sch. induction dates as [|d dates IH]; intros sch; simpl; [by right|].
  intros Hlook. destruct (IH _ Hlook) as [?|Hin]; [by left|].
  destruct (decide (d = date_str)) as [->|Hne].
  - rewrite lookup_insert_eq in Hin. left. congruence.
  - rewrite lookup_insert_ne in Hin by done. by right.
Qed.

Lemma empty_day_count (shifts : list (string * Shift)) (shift_id : string) :
  count_of shift_id (empty_day shifts) = 0.
Proof.
  unfold count_of, empty_day. simpl.
  destruct (list_to_map _ !! shift_id) as [n|] eqn:Hn; [|done]. simpl.
  apply elem_of_list_to_map_2 in Hn.
  apply list_elem_of_fmap in Hn as (s & [= _ ->] & _). done.
Qed.

Lemma assigned_to_empty (shift_id : string) : assigned_to shift_id ∅ = 0%nat.
Proof. unfold assigned_to. by rewrite map_filter_empty, map_size_empty. Qed.

Lemma initial_state_ok (employees : list (string * Employee))
    (shifts : list (string * Shift)) (dates : list string) :
  schedule_ok employees (schedule (initial_state employees shifts dates)).
Proof.
  split.
  - intros date entry shift_id Hlook. simpl in Hlook.
    apply initial_schedule_lookup in Hlook as [->|Hin]; [|by rewrite lookup_empty in Hin].
    rewrite empty_day_count. simpl. by rewrite assigned_to_empty.
  - intros date entry emp_id emp Hlook _ _. simpl in Hlook.
    apply initial_schedule_lookup in Hlook as [->|Hin]; [|by rewrite lookup_empty in Hin].
    apply lookup_empty.
Qed.

Lemma run_phases_ok (employees : list (string * Employee))
    (shifts : list (string * Shift)) (fixed : list string) (monday_off : bool)
    (start_date end_date : Z) (st : GenState) :
  run_phases employees shifts fixed monday_off start_date end_date = Some st →
  schedule_ok employees (schedule st).
Proof.
  unfold run_phases. intros Hrun.
  apply bind_Some in Hrun as (st1 & H1 & Hrun).
  apply bind_Some in Hrun as (st2 & H2 & Hrun).
  apply bind_Some in Hrun as (st3 & H3 & H4).
  eapply phase4_preserves; [done|].
  eapply phase3_preserves; [done|].
  eapply phase2_preserves; [done|].
  eapply phase1_preserves; [done|].
  apply initial_state_ok.
Qed.

Lemma generate_schedule_ok (ss ss' : SessionState) (start_date end_date : Z)
    (clicked : bool) :
  generate_schedule ss start_date end_date clicked = Some (Generated, ss') →
  st_employees ss' = st_employees ss ∧
  schedule_ok (st_employees ss) (st_schedule ss').
Proof.
  unfold generate_schedule.
  destruct (st_employees ss) as [|e es] eqn:He; [by destruct (st_shifts ss)|].
  destruct (st_shifts ss) as [|s sl] eqn:Hs; [done|].
  destruct (end_date <=? start_date); [done|].
  destruct clicked; [|done].
  intros Hrun. apply bind_Some in Hrun as (st & Hphases & [= <-]). simpl.
  split; [done|]. by eapply run_phases_ok.
Qed.

Lemma sample_run :
  generate_schedule (sample_session ∅) 738886 738888 true
  = Some (Generated, sample_result).
Proof. vm_compute. reflexivity. Qed.

(** ** C7: the counts agree with the assignments *)

(** C7.  In every schedule that a run generates, on every date the count
    recorded for a shift is the number of assignments of that date that map
    to the shift: the empty schedule the run starts from has it so, and each
    write of the four phases adds one assignment and one to its count. *)
Theorem generated_counts_consistent (ss ss' : SessionState)
    (start_date end_date : Z) (clicked : bool) :
  generate_schedule ss start_date end_date clicked = Some (Generated, ss') →
  ∀ date entry shift_id,
    st_schedule ss' !! date = Some entry →
    default 0 (shift_counts entry !! shift_id)
    = Z.of_nat (assigned_to shift_id (assignments entry)).
Proof.
  intros Hrun. apply generate_schedule_ok in Hrun as [_ [Hcounts _]].
  intros date entry shift_id Hlook. by apply (Hcounts date).
Qed.

Lemma generated_counts_consistent_witness :
  ∃ entry,
    st_schedule sample_result !! "2024-01-01" = Some entry ∧
    default 0 (shift_counts entry !! "晚班")
    = Z.of_nat (assigned_to "晚班" (assignments entry)).
Proof.
  eexists. split.
  - vm_compute. reflexivity.
  - apply (generated_counts_consistent (sample_session ∅) sample_result
             738886 738888 true) with (date := "2024-01-01").
    + vm_compute. reflexivity.
    + vm_compute. reflexivity.
Defined.

(** ** C8: rest weekdays and unavailable dates are kept free *)

(** C8.  In every schedule that a run generates, an employee has no
    assignment on a date that falls on his fixed rest weekday or that is
    listed in his unavailable dates: every write of the four phases comes
    after a conflict check that found nothing, and the check looks at both. *)
Theorem generated_rest_respected (ss ss' : SessionState)
    (start_date end_date : Z) (clicked : bool) :
  generate_schedule ss start_date end_date clicked = Some (Generated, ss') →
  ∀ date entry emp_id emp,
    st_schedule ss' !! date = Some entry →
    dict_get emp_id (st_employees ss) = Some emp →
    rests_on emp date ∨ unavailable_on emp date →
    assignments entry !! emp_id = None.
Proof.
  intros Hrun. apply generate_schedule_ok in Hrun as [_ [_ Hrest]].
  intros date entry emp_id emp Hlook Hemp Hoff. by apply (Hrest date entry emp_id emp).
Qed.

Lemma generated_rest_respected_witness :
  ∃ entry,
    st_schedule sample_result !! "2024-01-01" = Some entry ∧
    assignments entry !! "E1" = None.
Proof.
  eexists. split.
  - vm_compute. reflexivity.
  - apply (generated_rest_respected (sample_session ∅) sample_result
             738886 738888 true) with (date := "2024-01-01") (emp := ann).
    + vm_compute. reflexivity.
    + vm_compute. reflexivity.
    + vm_compute. reflexivity.
    + left. split; [done | vm_compute; reflexivity].
Defined.

(** ** C3: the rotation update *)

Lemma cycle_of_insert (cyc : gmap string Cycle) (emp_id : string) (c : Cycle) :
  cycle_of (<[emp_id := c]> cyc) emp_id = c.
Proof. unfold cycle_of. by rewrite lookup_insert_eq. Qed.

Lemma check_conflicts_free (employees : list (string * Employee))
    (shifts : list (string * Shift)) (emp_id shift_id date_str : string)
    (sch : Schedule) (entry : DayEntry) :
  check_conflicts employees shifts emp_id shift_id date_str sch = Some [] →
  sch !! date_str = Some entry →
  assignments entry !! emp_id = None.
Proof.
  intros Hfree Hentry.
  apply check_conflicts_nil in Hfree as (? & ? & _ & _ & _ & _ & _ & Hbooked).
  destruct (assignments entry !! emp_id) eqn:E; [|done].
  exfalso. apply Hbooked. exists entry. by rewrite E.
Qed.

(** What the write of the fourth phase does when a shift is taken. *)
Lemma take_first_shift_inv (employees : list (string * Employee))
    (shifts : list (string * Shift)) (date_str emp_id : string)
    (shortages : list (string * Z)) (st st' : GenState) :
  take_first_shift employees shifts date_str emp_id shortages st = Some st' →
  st' = st ∨
  ∃ shift_id just_rested entry entry',
    shift_id ∈ shortages.*1 ∧
    schedule st !! date_str = Some entry ∧ assignments entry !! emp_id = None ∧
    schedule st' !! date_str = Some entry' ∧
    assignments entry' !! emp_id = Some shift_id ∧
    check_if_rested employees (employee_shift_cycle st) emp_id date_str
      = Some just_rested ∧
    employee_shift_cycle st'
    = <[emp_id := update_cycle_idle just_rested (get_shift_type shift_id) date_str
                    (cycle_of (employee_shift_cycle st) emp_id)]>
        (employee_shift_cycle st).
Proof.
  induction shortages as [|[shift_id shortage] shortages IH]; simpl.
  - intros [= <-]. by left.
  - intros Hrun. apply bind_Some in Hrun as (conflicts & Hfree & Hrun).
    destruct conflicts.
    + apply bind_Some in Hrun as (sch1 & Hsch1 & Hrun).
      apply bind_Some in Hrun as (count1 & Hcount1 & Hrun).
      apply bind_Some in Hrun as (sch2 & Hsch2 & Hrun).
      apply bind_Some in Hrun as (shift & _ & Hrun).
      apply bind_Some in Hrun as (wl & _ & Hrun).
      apply bind_Some in Hrun as (jr & Hjr & [= <-]).
      destruct (book_schedule _ _ _ _ _ _ _ Hsch1 Hsch2) as (entry & Hentry & ->).
      right. exists shift_id, jr, entry. eexists. simpl.
      split; [by left|]. split; [done|].
      split; [by eapply check_conflicts_free|].
      split; [apply lookup_insert_eq|]. simpl.
      split; [apply lookup_insert_eq | done].
    + destruct (IH Hrun) as [?|(s & jr & e & e' & Hin & ?)]; [by left|].
      right. exists s, jr, e, e'. split; [by right | done].
Qed.

(** C3, as the code has it.  A successful call of [assign_employee_to_shift]
    (second and third phase) gives the shift to one employee who had none on
    that date, and a shift taken in the fourth phase goes to the idle
    employee at hand.  Both update the rotation state of that employee alone:
    the last worked date becomes the date; the current category becomes the
    category of the shift when the employee is back from rest, whatever the
    category was, and otherwise it is set to the category of the shift only
    when it was unset. *)
Theorem assign_employee_to_shift_rotation (employees : list (string * Employee))
    (shifts : list (string * Shift)) (fixed : list string)
    (date_str : string) (st st' : GenState) :
  (∀ shift_id,
     assign_employee_to_shift employees shifts fixed date_str shift_id st
       = Some (true, st') →
     ∃ best just_rested,
       best ∈ employee_list employees ∧
       rotation_updated employees date_str st st' best shift_id just_rested) ∧
  (∀ emp_id shortages,
     take_first_shift employees shifts date_str emp_id shortages st = Some st' →
     st' = st ∨
     ∃ shift_id just_rested,
       shift_id ∈ shortages.*1 ∧
       rotation_updated employees date_str st st' emp_id shift_id just_rested).
Proof.
  unfold rotation_updated. split.
  - intros shift_id Hrun.
    apply assign_inv in Hrun
      as (shift & count & best & sch1 & sch2 & wl & jr & _ & _ & Hbest & Hfree
          & Hsch1 & Hsch2 & _ & Hjr & ->).
    destruct (book_schedule _ _ _ _ _ _ _ Hsch1 Hsch2) as (entry & Hentry & ->).
    exists best, jr. simpl. split; [done|]. split.
    { exists entry. eexists. split; [done|].
      split; [by eapply check_conflicts_free|].
      split; [apply lookup_insert_eq|]. apply lookup_insert_eq. }
    split; [done|]. rewrite cycle_of_insert.
    split; [by destruct jr|]. split; [by destruct jr|].
    intros other Hother. by rewrite lookup_insert_ne.
  - intros emp_id shortages Hrun.
    apply take_first_shift_inv in Hrun
      as [?|(shift_id & jr & entry & entry' & Hin & He & Hfree & He' & Hnew & Hjr & Hcyc)];
      [by left|].
    right. exists shift_id, jr. split; [done|].
    split; [by exists entry, entry'|]. split; [done|].
    rewrite Hcyc, cycle_of_insert.
    split; [by destruct jr|]. split; [by destruct jr|].
    intros other Hother. by rewrite lookup_insert_ne.
Qed.

Lemma assign_employee_to_shift_rotation_witness :
  ∃ best just_rested,
    best ∈ employee_list sample_employees ∧
    rotation_updated sample_employees "2024-01-09" (sample_state Other)
      sample_assigned best "晚班" just_rested.
Proof.
  apply (assign_employee_to_shift_rotation sample_employees sample_shifts []
           "2024-01-09" (sample_state Other) sample_assigned).
  vm_compute. reflexivity.
Defined.

(** C3 as stated fails for an employee back from rest whose category does
    not rotate: Ann, not a fixed-role employee, had a shift of no category
    (其他) before her Monday off and takes a late shift on Tuesday; her
    category becomes late, where the specification keeps it. *)
Lemma assign_after_rest_restarts_cycle :
  assign_employee_to_shift sample_employees sample_shifts [] "2024-01-09" "晚班"
    (sample_state Other) = Some (true, sample_assigned) ∧
  assignments <$> schedule sample_assigned !! "2024-01-09" = Some {["E1" := "晚班"]} ∧
  check_if_rested sample_employees (employee_shift_cycle (sample_state Other))
    "E1" "2024-01-09" = Some true ∧
  current_type (cycle_of (employee_shift_cycle (sample_state Other)) "E1") = Some Other ∧
  current_type (cycle_of (employee_shift_cycle sample_assigned) "E1") = Some Late ∧
  spec_update_category true (Some Other) (get_shift_type "晚班") = Some Other ∧
  current_type (cycle_of (employee_shift_cycle sample_assigned) "E1")
  ≠ spec_update_category true (Some Other) (get_shift_type "晚班").
Proof.
  repeat split; try (vm_compute; reflexivity).
  vm_compute. intros [=].
Qed.

(** * Further properties of the engine *)

(** ** Every phase is a sequence of writes *)

Section Trace.

Context (employees : list (string * Employee)).
Context (shifts : list (string * Shift)).
Context (fixed : list string).
Context (monday_off : bool).
Context (all_dates : list string).

Local Abbreviation step := (book_step employees shifts monday_off all_dates).
Local Abbreviation steps := (rtc (book_step employees shifts monday_off all_dates)).

Lemma assign_step (date_str shift_id weekday_chinese : string) (st st' : GenState) :
  date_str ∈ all_dates →
  get_weekday_chinese date_str = Some weekday_chinese →
  shift_id ∈ shift_list_today shifts monday_off weekday_chinese →
  assign_employee_to_shift employees shifts fixed date_str shift_id st = Some (true, st') →
  step st st'.
Proof.
  intros Hdate Hwd Htoday. unfold assign_employee_to_shift. intros H.
  apply bind_Some in H as (shift & Hshift & H).
  apply bind_Some in H as (required & Hreq & H).
  apply bind_Some in H as (current & Hcur & H).
  destruct (Z.leb_spec required current) as [|Hshort]; [done|].
  apply bind_Some in H as (entry & Hentry & H).
  apply bind_Some in H as (candidates & Hcand & H).
  destruct (stable_sort score_le candidates) as [|[score best] sorted] eqn:Hsort; [done|].
  apply bind_Some in H as (sch1 & Hsch1 & H).
  apply bind_Some in H as (sch2 & Hsch2 & H).
  apply bind_Some in H as (wl & Hwl & H).
  apply bind_Some in H as (jr & Hjr & [= <-]).
  assert (Hin : (score, best) ∈ candidates).
  { apply (stable_sort_elem score_le). rewrite Hsort. by left. }
  destruct (gather_candidates_sound _ _ _ _ _ _ candidates _ _ Hcand score best Hin)
    as [_ Hok].
  eapply (BookStep _ _ _ _ st _ date_str best shift_id weekday_chinese shift
            current required sch1 sch2 wl); try done.
  - by left.
  - by destruct jr.
Qed.

Lemma assign_steps (date_str shift_id weekday_chinese : string) (st st' : GenState)
    (assigned : bool) :
  date_str ∈ all_dates →
  get_weekday_chinese date_str = Some weekday_chinese →
  shift_id ∈ shift_list_today shifts monday_off weekday_chinese →
  assign_employee_to_shift employees shifts fixed date_str shift_id st
    = Some (assigned, st') →
  steps st st'.
Proof.
  intros Hdate Hwd Htoday Hrun. destruct assigned.
  - apply rtc_once. by eapply assign_step.
  - by rewrite (assign_fail _ _ _ _ _ _ _ Hrun).
Qed.

Lemma fill_loop_steps (remaining : nat) (date_str shift_id weekday_chinese : string)
    (st st' : GenState) :
  date_str ∈ all_dates →
  get_weekday_chinese date_str = Some weekday_chinese →
  shift_id ∈ shift_list_today shifts monday_off weekday_chinese →
  fill_loop employees shifts fixed remaining date_str shift_id st = Some st' →
  steps st st'.
Proof.
  intros Hdate Hwd Htoday. revert st. induction remaining as [|n IH]; intros st; simpl.
  - by intros [= <-].
  - intros Hrun. apply bind_Some in Hrun as ([assigned st1] & Hassign & Hrun).
    pose proof (assign_steps _ _ _ _ _ _ Hdate Hwd Htoday Hassign) as Hone.
    destruct assigned; [|by injection Hrun as <-].
    etrans; [done|]. by apply IH.
Qed.

Lemma fill_shifts_steps (date_str weekday_chinese : string) (todo : list string)
    (st st' : GenState) :
  date_str ∈ all_dates →
  get_weekday_chinese date_str = Some weekday_chinese →
  todo ⊆ shift_list_today shifts monday_off weekday_chinese →
  fill_shifts employees shifts fixed date_str todo st = Some st' →
  steps st st'.
Proof.
  intros Hdate Hwd. revert st. induction todo as [|shift_id todo IH]; intros st Htodo; simpl.
  - by intros [= <-].
  - assert (Hrest : todo ⊆ shift_list_today shifts monday_off weekday_chinese).
    { intros s Hs. apply Htodo. by right. }
    destruct (String.eqb shift_id fixed_early_early_shift); [by apply IH|].
    intros Hrun.
    apply bind_Some in Hrun as (shift & _ & Hrun).
    apply bind_Some in Hrun as (required & _ & Hrun).
    apply bind_Some in Hrun as (count & _ & Hrun).
    apply bind_Some in Hrun as (st1 & Hloop & Hrun).
    etrans; [|by apply IH].
    eapply fill_loop_steps; [done | done | | done]. apply Htodo. by left.
Qed.

Lemma phase2_steps (dates : list string) (st st' : GenState) :
  dates ⊆ all_dates →
  phase2 employees shifts fixed monday_off dates st = Some st' →
  steps st st'.
Proof.
  revert st. induction dates as [|date_str dates IH]; intros st Hsub; simpl.
  - by intros [= <-].
  - intros Hrun.
    apply bind_Some in Hrun as (wd & Hwd & Hrun).
    apply bind_Some in Hrun as (st1 & Hfill & Hrun).
    etrans; [|apply IH; [|done]].
    + eapply fill_shifts_steps; [| done | done | done]. apply Hsub. by left.
    + intros d Hd. apply Hsub. by right.
Qed.

Lemma backfill_shifts_steps (date_str weekday_chinese : string) (todo : list string)
    (st st' : GenState) (filled filled' : Z) :
  date_str ∈ all_dates →
  get_weekday_chinese date_str = Some weekday_chinese →
  todo ⊆ shift_list_today shifts monday_off weekday_chinese →
  backfill_shifts employees shifts fixed date_str todo st filled = Some (st', filled') →
  steps st st'.
Proof.
  intros Hdate Hwd. revert st filled.
  induction todo as [|shift_id todo IH]; intros st filled Htodo; simpl.
  - by intros [= <- _].
  - assert (Hrest : todo ⊆ shift_list_today shifts monday_off weekday_chinese).
    { intros s Hs. apply Htodo. by right. }
    intros Hrun.
    apply bind_Some in Hrun as (shift & _ & Hrun).
    apply bind_Some in Hrun as (required & _ & Hrun).
    apply bind_Some in Hrun as (count & _ & Hrun).
    destruct (count <? required); [|by eapply IH].
    apply bind_Some in Hrun as ([assigned st1] & Hassign & Hrun).
    assert (Hone : steps st st1).
    { eapply assign_steps; [done | done | | done]. apply Htodo. by left. }
    etrans; [done|].
    destruct assigned; [by eapply IH|].
    destruct (is_allow_empty shift_id); by eapply IH.
Qed.

Lemma backfill_dates_steps (dates : list string) (st st' : GenState)
    (filled filled' : Z) :
  dates ⊆ all_dates →
  backfill_dates employees shifts fixed monday_off dates st filled = Some (st', filled') →
  steps st st'.
Proof.
  revert st filled. induction dates as [|date_str dates IH]; intros st filled Hsub; simpl.
  - by intros [= <- _].
  - intros Hrun.
    apply bind_Some in Hrun as (wd & Hwd & Hrun).
    apply bind_Some in Hrun as ([st1 filled1] & Hshifts & Hrun).
    etrans; [|eapply IH; [|done]].
    + eapply backfill_shifts_steps; [| done | done | done]. apply Hsub. by left.
    + intros d Hd. apply Hsub. by right.
Qed.

Lemma phase3_steps (max_iterations : nat) (dates : list string) (st st' : GenState) :
  dates ⊆ all_dates →
  phase3 employees shifts fixed monday_off max_iterations dates st = Some st' →
  steps st st'.
Proof.
  intros Hsub. revert st. induction max_iterations as [|n IH]; intros st; simpl.
  - by intros [= <-].
  - intros Hrun.
    apply bind_Some in Hrun as ([st1 filled] & Hpass & Hrun).
    apply backfill_dates_steps in Hpass; [|done].
    destruct (filled =? 0); [by injection Hrun as <-|].
    etrans; [done|]. by apply IH.
Qed.

Lemma preassign_fixed_steps (date_str weekday_chinese : string) (shift : Shift)
    (emps : list string) (st st' : GenState) :
  date_str ∈ all_dates →
  get_weekday_chinese date_str = Some weekday_chinese →
  fixed_early_early_shift ∈ shift_list_today shifts monday_off weekday_chinese →
  dict_get fixed_early_early_shift shifts = Some shift →
  preassign_fixed employees shifts date_str shift (default 2 (required_staff shift))
    emps st = Some st' →
  steps st st'.
Proof.
  intros Hdate Hwd Htoday Hshift. revert st.
  induction emps as [|emp_id emps IH]; intros st; simpl.
  - by intros [= <-].
  - intros Hrun.
    apply bind_Some in Hrun as (count & Hcount & Hrun).
    destruct (Z.leb_spec (default 2 (required_staff shift)) count) as [|Hshort];
      [by injection Hrun as <-|].
    apply bind_Some in Hrun as (entry & Hentry & Hrun).
    destruct (assignments entry !! emp_id); [by eapply IH|].
    apply bind_Some in Hrun as (conflicts & Hfree & Hrun).
    destruct conflicts; [|by eapply IH].
    apply bind_Some in Hrun as (sch1 & Hsch1 & Hrun).
    apply bind_Some in Hrun as (count1 & Hcount1 & Hrun).
    apply bind_Some in Hrun as (sch2 & Hsch2 & Hrun).
    apply bind_Some in Hrun as (wl & Hwl & Hrun).
    rewrite (get_count_set_assignment _ _ _ _ _ _ Hsch1), Hcount in Hcount1.
    injection Hcount1 as <-.
    etrans; [|by apply IH]. apply rtc_once.
    eapply (BookStep _ _ _ _ st _ date_str emp_id fixed_early_early_shift
              weekday_chinese shift count (default 2 (required_staff shift))
              sch1 sch2 wl
              (mkCycle (Some (get_shift_type fixed_early_early_shift))
                 (Some date_str) false)); try done.
    by right.
Qed.

Lemma phase1_steps (dates : list string) (st st' : GenState) :
  dates ⊆ all_dates →
  phase1 employees shifts fixed monday_off dates st = Some st' →
  steps st st'.
Proof.
  revert st. induction dates as [|date_str dates IH]; intros st Hsub; simpl.
  - by intros [= <-].
  - assert (Hrest : dates ⊆ all_dates) by (intros d Hd; apply Hsub; by right).
    intros Hrun.
    apply bind_Some in Hrun as (wd & Hwd & Hrun).
    destruct (is_monday wd && monday_off) eqn:Hmon; [by eapply IH|].
    destruct (mem fixed_early_early_shift (shift_list shifts)) eqn:Hmem; [|by eapply IH].
    apply bind_Some in Hrun as (shift & Hshift & Hrun).
    apply bind_Some in Hrun as (st1 & Hpre & Hrun).
    etrans; [|by apply IH].
    eapply preassign_fixed_steps; [| done | | done | done].
    + apply Hsub. by left.
    + unfold shift_list_today. rewrite Hmon. by apply mem_true.
Qed.

Lemma shift_shortages_short (date_str : string) (todo : list string) (st : GenState)
    (shortages : list (string * Z)) :
  shift_shortages shifts date_str todo st = Some shortages →
  ∀ shift_id shortage, (shift_id, shortage) ∈ shortages →
    shift_id ∈ todo ∧
    ∃ required count,
      get_required_staff shifts shift_id (Some date_str) (Some (schedule st))
        = Some required ∧
      get_count date_str shift_id (schedule st) = Some count ∧
      count < required.
Proof.
  revert shortages. induction todo as [|s todo IH]; intros shortages; simpl.
  - intros [= <-] shift_id shortage Hin. by apply not_elem_of_nil in Hin.
  - intros Hrun.
    apply bind_Some in Hrun as (shift & _ & Hrun).
    apply bind_Some in Hrun as (required & Hreq & Hrun).
    apply bind_Some in Hrun as (count & Hcount & Hrun).
    apply bind_Some in Hrun as (more & Hmore & Hrun).
    intros shift_id shortage Hin.
    assert (Hold : (shift_id, shortage) ∈ more →
              shift_id ∈ s :: todo ∧
              ∃ required count,
                get_required_staff shifts shift_id (Some date_str) (Some (schedule st))
                  = Some required ∧
                get_count date_str shift_id (schedule st) = Some count ∧
                count < required).
    { intros Hm. destruct (IH more Hmore shift_id shortage Hm) as [? ?].
      split; [by right | done]. }
    destruct (Z.ltb_spec count required) as [Hshort|]; injection Hrun as <-; [|auto].
    apply elem_of_cons in Hin as [[= -> ->]|Hin]; [|auto].
    split; [by left|]. by exists required, count.
Qed.

Lemma order_shortages_elem (current : option ShiftType) (rested_now : bool)
    (shortages : list (string * Z)) (x : string * Z) :
  x ∈ order_shortages current rested_now shortages ↔ x ∈ shortages.
Proof.
  unfold order_shortages. destruct current as [ct|]; [|done].
  destruct (rotating ct); [|done].
  destruct rested_now; apply stable_sort_elem.
Qed.

Lemma take_first_shift_steps (date_str emp_id weekday_chinese : string)
    (shortages : list (string * Z)) (st st' : GenState) :
  date_str ∈ all_dates →
  get_weekday_chinese date_str = Some weekday_chinese →
  (∀ shift_id shortage, (shift_id, shortage) ∈ shortages →
     shift_id ∈ shift_list_today shifts monday_off weekday_chinese ∧
     ∃ required count,
       get_required_staff shifts shift_id (Some date_str) (Some (schedule st))
         = Some required ∧
       get_count date_str shift_id (schedule st) = Some count ∧
       count < required) →
  take_first_shift employees shifts date_str emp_id shortages st = Some st' →
  steps st st'.
Proof.
  intros Hdate Hwd.
  induction shortages as [|[shift_id shortage] shortages IH]; intros Hshort; simpl.
  - by intros [= <-].
  - intros Hrun. apply bind_Some in Hrun as (conflicts & Hfree & Hrun).
    destruct conflicts.
    + apply bind_Some in Hrun as (sch1 & Hsch1 & Hrun).
      apply bind_Some in Hrun as (count1 & Hcount1 & Hrun).
      apply bind_Some in Hrun as (sch2 & Hsch2 & Hrun).
      apply bind_Some in Hrun as (shift & Hshift & Hrun).
      apply bind_Some in Hrun as (wl & Hwl & Hrun).
      apply bind_Some in Hrun as (jr & Hjr & [= <-]).
      destruct (Hshort shift_id shortage) as (Htoday & required & count & Hreq & Hcount & Hlt);
        [by left|].
      rewrite (get_count_set_assignment _ _ _ _ _ _ Hsch1), Hcount in Hcount1.
      injection Hcount1 as <-.
      apply rtc_once.
      eapply (BookStep _ _ _ _ st _ date_str emp_id shift_id weekday_chinese shift
                count required sch1 sch2 wl); try done.
      * by left.
      * by destruct jr.
    + apply IH; [|done]. intros s k Hin. apply (Hshort s k). by right.
Qed.

Lemma steps_schedule_lookup (st st' : GenState) (date_str : string) :
  steps st st' →
  is_Some (schedule st !! date_str) ↔ is_Some (schedule st' !! date_str).
Proof.
  induction 1 as [|st st1 st2 Hstep _ IH]; [done|]. rewrite <- IH.
  destruct Hstep as [d e s wd shift count required sch1 sch2 wl c
                       _ _ _ _ _ _ _ _ Hsch1 Hsch2 _ _ ->]. simpl.
  destruct (book_schedule _ _ _ _ _ _ _ Hsch1 Hsch2) as (entry & Hentry & ->).
  destruct (decide (d = date_str)) as [<-|Hne].
  - rewrite lookup_insert_eq, Hentry. split; by eexists.
  - by rewrite lookup_insert_ne.
Qed.

Lemma place_idle_steps (date_str weekday_chinese : string) (todo idle : list string)
    (st st' : GenState) :
  date_str ∈ all_dates →
  get_weekday_chinese date_str = Some weekday_chinese →
  todo ⊆ shift_list_today shifts monday_off weekday_chinese →
  place_idle employees shifts date_str todo idle st = Some st' →
  steps st st'.
Proof.
  intros Hdate Hwd Htodo. revert st. induction idle as [|emp_id idle IH]; intros st; simpl.
  - by intros [= <-].
  - intros Hrun.
    apply bind_Some in Hrun as (shortages & Hshort & Hrun).
    apply bind_Some in Hrun as (jr & _ & Hrun).
    apply bind_Some in Hrun as (st1 & Htake & Hrun).
    etrans; [|by apply IH].
    eapply take_first_shift_steps; [done | done | | done].
    intros shift_id shortage Hin. apply order_shortages_elem in Hin.
    destruct (shift_shortages_short _ _ _ _ Hshort shift_id shortage Hin) as [Htd ?].
    split; [by apply Htodo | done].
Qed.

Lemma phase4_steps (dates : list string) (st st' : GenState) :
  dates ⊆ all_dates →
  phase4 employees shifts monday_off dates st = Some st' →
  steps st st'.
Proof.
  revert st. induction dates as [|date_str dates IH]; intros st Hsub; simpl.
  - by intros [= <-].
  - assert (Hrest : dates ⊆ all_dates) by (intros d Hd; apply Hsub; by right).
    intros Hrun.
    apply bind_Some in Hrun as (wd & Hwd & Hrun).
    apply bind_Some in Hrun as (entry & _ & Hrun).
    apply bind_Some in Hrun as (sorted & _ & Hrun).
    apply bind_Some in Hrun as (st1 & Hidle & Hrun).
    etrans; [|by apply IH].
    eapply place_idle_steps; [| done | done | done]. apply Hsub. by left.
Qed.

End Trace.

Lemma run_phases_steps (employees : list (string * Employee))
    (shifts : list (string * Shift)) (fixed : list string) (monday_off : bool)
    (start_date end_date : Z) (st : GenState) :
  run_phases employees shifts fixed monday_off start_date end_date = Some st →
  rtc (book_step employees shifts monday_off (strftime <$> date_range start_date end_date))
    (initial_state employees shifts (strftime <$> date_range start_date end_date)) st.
Proof.
  unfold run_phases. intros Hrun.
  apply bind_Some in Hrun as (st1 & H1 & Hrun).
  apply bind_Some in Hrun as (st2 & H2 & Hrun).
  apply bind_Some in Hrun as (st3 & H3 & H4).
  etrans; [eapply phase1_steps; [|exact H1]; done|].
  etrans; [eapply phase2_steps; [|exact H2]; done|].
  etrans; [eapply phase3_steps; [|exact H3]; done|].
  eapply phase4_steps; [|exact H4]; done.
Qed.

Lemma generate_schedule_steps (ss ss' : SessionState) (start_date end_date : Z)
    (clicked : bool) :
  generate_schedule ss start_date end_date clicked = Some (Generated, ss') →
  ∃ st,
    st_schedule ss' = schedule st ∧
    rtc (book_step (st_employees ss) (st_shifts ss)
           (monday_no_early_early_shift (st_rules ss))
           (strftime <$> date_range start_date end_date))
      (initial_state (st_employees ss) (st_shifts ss)
         (strftime <$> date_range start_date end_date)) st.
Proof.
  unfold generate_schedule.
  destruct (st_employees ss) as [|e es] eqn:He; [by destruct (st_shifts ss)|].
  destruct (st_shifts ss) as [|s sl] eqn:Hs; [done|].
  destruct (end_date <=? start_date); [done|].
  destruct clicked; [|done].
  intros Hrun. apply bind_Some in Hrun as (st & Hphases & [= <-]). simpl.
  exists st. split; [done|]. eapply run_phases_steps. exact Hphases.
Qed.

(** ** What a write keeps *)

Section Steps.

Context (employees : list (string * Employee)).
Context (shifts : list (string * Shift)).
Context (monday_off : bool).
Context (dates : list string).

Local Abbreviation step := (book_step employees shifts monday_off dates).
Local Abbreviation steps := (rtc (book_step employees shifts monday_off dates)).

Lemma steps_invariant (P : Schedule → Prop) (st st' : GenState) :
  (∀ a b, step a b → P (schedule a) → P (schedule b)) →
  steps st st' → P (schedule st) → P (schedule st').
Proof. intros Hstep. induction 1; eauto. Qed.

Lemma step_assignments_valid (st st' : GenState) :
  step st st' →
  assignments_valid employees shifts (schedule st) →
  assignments_valid employees shifts (schedule st').
Proof.
  intros [d e s wd shift count required sch1 sch2 wl c
            _ _ _ _ Hfree _ _ _ Hsch1 Hsch2 _ _ ->] Hinv. simpl.
  destruct (book_schedule _ _ _ _ _ _ _ Hsch1 Hsch2) as (entry & Hentry & ->).
  intros date entry' emp_id shift_id Hlook Hasg.
  destruct (decide (d = date)) as [<-|Hne].
  - rewrite lookup_insert_eq in Hlook. injection Hlook as <-. simpl in Hasg.
    destruct (decide (e = emp_id)) as [<-|Hdiff].
    + rewrite lookup_insert_eq in Hasg. injection Hasg as <-.
      apply check_conflicts_nil in Hfree
        as (emp & shift' & Hemp & Hshift & _ & _ & Hskill & _).
      by exists emp, shift'.
    + rewrite lookup_insert_ne in Hasg by done. by eapply Hinv.
  - rewrite lookup_insert_ne in Hlook by done. by eapply Hinv.
Qed.

Lemma required_le_cap (date_str shift_id weekday_chinese : string) (shift : Shift)
    (sch : Schedule) (count required : Z) :
  get_weekday_chinese date_str = Some weekday_chinese →
  dict_get shift_id shifts = Some shift →
  get_count date_str shift_id sch = Some count →
  (get_required_staff shifts shift_id (Some date_str) (Some sch) = Some required
   ∨ (shift_id = fixed_early_early_shift ∧
      required = default 2 (required_staff shift))) →
  required ≤ staff_cap shift_id shift.
Proof.
  intros Hwd Hshift Hcount Hreq. unfold staff_cap.
  assert (Hdate : truthy date_str = true).
  { apply truthy_true. intros ->. by vm_compute in Hwd. }
  assert (Hsch : dict_truthy sch = true).
  { apply dict_truthy_true. intros ->. unfold get_count in Hcount.
    by rewrite lookup_empty in Hcount. }
  destruct Hreq as [Hreq|[-> ->]].
  - unfold get_required_staff in Hreq. rewrite Hdate, Hsch in Hreq.
    destruct (String.eqb shift_id early_shift_id); simpl in Hreq.
    + destruct (_ =? 0) in Hreq; injection Hreq as <-; lia.
    + rewrite (base_required_staff_known _ _ _ Hshift) in Hreq. injection Hreq as <-.
      destruct (String.eqb shift_id fixed_early_early_shift); [|lia].
      destruct (required_staff shift); simpl; lia.
  - assert (Hne : String.eqb fixed_early_early_shift early_shift_id = false)
      by (vm_compute; reflexivity).
    rewrite Hne, String.eqb_refl. lia.
Qed.

Lemma step_never_overstaffed (st st' : GenState) :
  step st st' →
  never_overstaffed shifts (schedule st) →
  never_overstaffed shifts (schedule st').
Proof.
  intros [d e s wd shift count required sch1 sch2 wl c
            _ Hwd _ Hshift _ Hcount Hreq Hshort Hsch1 Hsch2 _ _ ->] Hinv. simpl.
  pose proof (required_le_cap _ _ _ _ _ _ _ Hwd Hshift Hcount Hreq) as Hcap.
  destruct (book_schedule _ _ _ _ _ _ _ Hsch1 Hsch2) as (entry & Hentry & ->).
  intros date entry' shift_id shift' Hlook Hshift'.
  destruct (decide (d = date)) as [<-|Hne].
  - rewrite lookup_insert_eq in Hlook. injection Hlook as <-.
    unfold count_of. simpl.
    destruct (decide (s = shift_id)) as [<-|Hdiff].
    + rewrite lookup_insert_eq. simpl. rewrite Hshift in Hshift'.
      injection Hshift' as <-. lia.
    + rewrite lookup_insert_ne by done. by apply (Hinv d entry).
  - rewrite lookup_insert_ne in Hlook by done. by eapply Hinv.
Qed.

Lemma step_mondays_free (st st' : GenState) :
  monday_off = true →
  step st st' →
  mondays_free (schedule st) → mondays_free (schedule st').
Proof.
  intros Hoff [d e s wd shift count required sch1 sch2 wl c
            _ Hwd Htoday _ _ _ _ _ Hsch1 Hsch2 _ _ ->] Hinv. simpl.
  destruct (book_schedule _ _ _ _ _ _ _ Hsch1 Hsch2) as (entry & Hentry & ->).
  intros date entry' emp_id Hlook Hmonday.
  destruct (decide (d = date)) as [<-|Hne].
  - rewrite lookup_insert_eq in Hlook. injection Hlook as <-. simpl.
    destruct (decide (e = emp_id)) as [<-|Hdiff].
    + rewrite lookup_insert_eq. intros [= ->].
      rewrite Hwd in Hmonday. injection Hmonday as ->.
      unfold shift_list_today in Htoday. rewrite Hoff in Htoday. simpl in Htoday.
      by apply list_elem_of_filter in Htoday as [Hne _].
    + rewrite lookup_insert_ne by done. by apply (Hinv d entry).
  - rewrite lookup_insert_ne in Hlook by done. by eapply Hinv.
Qed.

Lemma step_keeps_assignments (st st' : GenState) :
  step st st' → keeps_assignments (schedule st) (schedule st').
Proof.
  intros [d e s wd shift count required sch1 sch2 wl c
            _ _ _ _ Hfree _ _ _ Hsch1 Hsch2 _ _ ->]. simpl.
  destruct (book_schedule _ _ _ _ _ _ _ Hsch1 Hsch2) as (entry & Hentry & ->).
  intros date entry' emp_id shift_id Hlook Hasg.
  destruct (decide (d = date)) as [<-|Hne].
  - rewrite Hentry in Hlook. injection Hlook as <-.
    eexists. split; [apply lookup_insert_eq|]. simpl.
    destruct (decide (e = emp_id)) as [<-|Hdiff].
    + by rewrite (check_conflicts_free _ _ _ _ _ _ _ Hfree Hentry) in Hasg.
    + by rewrite lookup_insert_ne.
  - exists entry'. by rewrite lookup_insert_ne.
Qed.

Lemma steps_keep_assignments (st st' : GenState) :
  steps st st' → keeps_assignments (schedule st) (schedule st').
Proof.
  induction 1 as [st|st st1 st2 Hstep _ IH].
  - intros date entry emp_id shift_id Hlook Hasg. by exists entry.
  - intros date entry emp_id shift_id Hlook Hasg.
    destruct (step_keeps_assignments _ _ Hstep date entry emp_id shift_id Hlook Hasg)
      as (entry1 & Hlook1 & Hasg1).
    by apply (IH date entry1).
Qed.

End Steps.

(** ** What every generated schedule satisfies *)

Lemma initial_schedule_dom (day : DayEntry) (dates : list string) (sch : Schedule)
    (date_str : string) :
  is_Some (foldl (λ sch date_str, <[date_str := day]> sch) sch dates !! date_str) ↔
  date_str ∈ dates ∨ is_Some (sch !! date_str).
Proof.
  revert sch. induction dates as [|d dates IH]; intros sch; simpl.
  - split; [by right | intros [Hin|?]; [by apply not_elem_of_nil in Hin | done]].
  - rewrite IH, elem_of_cons. destruct (decide (d = date_str)) as [->|Hne].
    + rewrite lookup_insert_eq. split; [intros _; by left; left | intros _; right; by eexists].
    + rewrite lookup_insert_ne by done. split; intros [?|?]; auto.
      destruct H as [?|?]; [congruence | by left].
Qed.

Lemma initial_state_entry (employees : list (string * Employee))
    (shifts : list (string * Shift)) (dates : list string)
    (date_str : string) (entry : DayEntry) :
  schedule (initial_state employees shifts dates) !! date_str = Some entry →
  entry = empty_day shifts.
Proof.
  intros Hlook. simpl in Hlook.
  apply initial_schedule_lookup in Hlook as [->|Hin]; [done|].
  by rewrite lookup_empty in Hin.
Qed.

(** The schedule of a run only names employees and shifts of the session,
    and never gives a shift that asks for skills to an employee who has none
    of them: the third phase, for all its comment says, relaxes nothing. *)
Theorem generated_assignments_valid (ss ss' : SessionState)
    (start_date end_date : Z) (clicked : bool) :
  generate_schedule ss start_date end_date clicked = Some (Generated, ss') →
  ∀ date entry emp_id shift_id,
    st_schedule ss' !! date = Some entry →
    assignments entry !! emp_id = Some shift_id →
    ∃ emp shift,
      dict_get emp_id (st_employees ss) = Some emp ∧
      dict_get shift_id (st_shifts ss) = Some shift ∧
      (required_skills shift = [] ∨
       ∃ skill, skill ∈ required_skills shift ∧ skill ∈ skills emp).
Proof.
  intros Hrun date entry emp_id shift_id Hlook Hasg.
  apply generate_schedule_steps in Hrun as (st & Hsch & Hsteps).
  rewrite Hsch in Hlook.
  assert (Hvalid : assignments_valid (st_employees ss) (st_shifts ss) (schedule st)).
  { eapply steps_invariant; [apply step_assignments_valid | exact Hsteps |].
    intros d e a s Hd Ha. apply initial_state_entry in Hd as ->.
    simpl in Ha. by rewrite lookup_empty in Ha. }
  destruct (Hvalid date entry emp_id shift_id Hlook Hasg)
    as (emp & shift & Hemp & Hshift & Hskill).
  exists emp, shift. split; [done|]. split; [done|].
  destruct (required_skills shift) as [|r rs] eqn:Hreq; [by left|]. right.
  destruct (has_any_skill (skills emp) (r :: rs)) eqn:Hany.
  - unfold has_any_skill in Hany. apply existsb_exists in Hany as (skill & Hin & Hmem).
    exists skill. split; [by apply list_elem_of_In | by apply mem_true].
  - exfalso. apply Hskill. split; [by rewrite Hreq|].
    rewrite Hreq. by apply has_any_skill_false.
Qed.

Lemma generated_assignments_valid_witness :
  ∃ emp shift,
    dict_get "E3" (st_employees (sample_session ∅)) = Some emp ∧
    dict_get "二期水吧-早班" (st_shifts (sample_session ∅)) = Some shift ∧
    (required_skills shift = [] ∨
     ∃ skill, skill ∈ required_skills shift ∧ skill ∈ skills emp).
Proof.
  eapply (generated_assignments_valid (sample_session ∅) sample_result
            738886 738888 true) with (date := "2024-01-01").
  - vm_compute. reflexivity.
  - vm_compute. reflexivity.
  - vm_compute. reflexivity.
Defined.

(** The schedule of a run never has more people on a shift than the engine
    may give it: two for the shift under the dynamic rule, the base staff for
    every other shift (one when the record gives none, two for the
    early-early shift). *)
Theorem generated_never_overstaffed (ss ss' : SessionState)
    (start_date end_date : Z) (clicked : bool) :
  generate_schedule ss start_date end_date clicked = Some (Generated, ss') →
  ∀ date entry shift_id shift,
    st_schedule ss' !! date = Some entry →
    dict_get shift_id (st_shifts ss) = Some shift →
    Z.of_nat (assigned_to shift_id (assignments entry))
    ≤ Z.max 0 (staff_cap shift_id shift).
Proof.
  intros Hrun date entry shift_id shift Hlook Hshift.
  pose proof (generate_schedule_ok _ _ _ _ _ Hrun) as [_ [Hcounts _]].
  rewrite <- (Hcounts date entry shift_id Hlook).
  apply generate_schedule_steps in Hrun as (st & Hsch & Hsteps).
  rewrite Hsch in Hlook.
  assert (Hcap : never_overstaffed (st_shifts ss) (schedule st)).
  { eapply steps_invariant; [apply step_never_overstaffed | exact Hsteps |].
    intros d e s sh Hd _. apply initial_state_entry in Hd as ->.
    rewrite empty_day_count. lia. }
  by apply (Hcap date entry).
Qed.

Lemma generated_never_overstaffed_witness :
  ∃ entry,
    st_schedule sample_result !! "2024-01-01" = Some entry ∧
    Z.of_nat (assigned_to "二期水吧-早班" (assignments entry))
    ≤ Z.max 0 (staff_cap "二期水吧-早班" (mkShift (Some 1) ["bar"] (Some (15 # 2)%Q))).
Proof.
  eexists. split.
  - vm_compute. reflexivity.
  - apply (generated_never_overstaffed (sample_session ∅) sample_result
             738886 738888 true) with (date := "2024-01-01").
    + vm_compute. reflexivity.
    + vm_compute. reflexivity.
    + vm_compute. reflexivity.
Defined.

(** With the Monday rule on, nobody has the early-early shift on a Monday in
    the schedule of a run. *)
Theorem generated_mondays_free (ss ss' : SessionState)
    (start_date end_date : Z) (clicked : bool) :
  generate_schedule ss start_date end_date clicked = Some (Generated, ss') →
  monday_no_early_early_shift (st_rules ss) = true →
  ∀ date entry emp_id,
    st_schedule ss' !! date = Some entry →
    get_weekday_chinese date = Some "周一" →
    assignments entry !! emp_id ≠ Some fixed_early_early_shift.
Proof.
  intros Hrun Hoff date entry emp_id Hlook Hmonday.
  apply generate_schedule_steps in Hrun as (st & Hsch & Hsteps).
  rewrite Hsch in Hlook.
  assert (Hfree : mondays_free (schedule st)).
  { eapply steps_invariant;
      [intros a b; by apply step_mondays_free | exact Hsteps |].
    intros d e a Hd _. apply initial_state_entry in Hd as ->.
    simpl. by rewrite lookup_empty. }
  by apply (Hfree date entry).
Qed.

Lemma generated_mondays_free_witness :
  ∃ entry,
    st_schedule sample_result !! "2024-01-01" = Some entry ∧
    assignments entry !! "E4" ≠ Some fixed_early_early_shift.
Proof.
  eexists. split.
  - vm_compute. reflexivity.
  - apply (generated_mondays_free (sample_session ∅) sample_result
             738886 738888 true) with (date := "2024-01-01").
    + vm_compute. reflexivity.
    + reflexivity.
    + vm_compute. reflexivity.
    + vm_compute. reflexivity.
Defined.

(** The schedule of a run has an entry for each day from the start date to
    the end date, both included, and for no other date. *)
Theorem generated_dates (ss ss' : SessionState)
    (start_date end_date : Z) (clicked : bool) :
  generate_schedule ss start_date end_date clicked = Some (Generated, ss') →
  ∀ date,
    is_Some (st_schedule ss' !! date) ↔
    ∃ day, start_date ≤ day ≤ end_date ∧ date = strftime day.
Proof.
  intros Hrun date.
  apply generate_schedule_steps in Hrun as (st & -> & Hsteps).
  rewrite <- (steps_schedule_lookup _ _ _ _ _ _ date Hsteps). simpl.
  rewrite initial_schedule_dom, list_elem_of_fmap. unfold date_range.
  split.
  - intros [(day & -> & Hday)|[? Hin]]; [|by rewrite lookup_empty in Hin].
    apply list_elem_of_fmap in Hday as (n & -> & Hn%elem_of_seq).
    eexists. split; [|done]. lia.
  - intros (day & Hday & ->). left. exists day. split; [done|].
    apply list_elem_of_fmap. exists (Z.to_nat (day - start_date)).
    split; [lia|]. apply elem_of_seq. lia.
Qed.

Lemma generated_dates_witness :
  is_Some (st_schedule sample_result !! "2024-01-02") ↔
  ∃ day, 738886 ≤ day ≤ 738888 ∧ "2024-01-02" = strftime day.
Proof.
  apply (generated_dates (sample_session ∅) sample_result 738886 738888 true).
  vm_compute. reflexivity.
Defined.

(** No phase removes or changes an assignment it finds: whatever an employee
    has on a date before a phase is still there after it. *)
Theorem phases_keep_assignments (employees : list (string * Employee))
    (shifts : list (string * Shift)) (fixed : list string) (monday_off : bool)
    (dates : list string) (st st' : GenState) :
  phase1 employees shifts fixed monday_off dates st = Some st' ∨
  phase2 employees shifts fixed monday_off dates st = Some st' ∨
  phase3 employees shifts fixed monday_off 3 dates st = Some st' ∨
  phase4 employees shifts monday_off dates st = Some st' →
  ∀ date entry emp_id shift_id,
    schedule st !! date = Some entry →
    assignments entry !! emp_id = Some shift_id →
    ∃ entry',
      schedule st' !! date = Some entry' ∧
      assignments entry' !! emp_id = Some shift_id.
Proof.
  intros Hrun.
  assert (Hsteps : rtc (book_step employees shifts monday_off dates) st st').
  { destruct Hrun as [H|[H|[H|H]]].
    - eapply phase1_steps; [|exact H]; done.
    - eapply phase2_steps; [|exact H]; done.
    - eapply phase3_steps; [|exact H]; done.
    - eapply phase4_steps; [|exact H]; done. }
  by apply (steps_keep_assignments _ _ _ _ _ _ Hsteps).
Qed.

Lemma phases_keep_assignments_witness :
  ∃ entry',
    schedule sample_idle_placed !! "2024-01-01" = Some entry' ∧
    assignments entry' !! "E3" = Some "二期水吧-早班".
Proof.
  eapply (phases_keep_assignments (st_employees (sample_session ∅))
            (st_shifts (sample_session ∅)) ["E4"] true sample_dates
            sample_filled sample_idle_placed).
  - right. right. right. vm_compute. reflexivity.
  - vm_compute. reflexivity.
  - vm_compute. reflexivity.
Defined.

(** * The pages that read and edit a stored schedule *)

(** ** The resolver of the pages *)

(** The requirement that the pages show is the one the engine fills against:
    on a date with a text and a schedule that is not empty, the resolver of
    [view_schedule] and [analyze_schedule] and the resolver nested in
    [generate_schedule] return the same staff, or both fail on a shift they do
    not know. *)
Theorem view_resolver_agrees (shifts : list (string * Shift))
    (shift_id date_str : string) (sch : Schedule) :
  date_str ≠ "" → sch ≠ ∅ →
  get_required_staff_for_view shift_id date_str sch shifts
  = get_required_staff shifts shift_id (Some date_str) (Some sch).
Proof.
  intros Hd%truthy_true Hs%dict_truthy_true.
  unfold get_required_staff_for_view, get_required_staff, base_required_staff.
  rewrite Hd, Hs, no_flexible_required_staff.
  by destruct (String.eqb shift_id early_shift_id).
Qed.

Lemma view_resolver_agrees_witness :
  get_required_staff_for_view "晚班" "2024-01-09" sample_schedule sample_shifts
  = get_required_staff sample_shifts "晚班" (Some "2024-01-09") (Some sample_schedule).
Proof.
  apply (view_resolver_agrees sample_shifts "晚班" "2024-01-09" sample_schedule).
  - vm_compute. intros [=].
  - apply dict_truthy_true. vm_compute. reflexivity.
Defined.

(** ** The dates in order *)

Lemma insert_sorted_perm {A : Type} (le : A → A → bool) (x : A) (l : list A) :
  insert_sorted le x l ≡ₚ x :: l.
Proof.
  induction l as [|y l IH]; simpl; [done|].
  destruct (le x y); [done|]. rewrite IH. apply Permutation_swap.
Qed.

Lemma stable_sort_perm {A : Type} (le : A → A → bool) (l : list A) :
  stable_sort le l ≡ₚ l.
Proof.
  unfold stable_sort. induction l as [|x l IH]; simpl; [done|].
  by rewrite insert_sorted_perm, IH.
Qed.

Lemma sorted_dates_elem (sch : Schedule) (date_str : string) :
  date_str ∈ sorted_dates sch ↔ is_Some (sch !! date_str).
Proof.
  unfold sorted_dates. rewrite stable_sort_elem, list_elem_of_fmap. split.
  - intros ([d entry] & -> & Hin). apply elem_of_map_to_list in Hin. by eexists.
  - intros [entry Hentry]. exists (date_str, entry). split; [done|].
    by apply elem_of_map_to_list.
Qed.

Lemma sorted_dates_NoDup (sch : Schedule) : NoDup (sorted_dates sch).
Proof.
  unfold sorted_dates. rewrite stable_sort_perm. apply NoDup_fst_map_to_list.
Qed.

(** ** Thinning the shifts of one employee *)

Lemma view_required_local (shifts : list (string * Shift))
    (shift_id date_str : string) (sch1 sch2 : Schedule) :
  sch1 !! date_str = sch2 !! date_str →
  get_required_staff_for_view shift_id date_str sch1 shifts
  = get_required_staff_for_view shift_id date_str sch2 shifts.
Proof. intros Heq. unfold get_required_staff_for_view. by rewrite Heq. Qed.

Lemma check_conflicts_local (employees : list (string * Employee))
    (shifts : list (string * Shift)) (emp_id shift_id date_str : string)
    (sch1 sch2 : Schedule) :
  sch1 !! date_str = sch2 !! date_str →
  check_conflicts employees shifts emp_id shift_id date_str sch1
  = check_conflicts employees shifts emp_id shift_id date_str sch2.
Proof.
  intros Heq. unfold check_conflicts, already_assigned. by rewrite Heq.
Qed.

Lemma thinned_day_local (employees : list (string * Employee))
    (shifts : list (string * Shift)) (target date_str : string)
    (sch1 sch2 : Schedule) (entry entry' : DayEntry) :
  sch1 !! date_str = sch2 !! date_str →
  thinned_day employees shifts target date_str sch1 entry entry' →
  thinned_day employees shifts target date_str sch2 entry entry'.
Proof.
  intros Heq [|shift_id required Htarget Hreq Hover
              |shift_id other Htarget Hne Hfree Hok].
  - constructor.
  - econstructor; [done | | done].
    by rewrite <- (view_required_local _ _ _ sch1 sch2 Heq).
  - econstructor; [done | done | done |].
    by rewrite <- (check_conflicts_local _ _ _ _ _ sch1 sch2 Heq).
Qed.

Lemma find_replacement_found (employees : list (string * Employee))
    (shifts : list (string * Shift)) (target shift_id date_str : string)
    (sch : Schedule) (asg : gmap string string) (others : list (string * Employee))
    (other_emp_id : string) (other_emp : Employee) :
  find_replacement employees shifts target shift_id date_str sch asg others
    = Some (Some (other_emp_id, other_emp)) →
  other_emp_id ≠ target ∧ asg !! other_emp_id = None ∧
  check_conflicts employees shifts other_emp_id shift_id date_str sch = Some [].
Proof.
  induction others as [|[o oe] others IH]; simpl; [done|].
  destruct (String.eqb_spec o target) as [->|Hne]; simpl; [done|].
  destruct (bool_decide (is_Some (asg !! o))) eqn:Hbusy; [done|].
  apply bool_decide_eq_false in Hbusy.
  intros Hrun. apply bind_Some in Hrun as (conflicts & Hfree & Hrun).
  destruct conflicts; [|by apply IH].
  injection Hrun as -> ->. split; [done|]. split; [|done].
  destruct (asg !! other_emp_id) eqn:E; [|done]. exfalso. apply Hbusy. by eexists.
Qed.

Lemma optimize_day_inv (employees : list (string * Employee))
    (shifts : list (string * Shift)) (target date_str : string)
    (sch sch' : Schedule) (n n' : Z) (rows rows' : list OptimizationDetail) :
  optimize_day employees shifts target date_str (sch, n, rows) = Some (sch', n', rows') →
  ∃ entry entry',
    sch !! date_str = Some entry ∧
    sch' = <[date_str := entry']> sch ∧
    thinned_day employees shifts target date_str sch entry entry'.
Proof.
  unfold optimize_day. intros Hrun.
  apply bind_Some in Hrun as (entry & Hentry & Hrun).
  destruct (assignments entry !! target) as [shift_id|] eqn:Htarget.
  2: { injection Hrun as <- _ _. exists entry, entry.
       split; [done|]. split; [by rewrite insert_id | constructor]. }
  apply bind_Some in Hrun as (required & Hreq & Hrun).
  destruct (Z.ltb_spec required (actual_staff shift_id (assignments entry)))
    as [Hover|_].
  - apply bind_Some in Hrun as (wd & _ & [= <- _ _]).
    eexists entry, _. split; [done|]. split; [done|]. by econstructor.
  - apply bind_Some in Hrun as (found & Hfound & Hrun).
    destruct found as [[other other_emp]|].
    + apply bind_Some in Hrun as (wd & _ & [= <- _ _]).
      apply find_replacement_found in Hfound as (Hne & Hfree & Hok).
      eexists entry, _. split; [done|]. split; [done|]. by econstructor.
    + apply bind_Some in Hrun as (wd & _ & [= <- _ _]).
      exists entry, entry. split; [done|]. split; [by rewrite insert_id | constructor].
Qed.

Lemma optimize_days_thinned (employees : list (string * Employee))
    (shifts : list (string * Shift)) (target : string) (sch0 : Schedule)
    (dates : list string) (sch1 sch' : Schedule) (n n' : Z)
    (rows rows' : list OptimizationDetail) :
  NoDup dates →
  (∀ d, d ∈ dates → sch1 !! d = sch0 !! d) →
  thinned employees shifts target sch0 sch1 →
  optimize_days employees shifts target dates (sch1, n, rows) = Some (sch', n', rows') →
  thinned employees shifts target sch0 sch'.
Proof.
  revert sch1 n rows. induction dates as [|d dates IH]; intros sch1 n rows Hnd Hsame Hthin; simpl.
  - by intros [= <- _ _].
  - intros Hrun. apply bind_Some in Hrun as ([[sch2 n2] rows2] & Hday & Hrun).
    apply list.NoDup_cons in Hnd as [Hfresh Hnd].
    apply optimize_day_inv in Hday as (entry & entry' & Hentry & -> & Hstep).
    assert (Hd : sch1 !! d = sch0 !! d) by (apply Hsame; by left).
    eapply (IH _ _ _ Hnd); [| |exact Hrun].
    + intros d' Hd'. rewrite lookup_insert_ne by (intros ->; done).
      apply Hsame. by right.
    + intros d'. destruct (decide (d = d')) as [<-|Hne].
      * rewrite lookup_insert_eq, <- Hd, Hentry.
        by apply (thinned_day_local _ _ _ _ sch1 sch0).
      * rewrite lookup_insert_ne by done. apply Hthin.
Qed.

Lemma optimize_target_thinned (employees : list (string * Employee))
    (shifts : list (string * Shift)) (target : string) (sch sch' : Schedule)
    (n : Z) (rows : list OptimizationDetail) :
  optimize_target employees shifts target sch = Some (sch', n, rows) →
  thinned employees shifts target sch sch'.
Proof.
  unfold optimize_target. intros Hrun.
  eapply optimize_days_thinned; [apply sorted_dates_NoDup | done | | exact Hrun].
  intros d. destruct (sch !! d); [constructor | done].
Qed.

Lemma assigned_to_delete (shift_id emp_id s : string) (asg : gmap string string) :
  asg !! emp_id = Some s →
  assigned_to shift_id asg
  = if decide (s = shift_id) then S (assigned_to shift_id (delete emp_id asg))
    else assigned_to shift_id (delete emp_id asg).
Proof.
  intros Hs. rewrite <- (insert_delete_id asg emp_id s Hs) at 1.
  apply assigned_to_insert. apply lookup_delete_eq.
Qed.

Lemma thinned_day_counts (employees : list (string * Employee))
    (shifts : list (string * Shift)) (target date_str : string) (sch : Schedule)
    (entry entry' : DayEntry) :
  thinned_day employees shifts target date_str sch entry entry' →
  (∀ s, count_of s entry = Z.of_nat (assigned_to s (assignments entry))) →
  ∀ s, count_of s entry' = Z.of_nat (assigned_to s (assignments entry')).
Proof.
  intros [|shift_id required Htarget _ _|shift_id other Htarget Hne Hfree _] Hinv s;
    [done| |]; unfold count_of; simpl.
  - pose proof (assigned_to_delete s _ _ _ Htarget) as Hdel.
    destruct (decide (shift_id = s)) as [<-|Hdiff].
    + rewrite lookup_insert_eq. simpl. unfold actual_staff.
      fold (assigned_to shift_id (assignments entry)). lia.
    + rewrite lookup_insert_ne by done. rewrite <- Hdel. apply Hinv.
  - rewrite assigned_to_insert by (by rewrite lookup_delete_ne).
    pose proof (assigned_to_delete s _ _ _ Htarget) as Hdel.
    specialize (Hinv s). unfold count_of in Hinv.
    destruct (decide (shift_id = s)); lia.
Qed.

(** Thinning keeps the counts right: if, on every date, the count of every
    shift is the number of its assignments before the button, so it is
    after. *)
Theorem optimize_target_keeps_counts (employees : list (string * Employee))
    (shifts : list (string * Shift)) (target : string) (sch sch' : Schedule)
    (n : Z) (rows : list OptimizationDetail) :
  optimize_target employees shifts target sch = Some (sch', n, rows) →
  counts_consistent sch → counts_consistent sch'.
Proof.
  intros Hrun%optimize_target_thinned Hinv date entry' s Hlook.
  specialize (Hrun date). rewrite Hlook in Hrun.
  destruct (sch !! date) as [entry|] eqn:Hentry; [|done].
  eapply thinned_day_counts; [exact Hrun|].
  intros s'. by apply (Hinv date).
Qed.

Lemma optimize_target_keeps_counts_witness : counts_consistent thinned_schedule.
Proof.
  apply (optimize_target_keeps_counts crowded_employees sample_shifts "E1"
           crowded_schedule thinned_schedule 1
           [mkDetail "2024-01-09" "周二" "晚班" RemovedDirectly]).
  - vm_compute. reflexivity.
  - intros date entry s Hlook.
    unfold crowded_schedule in Hlook.
    apply lookup_singleton_Some in Hlook as [_ <-].
    unfold count_of, crowded_day. simpl.
    rewrite assigned_to_insert by reflexivity.
    rewrite assigned_to_insert by reflexivity.
    rewrite assigned_to_empty.
    destruct (decide ("晚班" = s)) as [<-|Hlate]; [reflexivity|].
    destruct (decide ("早班" = s)) as [<-|Hearly]; [reflexivity|].
    by rewrite !lookup_insert_ne, lookup_empty.
Defined.

Lemma thinned_after (employees : list (string * Employee))
    (shifts : list (string * Shift)) (target date_str : string)
    (sch sch' : Schedule) (entry' : DayEntry) :
  thinned employees shifts target sch sch' →
  sch' !! date_str = Some entry' →
  ∃ entry, sch !! date_str = Some entry ∧
           thinned_day employees shifts target date_str sch entry entry'.
Proof.
  intros Hthin Hlook. specialize (Hthin date_str). rewrite Hlook in Hthin.
  destruct (sch !! date_str) as [entry|]; [by exists entry | done].
Qed.

Lemma thinned_before (employees : list (string * Employee))
    (shifts : list (string * Shift)) (target date_str : string)
    (sch sch' : Schedule) (entry : DayEntry) :
  thinned employees shifts target sch sch' →
  sch !! date_str = Some entry →
  ∃ entry', sch' !! date_str = Some entry' ∧
            thinned_day employees shifts target date_str sch entry entry'.
Proof.
  intros Hthin Hlook. specialize (Hthin date_str). rewrite Hlook in Hthin.
  destruct (sch' !! date_str) as [entry'|]; [by exists entry' | done].
Qed.

(** Thinning keeps rest days free: if nobody works on a fixed rest weekday or
    on an unavailable date before the button, nobody does after, because a
    shift is only handed to somebody for whom the conflict checker found
    nothing. *)
Theorem optimize_target_keeps_rest (employees : list (string * Employee))
    (shifts : list (string * Shift)) (target : string) (sch sch' : Schedule)
    (n : Z) (rows : list OptimizationDetail) :
  optimize_target employees shifts target sch = Some (sch', n, rows) →
  rest_respected employees sch → rest_respected employees sch'.
Proof.
  intros Hrun%optimize_target_thinned Hinv date entry' emp_id emp Hlook Hemp Hoff.
  destruct (thinned_after _ _ _ _ _ _ _ Hrun Hlook) as (entry & Hentry & Hday).
  pose proof (Hinv date entry emp_id emp Hentry Hemp Hoff) as Hfree.
  destruct Hday as [|shift_id required Htarget _ _|shift_id other Htarget Hne _ Hok];
    [done| |]; simpl.
  - destruct (decide (emp_id = target)) as [->|Hdiff].
    + apply lookup_delete_eq.
    + by rewrite lookup_delete_ne.
  - destruct (decide (other = emp_id)) as [->|Hother].
    + apply check_conflicts_nil in Hok
        as (emp' & shift & Hemp' & _ & Hrest & Hunav & _ & _).
      rewrite Hemp in Hemp'. injection Hemp' as <-. tauto.
    + rewrite lookup_insert_ne by done.
      destruct (decide (emp_id = target)) as [->|Hdiff].
      * apply lookup_delete_eq.
      * by rewrite lookup_delete_ne.
Qed.

Lemma crowded_schedule_rest : rest_respected crowded_employees crowded_schedule.
Proof.
  intros date entry emp_id emp Hlook Hemp Hoff.
  unfold crowded_schedule in Hlook.
  apply lookup_singleton_Some in Hlook as [<- <-].
  unfold crowded_employees in Hemp. simpl in Hemp.
  destruct (String.eqb emp_id "E1").
  - injection Hemp as <-.
    destruct Hoff as [[_ Hwd]|[_ Hin]]; vm_compute in Hwd || vm_compute in Hin; done.
  - destruct (String.eqb emp_id "E2"); [|done]. injection Hemp as <-.
    destruct Hoff as [[Hrest _]|[Hunav _]]; done.
Qed.

Lemma optimize_target_keeps_rest_witness :
  rest_respected crowded_employees thinned_schedule.
Proof.
  apply (optimize_target_keeps_rest crowded_employees sample_shifts "E1"
           crowded_schedule thinned_schedule 1
           [mkDetail "2024-01-09" "周二" "晚班" RemovedDirectly]).
  - vm_compute. reflexivity.
  - apply crowded_schedule_rest.
Defined.

(** Thinning keeps the assignments valid: if every assignment names a known
    employee and a known shift whose skills rule the employee meets before
    the button, so it is after. *)
Theorem optimize_target_keeps_valid (employees : list (string * Employee))
    (shifts : list (string * Shift)) (target : string) (sch sch' : Schedule)
    (n : Z) (rows : list OptimizationDetail) :
  optimize_target employees shifts target sch = Some (sch', n, rows) →
  assignments_valid employees shifts sch → assignments_valid employees shifts sch'.
Proof.
  intros Hrun%optimize_target_thinned Hinv date entry' emp_id shift_id Hlook Hasg.
  destruct (thinned_after _ _ _ _ _ _ _ Hrun Hlook) as (entry & Hentry & Hday).
  destruct Hday as [|s required Htarget _ _|s other Htarget Hne _ Hok];
    simpl in Hasg.
  - by apply (Hinv date entry).
  - apply lookup_delete_Some in Hasg as [_ Hasg]. by apply (Hinv date entry).
  - apply lookup_insert_Some in Hasg as [[<- <-]|[_ Hasg]].
    + apply check_conflicts_nil in Hok
        as (emp & shift & Hemp & Hshift & _ & _ & Hskill & _).
      by exists emp, shift.
    + apply lookup_delete_Some in Hasg as [_ Hasg]. by apply (Hinv date entry).
Qed.

Lemma crowded_schedule_valid :
  assignments_valid crowded_employees sample_shifts crowded_schedule.
Proof.
  intros date entry emp_id shift_id Hlook Hasg.
  unfold crowded_schedule in Hlook.
  apply lookup_singleton_Some in Hlook as [_ <-]. simpl in Hasg.
  apply lookup_insert_Some in Hasg as [[<- <-]|[_ Hasg]].
  - exists ann, one_person. split; [done|]. split; [done|]. by intros [? _].
  - apply lookup_insert_Some in Hasg as [[<- <-]|[_ Hasg]]; [|done].
    eexists _, one_person. split; [reflexivity|]. split; [done|]. by intros [? _].
Qed.

Lemma optimize_target_keeps_valid_witness :
  assignments_valid crowded_employees sample_shifts thinned_schedule.
Proof.
  apply (optimize_target_keeps_valid crowded_employees sample_shifts "E1"
           crowded_schedule thinned_schedule 1
           [mkDetail "2024-01-09" "周二" "晚班" RemovedDirectly]).
  - vm_compute. reflexivity.
  - apply crowded_schedule_valid.
Defined.

Lemma assignments_on_lookup (sch : Schedule) (date_str : string) (entry : DayEntry) :
  sch !! date_str = Some entry → assignments_on sch date_str = assignments entry.
Proof. intros H. unfold assignments_on. by rewrite H. Qed.

(** Thinning touches nobody's shifts but the target's: the dates stay the
    same; the target keeps a shift or loses it, and never gets or changes
    one; anybody else keeps the shift they had, and the only thing they can
    get, on a day without a shift, is the shift the target lost. *)
Theorem optimize_target_changes (employees : list (string * Employee))
    (shifts : list (string * Shift)) (target : string) (sch sch' : Schedule)
    (n : Z) (rows : list OptimizationDetail) (date_str emp_id : string) :
  optimize_target employees shifts target sch = Some (sch', n, rows) →
  (is_Some (sch' !! date_str) ↔ is_Some (sch !! date_str)) ∧
  (assignments_on sch' date_str !! target = assignments_on sch date_str !! target
   ∨ assignments_on sch' date_str !! target = None) ∧
  (emp_id ≠ target →
   assignments_on sch' date_str !! emp_id = assignments_on sch date_str !! emp_id
   ∨ (assignments_on sch date_str !! emp_id = None ∧
      assignments_on sch' date_str !! target = None ∧
      assignments_on sch' date_str !! emp_id = assignments_on sch date_str !! target)).
Proof.
  intros Hrun%optimize_target_thinned. specialize (Hrun date_str).
  unfold assignments_on.
  destruct (sch !! date_str) as [entry|], (sch' !! date_str) as [entry'|];
    try done.
  - split; [done|].
    destruct Hrun as [|s required Htarget _ _|s other Htarget Hne Hfree _]; simpl.
    + split; [by left|]. by left.
    + split; [right; apply lookup_delete_eq|].
      intros Hdiff. left. by rewrite lookup_delete_ne.
    + assert (Hgone : <[other := s]> (delete target (assignments entry)) !! target = None).
      { rewrite lookup_insert_ne by done. apply lookup_delete_eq. }
      split; [by right|]. intros Hdiff.
      destruct (decide (other = emp_id)) as [<-|Hother].
      * right. split; [done|]. split; [done|]. by rewrite lookup_insert_eq.
      * left. by rewrite lookup_insert_ne, lookup_delete_ne.
  - split; [|split; [by left|by left]]. split; intros [? [=]].
Qed.

Lemma optimize_target_changes_witness :
  (is_Some (thinned_schedule !! "2024-01-09")
   ↔ is_Some (crowded_schedule !! "2024-01-09")) ∧
  (assignments_on thinned_schedule "2024-01-09" !! "E1"
   = assignments_on crowded_schedule "2024-01-09" !! "E1"
   ∨ assignments_on thinned_schedule "2024-01-09" !! "E1" = None) ∧
  ("E2" ≠ "E1" →
   assignments_on thinned_schedule "2024-01-09" !! "E2"
   = assignments_on crowded_schedule "2024-01-09" !! "E2"
   ∨ (assignments_on crowded_schedule "2024-01-09" !! "E2" = None ∧
      assignments_on thinned_schedule "2024-01-09" !! "E1" = None ∧
      assignments_on thinned_schedule "2024-01-09" !! "E2"
      = assignments_on crowded_schedule "2024-01-09" !! "E1")).
Proof.
  apply (optimize_target_changes crowded_employees sample_shifts "E1"
           crowded_schedule thinned_schedule 1
           [mkDetail "2024-01-09" "周二" "晚班" RemovedDirectly]).
  vm_compute. reflexivity.
Defined.

(** Thinning takes nobody off a shift that has no more people than asked
    for: on every date the number of people on a shift stays as it was, or
    goes down by one and is then still at least what the resolver of the
    page asked for that shift on the schedule before the button. *)
Theorem optimize_target_staffing (employees : list (string * Employee))
    (shifts : list (string * Shift)) (target : string) (sch sch' : Schedule)
    (n : Z) (rows : list OptimizationDetail)
    (date_str shift_id : string) (entry entry' : DayEntry) :
  optimize_target employees shifts target sch = Some (sch', n, rows) →
  sch !! date_str = Some entry →
  sch' !! date_str = Some entry' →
  actual_staff shift_id (assignments entry')
  = actual_staff shift_id (assignments entry)
  ∨ ∃ required,
      get_required_staff_for_view shift_id date_str sch shifts = Some required ∧
      required ≤ actual_staff shift_id (assignments entry') ∧
      actual_staff shift_id (assignments entry')
      = actual_staff shift_id (assignments entry) - 1.
Proof.
  intros Hrun%optimize_target_thinned Hentry Hentry'.
  specialize (Hrun date_str). rewrite Hentry, Hentry' in Hrun.
  destruct Hrun as [|s required Htarget Hreq Hover|s other Htarget Hne Hfree _];
    [by left| |]; simpl.
  - pose proof (assigned_to_delete shift_id _ _ _ Htarget) as Hdel.
    unfold actual_staff in *.
    fold (assigned_to s (assignments entry)) in Hover.
    fold (assigned_to shift_id (assignments entry)).
    fold (assigned_to shift_id (delete target (assignments entry))).
    destruct (decide (s = shift_id)) as [->|Hdiff].
    + right. exists required. split; [done|]. lia.
    + left. lia.
  - left. unfold actual_staff.
    fold (assigned_to shift_id (assignments entry)).
    fold (assigned_to shift_id (<[other:=s]> (delete target (assignments entry)))).
    rewrite assigned_to_insert by (by rewrite lookup_delete_ne).
    pose proof (assigned_to_delete shift_id _ _ _ Htarget) as Hdel.
    destruct (decide (s = shift_id)); lia.
Qed.

Lemma optimize_target_staffing_witness :
  ∃ entry',
    thinned_schedule !! "2024-01-09" = Some entry' ∧
    (actual_staff "晚班" (assignments entry')
     = actual_staff "晚班" (assignments crowded_day)
     ∨ ∃ required,
         get_required_staff_for_view "晚班" "2024-01-09" crowded_schedule sample_shifts
         = Some required ∧
         required ≤ actual_staff "晚班" (assignments entry') ∧
         actual_staff "晚班" (assignments entry')
         = actual_staff "晚班" (assignments crowded_day) - 1).
Proof.
  eexists. split.
  - vm_compute. reflexivity.
  - apply (optimize_target_staffing crowded_employees sample_shifts "E1"
             crowded_schedule thinned_schedule 1
             [mkDetail "2024-01-09" "周二" "晚班" RemovedDirectly])
      with (date_str := "2024-01-09").
    + vm_compute. reflexivity.
    + vm_compute. reflexivity.
    + vm_compute. reflexivity.
Defined.

(** ** The number of shifts taken off *)

Lemma days_booked_insert_fresh (emp_id date_str : string) (entry : DayEntry)
    (sch : Schedule) :
  sch !! date_str = None →
  days_booked emp_id (<[date_str := entry]> sch)
  = if decide (is_Some (assignments entry !! emp_id))
    then S (days_booked emp_id sch) else days_booked emp_id sch.
Proof.
  intros Hfresh. unfold days_booked.
  destruct (decide (is_Some (assignments entry !! emp_id))) as [Hyes|Hno].
  - rewrite map_filter_insert_True by done.
    rewrite map_size_insert_None; [done|].
    apply map_lookup_filter_None. by left.
  - rewrite map_filter_insert_not'; [done | done |].
    intros y Hy. congruence.
Qed.

Lemma days_booked_insert (emp_id date_str : string) (entry entry' : DayEntry)
    (sch : Schedule) :
  sch !! date_str = Some entry →
  (days_booked emp_id (<[date_str := entry']> sch)
   + (if decide (is_Some (assignments entry !! emp_id)) then 1 else 0)
   = days_booked emp_id sch
     + (if decide (is_Some (assignments entry' !! emp_id)) then 1 else 0))%nat.
Proof.
  intros Hentry.
  rewrite <- (insert_delete_id sch date_str entry Hentry) at 2.
  rewrite <- (insert_delete_eq sch date_str entry').
  rewrite !days_booked_insert_fresh by apply lookup_delete_eq.
  destruct (decide (is_Some (assignments entry !! emp_id))),
           (decide (is_Some (assignments entry' !! emp_id))); lia.
Qed.

Lemma optimize_day_count (employees : list (string * Employee))
    (shifts : list (string * Shift)) (target date_str : string)
    (sch sch' : Schedule) (n n' : Z) (rows rows' : list OptimizationDetail) :
  optimize_day employees shifts target date_str (sch, n, rows) = Some (sch', n', rows') →
  n' + Z.of_nat (days_booked target sch') = n + Z.of_nat (days_booked target sch) ∧
  ∃ entry,
    sch !! date_str = Some entry ∧
    detail_date <$> rows'
    = ((detail_date <$> rows)
       ++ if decide (is_Some (assignments entry !! target)) then [date_str] else [])%list.
Proof.
  unfold optimize_day. intros Hrun.
  apply bind_Some in Hrun as (entry & Hentry & Hrun).
  destruct (assignments entry !! target) as [shift_id|] eqn:Htarget.
  2: { injection Hrun as <- <- <-. split; [done|]. exists entry. split; [done|].
       rewrite Htarget. destruct (decide (is_Some (@None string))) as [[? [=]]|].
       by rewrite app_nil_r. }
  assert (Hyes : is_Some (assignments entry !! target)) by (by rewrite Htarget).
  apply bind_Some in Hrun as (required & Hreq & Hrun).
  destruct (Z.ltb_spec required (actual_staff shift_id (assignments entry)))
    as [Hover|_].
  - apply bind_Some in Hrun as (wd & _ & [= <- <- <-]).
    split.
    + match goal with |- context [<[date_str := ?e]> sch] =>
        pose proof (days_booked_insert target date_str entry e sch Hentry) as Hsize
      end.
      simpl in Hsize. rewrite lookup_delete_eq in Hsize.
      destruct (decide (is_Some (assignments entry !! target))); [|done].
      destruct (decide (is_Some (@None string))) as [[? [=]]|]. lia.
    + exists entry. split; [done|]. rewrite fmap_app. simpl.
      rewrite Htarget. destruct (decide (is_Some (Some shift_id))) as [|[]]; done.
  - apply bind_Some in Hrun as (found & Hfound & Hrun).
    destruct found as [[other other_emp]|].
    + apply bind_Some in Hrun as (wd & _ & [= <- <- <-]).
      apply find_replacement_found in Hfound as (Hne & Hfree & Hok).
      split.
      * match goal with |- context [<[date_str := ?e]> sch] =>
          pose proof (days_booked_insert target date_str entry e sch Hentry) as Hsize
        end.
        simpl in Hsize.
        rewrite lookup_insert_ne, lookup_delete_eq in Hsize by done.
        destruct (decide (is_Some (assignments entry !! target))); [|done].
        destruct (decide (is_Some (@None string))) as [[? [=]]|]. lia.
      * exists entry. split; [done|]. rewrite fmap_app. simpl.
        rewrite Htarget. destruct (decide (is_Some (Some shift_id))) as [|[]]; done.
    + apply bind_Some in Hrun as (wd & _ & [= <- <- <-]).
      split; [done|]. exists entry. split; [done|]. rewrite fmap_app. simpl.
      rewrite Htarget. destruct (decide (is_Some (Some shift_id))) as [|[]]; done.
Qed.

Lemma optimize_days_count (employees : list (string * Employee))
    (shifts : list (string * Shift)) (target : string) (sch0 : Schedule)
    (dates : list string) (sch1 sch' : Schedule) (n n' : Z)
    (rows rows' : list OptimizationDetail) :
  NoDup dates →
  (∀ d, d ∈ dates → sch1 !! d = sch0 !! d) →
  optimize_days employees shifts target dates (sch1, n, rows) = Some (sch', n', rows') →
  n' + Z.of_nat (days_booked target sch') = n + Z.of_nat (days_booked target sch1) ∧
  detail_date <$> rows'
  = ((detail_date <$> rows)
     ++ filter (λ d, is_Some (assignments_on sch0 d !! target)) dates)%list.
Proof.
  revert sch1 n rows. induction dates as [|d dates IH]; intros sch1 n rows Hnd Hsame; simpl.
  - intros [= <- <- <-]. by rewrite app_nil_r.
  - intros Hrun. apply bind_Some in Hrun as ([[sch2 n2] rows2] & Hday & Hrun).
    apply list.NoDup_cons in Hnd as [Hfresh Hnd].
    destruct (optimize_day_count _ _ _ _ _ _ _ _ _ _ Hday)
      as (Hcount & entry & Hentry & Hrows).
    apply optimize_day_inv in Hday as (entry0 & entry' & Hentry0 & -> & _).
    apply IH in Hrun as [Hcount' Hrows']; [|done|].
    2: { intros d' Hd'. rewrite lookup_insert_ne by (intros ->; done).
         apply Hsame. by right. }
    split; [lia|]. rewrite Hrows', Hrows, <- app_assoc. f_equal.
    assert (Hd : assignments_on sch0 d = assignments entry).
    { apply assignments_on_lookup. rewrite <- Hentry. symmetry. apply Hsame. by left. }
    destruct (decide (is_Some (assignments entry !! target))) as [Hyes|Hno].
    + rewrite filter_cons_True by (by rewrite Hd). done.
    + rewrite filter_cons_False by (by rewrite Hd). done.
Qed.

(** The number reported by the button is the number of shifts the target
    lost, and the table has a row for each date on which the target had a
    shift, in the order of the dates. *)
Theorem optimize_target_count (employees : list (string * Employee))
    (shifts : list (string * Shift)) (target : string) (sch sch' : Schedule)
    (n : Z) (rows : list OptimizationDetail) :
  optimize_target employees shifts target sch = Some (sch', n, rows) →
  n = Z.of_nat (days_booked target sch) - Z.of_nat (days_booked target sch') ∧
  detail_date <$> rows
  = filter (λ d, is_Some (assignments_on sch d !! target)) (sorted_dates sch).
Proof.
  unfold optimize_target. intros Hrun.
  apply optimize_days_count with (sch0 := sch) in Hrun as [Hcount Hrows];
    [|apply sorted_dates_NoDup|done].
  split; [lia|done].
Qed.

Lemma optimize_target_count_witness :
  1 = Z.of_nat (days_booked "E1" crowded_schedule)
      - Z.of_nat (days_booked "E1" thinned_schedule) ∧
  detail_date <$> [mkDetail "2024-01-09" "周二" "晚班" RemovedDirectly]
  = filter (λ d, is_Some (assignments_on crowded_schedule d !! "E1"))
      (sorted_dates crowded_schedule).
Proof.
  apply (optimize_target_count crowded_employees sample_shifts "E1"
           crowded_schedule thinned_schedule 1
           [mkDetail "2024-01-09" "周二" "晚班" RemovedDirectly]).
  vm_compute. reflexivity.
Defined.

(** * The audit of consecutive days *)

Lemma consecutive_loop_spec (emp_id : string) (sch : Schedule) (dates : list string)
    (c m : Z) :
  (∀ d, d ∈ dates → is_Some (sch !! d)) →
  0 ≤ c ≤ m →
  ∃ c' m',
    consecutive_loop emp_id sch dates c m = Some (c', m') ∧
    m ≤ m' ∧
    (∀ pre seg post,
       dates = (pre ++ seg ++ post)%list →
       Forall (λ d, booked_on emp_id d sch) seg →
       Z.of_nat (length seg) ≤ m' ∧ (pre = [] → c + Z.of_nat (length seg) ≤ m')) ∧
    (m' = m ∨
     ∃ pre seg post,
       dates = (pre ++ seg ++ post)%list ∧
       Forall (λ d, booked_on emp_id d sch) seg ∧
       (Z.of_nat (length seg) = m' ∨ (pre = [] ∧ c + Z.of_nat (length seg) = m'))).
Proof.
  revert c m. induction dates as [|d dates IH]; intros c m Hin Hcm; simpl.
  - exists c, m. split; [done|]. split; [done|]. split; [|by left].
    intros pre seg post Hsplit _.
    destruct pre; [|done]. destruct seg; [|done]. simpl. lia.
  - destruct (Hin d) as [entry Hentry]; [by left|]. rewrite Hentry. simpl.
    assert (Hrest : ∀ d', d' ∈ dates → is_Some (sch !! d')) by (intros; apply Hin; by right).
    destruct (assignments entry !! emp_id) as [shift_id|] eqn:Hasg.
    + destruct (IH (c + 1) (Z.max m (c + 1)) Hrest)
        as (c' & m' & -> & Hm & Hbound & Hreach); [lia|].
      exists c', m'. split; [done|]. split; [lia|]. split.
      * intros pre seg post Hsplit Hseg. destruct pre as [|p pre]; simpl in Hsplit.
        -- destruct seg as [|s seg]; simpl in *; [lia|].
           injection Hsplit as <- ->. apply list.Forall_cons in Hseg as [_ Hseg].
           destruct (Hbound [] seg post eq_refl Hseg) as [_ Hfirst].
           specialize (Hfirst eq_refl). lia.
        -- injection Hsplit as <- ->.
           destruct (Hbound pre seg post eq_refl Hseg) as [Hlen _]. by split.
      * destruct Hreach as [->|(pre & seg & post & -> & Hseg & Hlen)].
        -- destruct (Z.max_spec m (c + 1)) as [[_ ->]|[_ ->]].
           ++ right. exists [], [d], dates. split; [done|]. split.
              ** apply Forall_singleton. exists entry. by rewrite Hasg.
              ** right. split; [done|]. simpl. lia.
           ++ by left.
        -- right. destruct Hlen as [Hlen|[-> Hlen]].
           ++ exists (d :: pre), seg, post. split; [done|]. split; [done|]. by left.
           ++ exists [], (d :: seg), post. split; [done|]. split.
              ** apply list.Forall_cons. split; [|done]. exists entry. by rewrite Hasg.
              ** right. split; [done|]. simpl length. lia.
    + destruct (IH 0 m Hrest) as (c' & m' & -> & Hm & Hbound & Hreach); [lia|].
      exists c', m'. split; [done|]. split; [done|]. split.
      * intros pre seg post Hsplit Hseg. destruct pre as [|p pre]; simpl in Hsplit.
        -- destruct seg as [|s seg]; simpl in *; [lia|].
            injection Hsplit as <- ->. apply list.Forall_cons in Hseg as [Hd _].
              destruct Hd as (entry' & Hentry' & Hsome).
              rewrite Hentry in Hentry'. injection Hentry' as <-.
              rewrite Hasg in Hsome. by destruct Hsome.
        -- injection Hsplit as <- ->.
           destruct (Hbound pre seg post eq_refl Hseg) as [Hlen _]. by split.
      * destruct Hreach as [->|(pre & seg & post & -> & Hseg & Hlen)]; [by left|].
        right. exists (d :: pre), seg, post. split; [done|]. split; [done|].
        left. destruct Hlen as [Hlen|[_ Hlen]]; lia.
Qed.

(** The audit finds the longest run: the number it compares with the limit
    is the length of a run of the employee, and no run is longer.  A run is
    a stretch of dates that follow one another in the schedule, whether or
    not they are consecutive days of the calendar.  The loop never fails,
    since it only reads dates the schedule has. *)
Theorem max_consecutive_days_worked_longest (emp_id : string) (sch : Schedule) :
  ∃ longest,
    max_consecutive_days_worked emp_id sch = Some longest ∧
    (∀ seg, run_of emp_id sch seg → Z.of_nat (length seg) ≤ longest) ∧
    (∃ seg, run_of emp_id sch seg ∧ Z.of_nat (length seg) = longest).
Proof.
  destruct (consecutive_loop_spec emp_id sch (sorted_dates sch) 0 0)
    as (c' & m' & Hloop & _ & Hbound & Hreach); [|lia|].
  { intros d Hd. by apply sorted_dates_elem. }
  exists m'. unfold max_consecutive_days_worked. rewrite Hloop. split; [done|]. split.
  - intros seg [(pre & post & Hsplit) Hseg].
    by destruct (Hbound pre seg post Hsplit Hseg).
  - destruct Hreach as [->|(pre & seg & post & Hsplit & Hseg & Hlen)].
    + exists []. split; [|done]. split; [|done]. by exists [], (sorted_dates sch).
    + exists seg. split; [split; [by exists pre, post | done]|].
      destruct Hlen as [Hlen|[_ Hlen]]; lia.
Qed.

(** * The comparison of two schedules *)

Lemma omap_nil_iff {A B : Type} (f : A → option B) (l : list A) :
  omap f l = [] ↔ ∀ x, x ∈ l → f x = None.
Proof.
  induction l as [|a l IH]; simpl.
  - split; [|done]. intros _ x Hx. by apply elem_of_nil in Hx.
  - destruct (f a) as [b|] eqn:Hfa.
    + split; [done|]. intros Hall. specialize (Hall a). rewrite Hfa in Hall.
      discriminate Hall. by left.
    + rewrite IH. split.
      * intros Hall x [->|Hx]%elem_of_cons; [done | by apply Hall].
      * intros Hall x Hx. apply Hall. by right.
Qed.

Lemma bind_nil_iff {A B : Type} (f : A → list B) (l : list A) :
  l ≫= f = [] ↔ ∀ x, x ∈ l → f x = [].
Proof.
  induction l as [|a l IH]; simpl.
  - split; [|done]. intros _ x Hx. by apply elem_of_nil in Hx.
  - split.
    + intros [Ha Hl]%app_eq_nil x [->|Hx]%elem_of_cons; [done|]. by apply IH.
    + intros Hall. rewrite (Hall a) by (by left). simpl. apply IH.
      intros x Hx. apply Hall. by right.
Qed.

Lemma diff_rows_on_nil (employees : list (string * Employee))
    (sch modified : Schedule) (date_str : string) :
  diff_rows_on employees sch modified date_str = []
  ↔ assignments_on sch date_str = assignments_on modified date_str.
Proof.
  unfold diff_rows_on. rewrite omap_nil_iff. split.
  - intros Hall. apply map_eq. intros emp_id.
    destruct (decide (emp_id ∈ dom (assignments_on sch date_str)
                               ∪ dom (assignments_on modified date_str))) as [Hin|Hout].
    + apply elem_of_elements in Hin. specialize (Hall emp_id Hin). simpl in Hall.
      destruct (bool_decide_reflect
                  (assignments_on sch date_str !! emp_id
                   ≠ assignments_on modified date_str !! emp_id)) as [|Heq]; [done|].
      by apply dec_stable.
    + apply not_elem_of_union in Hout as [H1%not_elem_of_dom H2%not_elem_of_dom].
      by rewrite H1, H2.
  - intros Heq emp_id _. simpl. rewrite Heq.
    by rewrite bool_decide_eq_false_2 by (intros H; by apply H).
Qed.

(** The comparison has no row exactly when the two schedules give the same
    assignments on every date.  What else differs between them, the counts
    of the shifts or a date without assignments, is not shown. *)
Theorem diff_data_empty (employees : list (string * Employee))
    (sch modified : Schedule) :
  diff_data employees sch modified = []
  ↔ ∀ date_str, assignments_on sch date_str = assignments_on modified date_str.
Proof.
  unfold diff_data. rewrite bind_nil_iff. split.
  - intros Hall date_str.
    destruct (decide (date_str ∈ (dom sch ∪ dom modified : gset string))) as [Hin|Hout].
    + apply diff_rows_on_nil with (employees := employees). apply Hall.
      unfold diff_dates. rewrite stable_sort_elem. by apply elem_of_elements.
    + apply not_elem_of_union in Hout as [H1%not_elem_of_dom H2%not_elem_of_dom].
      unfold assignments_on. by rewrite H1, H2.
  - intros Hall date_str _. by apply diff_rows_on_nil.
Qed.

(** * The cells of the poster and of the export *)

Lemma rest_respected_free (employees : list (string * Employee)) (sch : Schedule)
    (emp_id date_str : string) (emp : Employee) :
  rest_respected employees sch →
  dict_get emp_id employees = Some emp →
  rests_on emp date_str ∨ unavailable_on emp date_str →
  assignments_on sch date_str !! emp_id = None.
Proof.
  intros Hinv Hemp Hoff. unfold assignments_on.
  destruct (sch !! date_str) as [entry|] eqn:Hentry; [|done].
  by apply (Hinv date_str entry emp_id emp).
Qed.

Lemma rest_cells (employees : list (string * Employee)) (sch : Schedule)
    (emp_id date_str : string) (emp : Employee) (current_shift_type : option string) :
  rest_respected employees sch →
  dict_get emp_id employees = Some emp →
  rests_on emp date_str →
  poster_cell emp_id emp date_str sch = Some CellFixedRest ∧
  export_cell emp_id emp date_str sch current_shift_type
  = Some ("休", current_shift_type).
Proof.
  intros Hinv Hemp Hrest.
  pose proof (rest_respected_free _ _ _ _ _ Hinv Hemp (or_introl Hrest)) as Hfree.
  destruct Hrest as [Hday%truthy_true Hwd].
  unfold poster_cell, export_cell. rewrite Hfree, Hwd. simpl.
  unfold get_weekday_chinese in Hwd.
  destruct (strptime date_str) as [date_obj|]; [|done].
  simpl in *. injection Hwd as Hwd.
  by rewrite Hwd, Hday, String.eqb_refl.
Qed.

(** The poster and the export of a generated schedule show every fixed rest
    weekday as rest: on a date that falls on the rest weekday of an employee
    of the session, the cell of the poster is the rest cell and the cell of
    the export reads 休, whatever happened on the days before. *)
Theorem generated_rest_cells (ss ss' : SessionState) (start_date end_date : Z)
    (clicked : bool) (emp_id date_str : string) (emp : Employee)
    (current_shift_type : option string) :
  generate_schedule ss start_date end_date clicked = Some (Generated, ss') →
  dict_get emp_id (st_employees ss) = Some emp →
  rests_on emp date_str →
  poster_cell emp_id emp date_str (st_schedule ss') = Some CellFixedRest ∧
  export_cell emp_id emp date_str (st_schedule ss') current_shift_type
  = Some ("休", current_shift_type).
Proof.
  intros Hrun%generate_schedule_ok Hemp Hrest. destruct Hrun as [_ [_ Hinv]].
  by apply (rest_cells (st_employees ss)).
Qed.

Lemma generated_rest_cells_witness :
  poster_cell "E1" ann "2024-01-01" (st_schedule sample_result) = Some CellFixedRest ∧
  export_cell "E1" ann "2024-01-01" (st_schedule sample_result) (Some "早班")
  = Some ("休", Some "早班").
Proof.
  apply (generated_rest_cells (sample_session ∅) sample_result 738886 738888 true).
  - vm_compute. reflexivity.
  - vm_compute. reflexivity.
  - split; [done | vm_compute; reflexivity].
Defined.

(** * The workload of a run *)

Lemma days_booked_none (emp_id : string) (sch : Schedule) :
  (∀ date_str entry, sch !! date_str = Some entry → assignments entry !! emp_id = None) →
  days_booked emp_id sch = 0%nat.
Proof.
  intros Hnone. unfold days_booked. apply map_size_empty_iff, map_empty.
  intros date_str. apply map_lookup_filter_None. right.
  intros entry Hentry [shift_id Hsome]. simpl in Hsome.
  by rewrite (Hnone date_str entry Hentry) in Hsome.
Qed.

Lemma initial_state_workload (employees : list (string * Employee))
    (shifts : list (string * Shift)) (dates : list string) :
  workload_exact (initial_state employees shifts dates).
Proof.
  intros emp_id w Hw. rewrite days_booked_none.
  - simpl in Hw. apply elem_of_list_to_map_2 in Hw.
    apply list_elem_of_fmap in Hw as (e & [= _ ->] & _). done.
  - intros d entry Hentry. apply initial_state_entry in Hentry as ->. done.
Qed.

Lemma step_workload (employees : list (string * Employee))
    (shifts : list (string * Shift)) (monday_off : bool) (dates : list string)
    (st st' : GenState) :
  book_step employees shifts monday_off dates st st' →
  workload_exact st → workload_exact st'.
Proof.
  intros [d e s wd shift count required sch1 sch2 wl c
            _ _ _ _ Hfree _ _ _ Hsch1 Hsch2 Hwork _ ->] Hinv. simpl.
  destruct (book_schedule _ _ _ _ _ _ _ Hsch1 Hsch2) as (entry & Hentry & ->).
  pose proof (check_conflicts_free _ _ _ _ _ _ _ Hfree Hentry) as Hnone.
  apply bind_Some in Hwork as (w0 & Hw0 & [= <-]).
  intros emp_id w Hw. simpl in *.
  match goal with |- context [<[d := ?e']> (schedule st)] =>
    pose proof (days_booked_insert emp_id d entry e' (schedule st) Hentry) as Hsize
  end.
  simpl in Hsize.
  destruct (decide (e = emp_id)) as [<-|Hdiff].
  - rewrite lookup_insert_eq in Hw. injection Hw as <-. simpl.
    rewrite (Hinv e w0 Hw0). rewrite Hnone, lookup_insert_eq in Hsize.
    destruct (decide (is_Some (@None string))) as [[? [=]]|].
    destruct (decide (is_Some (Some s))) as [|[]]; [lia | done].
  - rewrite lookup_insert_ne in Hw by done.
    rewrite (Hinv emp_id w Hw). rewrite lookup_insert_ne in Hsize by done.
    destruct (decide (is_Some (assignments entry !! emp_id))); lia.
Qed.

Lemma steps_workload (employees : list (string * Employee))
    (shifts : list (string * Shift)) (monday_off : bool) (dates : list string)
    (st st' : GenState) :
  rtc (book_step employees shifts monday_off dates) st st' →
  workload_exact st → workload_exact st'.
Proof.
  induction 1 as [st|st0 st1 st2 Hstep _ IH]; [done|].
  intros Hinv. apply IH. by eapply step_workload.
Qed.

(** The workload that the scorer and the last phase balance on is exact
    at the end of the four phases: the days counted for an employee are the
    dates on which the schedule has a shift for that employee. *)
Theorem run_phases_workload (employees : list (string * Employee))
    (shifts : list (string * Shift)) (fixed : list string) (monday_off : bool)
    (start_date end_date : Z) (st : GenState) (emp_id : string) (w : Workload) :
  run_phases employees shifts fixed monday_off start_date end_date = Some st →
  employee_workload st !! emp_id = Some w →
  days w = Z.of_nat (days_booked emp_id (schedule st)).
Proof.
  intros Hrun%run_phases_steps. revert emp_id w.
  eapply steps_workload; [exact Hrun|]. apply initial_state_workload.
Qed.

Lemma run_phases_workload_witness :
  ∃ w,
    employee_workload sample_run_state !! "E2" = Some w ∧
    days w = Z.of_nat (days_booked "E2" (schedule sample_run_state)).
Proof.
  eexists. split.
  - vm_compute. reflexivity.
  - apply (run_phases_workload (st_employees (sample_session ∅))
             (st_shifts (sample_session ∅)) ["E4"] true 738886 738888).
    + vm_compute. reflexivity.
    + vm_compute. reflexivity.
Defined.
